(** * gitops-operator: dependency installer and ArgoCD console-link reconciler

    A shallow embedding of
      - pkg/controller/gitopsservice/dependency/dependency.go, operator.go
      - pkg/controller/argocd/argocd_controller.go
    Every call on the cluster API client is an explicit request of a small
    program monad; a program is run either against an arbitrary sequence of
    answers ([runs]) or against a store of cluster objects ([exec]).
    Logging calls have no effect on results and are left out. *)

From Stdlib Require Import ZArith String List Lia.
From stdpp Require Import base option list gmap strings.
Import ListNotations.
Local Open Scope string_scope.

(** ** Library types the code builds and reads *)

Module metav1.
(** metav1.ObjectMeta, the fields the code uses. *)
Record ObjectMeta := {
  Name : string;
  Namespace : string;
  ResourceVersion : string
}.

(** The zero value with only a name, and with a name and a namespace. *)
Definition named (name : string) : ObjectMeta :=
  {| Name := name; Namespace := ""; ResourceVersion := "" |}.
Definition namespaced (namespace name : string) : ObjectMeta :=
  {| Name := name; Namespace := namespace; ResourceVersion := "" |}.
Definition zero : ObjectMeta := named "".

(** metav1.StatusReason is a string type. *)
Definition StatusReason := string.
Definition StatusReasonUnknown : StatusReason := "".
Definition StatusReasonNotFound : StatusReason := "NotFound".
Definition StatusReasonAlreadyExists : StatusReason := "AlreadyExists".
End metav1.

Module types.
Record NamespacedName := {
  Namespace : string;
  Name : string
}.

#[global] Instance NamespacedName_eq_dec : EqDecision NamespacedName.
Proof. solve_decision. Defined.

#[global] Instance NamespacedName_countable : Countable NamespacedName.
Proof.
  apply (inj_countable'
           (fun n => (Namespace n, Name n))
           (fun p => {| Namespace := fst p; Name := snd p |})).
  intros []; reflexivity.
Defined.
End types.

Module corev1.
Record Namespace := { ObjectMeta : metav1.ObjectMeta }.
End corev1.

(** operators/v1 *)
Module v1.
Record OperatorGroupSpec := { TargetNamespaces : list string }.
Record OperatorGroup := {
  ObjectMeta : metav1.ObjectMeta;
  Spec : OperatorGroupSpec
}.
End v1.

(** operators/v1alpha1 *)
Module v1alpha1.
Record SubscriptionSpec := {
  Channel : string;
  CatalogSource : string;
  CatalogSourceNamespace : string;
  Package : string
}.
(** Spec is a pointer in Go: [None] is nil. *)
Record Subscription := {
  sub_ObjectMeta : metav1.ObjectMeta;
  sub_Spec : option SubscriptionSpec
}.

(** ClusterServiceVersionPhase and ConditionReason are string types. *)
Definition ClusterServiceVersionPhase := string.
Definition CSVPhaseNone : ClusterServiceVersionPhase := "".
Definition CSVPhasePending : ClusterServiceVersionPhase := "Pending".
Definition CSVPhaseInstalling : ClusterServiceVersionPhase := "Installing".
Definition CSVPhaseSucceeded : ClusterServiceVersionPhase := "Succeeded".
Definition CSVPhaseFailed : ClusterServiceVersionPhase := "Failed".

Record ClusterServiceVersionStatus := {
  Phase : ClusterServiceVersionPhase;
  Reason : string
}.
Record ClusterServiceVersion := {
  csv_ObjectMeta : metav1.ObjectMeta;
  Status : ClusterServiceVersionStatus
}.
(** [&v1alpha1.ClusterServiceVersion{}] *)
Definition zeroClusterServiceVersion : ClusterServiceVersion :=
  {| csv_ObjectMeta := metav1.zero;
     Status := {| Phase := CSVPhaseNone; Reason := "" |} |}.
End v1alpha1.

Module argoprojv1alpha1.
Record ArgoCD := { ObjectMeta : metav1.ObjectMeta }.
Definition zeroArgoCD : ArgoCD := {| ObjectMeta := metav1.zero |}.
End argoprojv1alpha1.

Module routev1.
Record RouteSpec := { Host : string }.
Record Route := {
  ObjectMeta : metav1.ObjectMeta;
  Spec : RouteSpec
}.
Definition zeroRoute : Route :=
  {| ObjectMeta := metav1.zero; Spec := {| Host := "" |} |}.
End routev1.

Module console.
Record Link := { Text : string; Href : string }.
(** ConsoleLinkLocation is a string type. *)
Definition ConsoleLinkLocation := string.
Definition ApplicationMenu : ConsoleLinkLocation := "ApplicationMenu".
Record ApplicationMenuSpec := { MenuSection : string; ImageURL : string }.
(** The ApplicationMenu field is a pointer in Go: [None] is nil. *)
Record ConsoleLinkSpec := {
  spec_Link : Link;
  Location : ConsoleLinkLocation;
  spec_ApplicationMenu : option ApplicationMenuSpec
}.
Record ConsoleLink := {
  ObjectMeta : metav1.ObjectMeta;
  Spec : ConsoleLinkSpec
}.
Definition zeroConsoleLink : ConsoleLink :=
  {| ObjectMeta := metav1.zero;
     Spec := {| spec_Link := {| Text := ""; Href := "" |};
                Location := "";
                spec_ApplicationMenu := None |} |}.
End console.

(** ** Go errors *)

(** An error value is an API status error carrying a reason, or a plain
    message (fmt.Errorf, errors.New).  A nil error is [None]. *)
Inductive error :=
| StatusError (reason : metav1.StatusReason) (message : string)
| errorString (message : string).

Module errors.
Definition ReasonForError (err : error) : metav1.StatusReason :=
  match err with
  | StatusError reason _ => reason
  | errorString _ => metav1.StatusReasonUnknown
  end.
Definition IsNotFound (err : error) : bool :=
  String.eqb (ReasonForError err) metav1.StatusReasonNotFound.
Definition IsAlreadyExists (err : error) : bool :=
  String.eqb (ReasonForError err) metav1.StatusReasonAlreadyExists.
Definition NewNotFound (name : string) : error :=
  StatusError metav1.StatusReasonNotFound (name +:+ " not found").
Definition NewAlreadyExists (name : string) : error :=
  StatusError metav1.StatusReasonAlreadyExists (name +:+ " already exists").
End errors.

Module fmt.
(** fmt.Errorf with a format that ends in one %s verb. *)
Definition Errorf (prefix arg : string) : error := errorString (prefix +:+ arg).
(** fmt.Sprintf with a format that ends in one %s verb. *)
Definition Sprintf (prefix arg : string) : string := prefix +:+ arg.
End fmt.

Module time.
(** time.Duration counts nanoseconds. *)
Definition Duration := Z.
Definition Nanosecond : Duration := 1%Z.
Definition Microsecond : Duration := (1000 * Nanosecond)%Z.
Definition Millisecond : Duration := (1000 * Microsecond)%Z.
Definition Second : Duration := (1000 * Millisecond)%Z.
Definition Minute : Duration := (60 * Second)%Z.
End time.

(** ** The cluster API client *)

Module client.
(** The kinds of object the two controllers pass to the client. *)
Inductive Kind :=
| KNamespace | KOperatorGroup | KSubscription | KClusterServiceVersion
| KArgoCD | KRoute | KConsoleLink.

#[global] Instance Kind_eq_dec : EqDecision Kind.
Proof. solve_decision. Defined.

(** The Go type behind a runtime.Object of each kind. *)
Definition ObjectOf (k : Kind) : Type :=
  match k with
  | KNamespace => corev1.Namespace
  | KOperatorGroup => v1.OperatorGroup
  | KSubscription => v1alpha1.Subscription
  | KClusterServiceVersion => v1alpha1.ClusterServiceVersion
  | KArgoCD => argoprojv1alpha1.ArgoCD
  | KRoute => routev1.Route
  | KConsoleLink => console.ConsoleLink
  end.

Definition GetObjectMeta {k : Kind} : ObjectOf k -> metav1.ObjectMeta :=
  match k with
  | KNamespace => corev1.ObjectMeta
  | KOperatorGroup => v1.ObjectMeta
  | KSubscription => v1alpha1.sub_ObjectMeta
  | KClusterServiceVersion => v1alpha1.csv_ObjectMeta
  | KArgoCD => argoprojv1alpha1.ObjectMeta
  | KRoute => routev1.ObjectMeta
  | KConsoleLink => console.ObjectMeta
  end.

(** The key an object is stored under: its own namespace and name. *)
Definition ObjectKey {k : Kind} (obj : ObjectOf k) : types.NamespacedName :=
  {| types.Namespace := metav1.Namespace (GetObjectMeta obj);
     types.Name := metav1.Name (GetObjectMeta obj) |}.

(** A program over the client: it returns, or issues one request and goes on
    with the answer.  [CallSleep] is the wait for the next tick of a poll. *)
Inductive Prog (A : Type) : Type :=
| Ret (a : A)
| CallGet (k : Kind) (key : types.NamespacedName)
          (cont : ObjectOf k + error -> Prog A)
| CallCreate (k : Kind) (obj : ObjectOf k) (cont : option error -> Prog A)
| CallDelete (k : Kind) (obj : ObjectOf k) (cont : option error -> Prog A)
| CallSleep (d : time.Duration) (cont : unit -> Prog A).
Arguments Ret {A} a.
Arguments CallGet {A} k key cont.
Arguments CallCreate {A} k obj cont.
Arguments CallDelete {A} k obj cont.
Arguments CallSleep {A} d cont.

Fixpoint bind {A B : Type} (p : Prog A) (f : A -> Prog B) : Prog B :=
  match p with
  | Ret a => f a
  | CallGet k key cont => CallGet k key (fun r => bind (cont r) f)
  | CallCreate k obj cont => CallCreate k obj (fun r => bind (cont r) f)
  | CallDelete k obj cont => CallDelete k obj (fun r => bind (cont r) f)
  | CallSleep d cont => CallSleep d (fun r => bind (cont r) f)
  end.

(** client.Get(ctx, key, obj): on success [obj] is overwritten with what was
    read, on failure it is left as it was passed. *)
Definition Get (k : Kind) (key : types.NamespacedName) (obj : ObjectOf k)
  : Prog (ObjectOf k * option error) :=
  CallGet k key (fun r =>
    match r with
    | inl found => Ret (found, None)
    | inr err => Ret (obj, Some err)
    end).

(** client.Create(ctx, obj) and client.Delete(ctx, obj). *)
Definition Create (k : Kind) (obj : ObjectOf k) : Prog (option error) :=
  CallCreate k obj Ret.
Definition Delete (k : Kind) (obj : ObjectOf k) : Prog (option error) :=
  CallDelete k obj Ret.

(** One request together with the answer it got. *)
Inductive Event :=
| EvGet (k : Kind) (key : types.NamespacedName) (r : ObjectOf k + error)
| EvCreate (k : Kind) (obj : ObjectOf k) (r : option error)
| EvDelete (k : Kind) (obj : ObjectOf k) (r : option error)
| EvSleep (d : time.Duration).

(** [runs p t a]: answered as [t] records, [p] issues exactly the requests
    of [t], in that order, and returns [a]. *)
Fixpoint runs {A : Type} (p : Prog A) (t : list Event) (a : A) : Prop :=
  match p with
  | Ret a' => t = [] /\ a = a'
  | CallGet k key cont =>
      exists r t', t = EvGet k key r :: t' /\ runs (cont r) t' a
  | CallCreate k obj cont =>
      exists r t', t = EvCreate k obj r :: t' /\ runs (cont r) t' a
  | CallDelete k obj cont =>
      exists r t', t = EvDelete k obj r :: t' /\ runs (cont r) t' a
  | CallSleep d cont =>
      exists t', t = EvSleep d :: t' /\ runs (cont tt) t' a
  end.

(** Reads and writes in a trace. *)
Definition is_write (ev : Event) : bool :=
  match ev with
  | EvCreate _ _ _ | EvDelete _ _ _ => true
  | EvGet _ _ _ | EvSleep _ => false
  end.
Definition writes (t : list Event) : list Event := List.filter is_write t.

(** The read [ev] failed with [err]. *)
Definition read_failed (err : error) (ev : Event) : Prop :=
  match ev with
  | EvGet _ _ (inr e) => e = err
  | _ => False
  end.
End client.

Declare Scope prog_scope.
Delimit Scope prog_scope with prog.
Notation "'let*' x ':=' c1 'in' c2" := (client.bind c1 (fun x => c2))
  (at level 10, x pattern, c1 at level 100, c2 at level 200) : prog_scope.
Local Open Scope prog_scope.

(** ** k8s.io/apimachinery/pkg/util/wait *)

Module wait.
Import client.
(** A ConditionFunc reports (done, err); each call may talk to the client. *)
Definition ConditionFunc := Prog (bool * option error).

Definition ErrWaitTimeout : error :=
  errorString "timed out waiting for the condition".

(** Modelled from the spec: wait.PollImmediate belongs to a library outside
    the repository; its loop is taken from the description of the readiness
    poll, in discrete time.  These are the ticks that follow the first call:
    wait one interval, call the condition, stop on an error or on done; when
    no tick is left the deadline has passed and the poll fails with the
    timeout error. *)
Fixpoint poll (ticks : nat) (interval : time.Duration)
    (condition : ConditionFunc) : Prog (option error) :=
  match ticks with
  | O => Ret (Some ErrWaitTimeout)
  | S ticks' =>
      CallSleep interval (fun _ =>
        let* (done, err) := condition in
        match err with
        | Some _ => Ret err
        | None => if done then Ret None else poll ticks' interval condition
        end)
  end.

(** Modelled from the spec: PollImmediate(interval, timeout, condition) of
    the same library.  The condition is called at once and then once per
    interval until it returns true or an error, or until the timeout has
    elapsed, which is ErrWaitTimeout; timeout / interval ticks fit in the
    timeout, and a call of the condition takes no time. *)
Definition PollImmediate (interval timeout : time.Duration)
    (condition : ConditionFunc) : Prog (option error) :=
  let* (done, err) := condition in
  match err with
  | Some _ => Ret err
  | None =>
      if done then Ret None
      else poll (Z.to_nat (timeout / interval)) interval condition
  end.
End wait.

(** ** pkg/controller/gitopsservice/dependency *)

Module dependency.
Import client.

Definition cicdNs := "cicd".
Definition sealedSecretsSubName := "sealed-secrets-operator-helm".
Definition argocdSubName := "argocd-operator".
Definition sealedSecretsGroupName := "sealed-secrets-operator-group".
Definition argocdGroupName := "argocd-operator-group".

(** Dependency: the client is the ambient effect of [Prog]; [isReady] is
    nil ([None]) unless a caller sets it. *)
Record Dependency := {
  prefix : string;
  isReady : option wait.ConditionFunc
}.

Definition NewClient (prefix : string) : Dependency :=
  {| prefix := prefix; isReady := None |}.

(** operator.go *)
Record operatorResource := {
  namespace : string;
  subscription : string;
  operatorGroup : string;
  csv : string
}.

Definition newNamespace (name : string) : corev1.Namespace :=
  {| corev1.ObjectMeta := metav1.named name |}.

Definition newOperatorGroup (namespace name : string) : v1.OperatorGroup :=
  {| v1.ObjectMeta := metav1.namespaced namespace name;
     v1.Spec := {| v1.TargetNamespaces := [namespace] |} |}.

Definition newSubscription (namespace name : string) : v1alpha1.Subscription :=
  {| v1alpha1.sub_ObjectMeta := metav1.namespaced namespace name;
     v1alpha1.sub_Spec := Some
       {| v1alpha1.Channel := "alpha";
          v1alpha1.CatalogSource := "community-operators";
          v1alpha1.CatalogSourceNamespace := "openshift-marketplace";
          v1alpha1.Package := name |} |}.

Definition addPrefixIfNecessary (prefix name : string) : string :=
  if negb (String.eqb prefix "") then prefix +:+ "-" +:+ name else name.

Definition GetSubscription (o : operatorResource) : v1alpha1.Subscription :=
  newSubscription (namespace o) (subscription o).

Definition GetOperatorGroup (o : operatorResource) : v1.OperatorGroup :=
  newOperatorGroup (namespace o) (operatorGroup o).

Definition GetNamespace (o : operatorResource) : corev1.Namespace :=
  newNamespace (namespace o).

Definition newArgoCDOperator (prefix : string) : operatorResource :=
  {| namespace := addPrefixIfNecessary prefix "argocd";
     subscription := "argocd-operator";
     operatorGroup := "argocd-operator-group";
     csv := "argocd-operator.v0.0.14" |}.

Definition newSealedSecretsOperator (prefix : string) : operatorResource :=
  {| namespace := addPrefixIfNecessary prefix "cicd";
     subscription := "sealed-secrets-operator-helm";
     operatorGroup := "sealed-secrets-operator-group";
     csv := "sealed-secrets-operator-helm.v0.0.2" |}.

(** dependency.go *)
Definition isOperatorReady (ns : types.NamespacedName) : wait.ConditionFunc :=
  let* (csv, err) :=
    Get KClusterServiceVersion ns v1alpha1.zeroClusterServiceVersion in
  if match err with Some e => negb (errors.IsNotFound e) | None => false end
  then Ret (false, err)
  else
    let phase := v1alpha1.Phase (v1alpha1.Status csv) in
    if String.eqb phase v1alpha1.CSVPhaseFailed then
      Ret (false, Some (fmt.Errorf "Operator installation failed: "
                          (v1alpha1.Reason (v1alpha1.Status csv))))
    else if String.eqb phase v1alpha1.CSVPhaseSucceeded then
      Ret (true, None)
    else Ret (false, None).

Definition waitForOperator (ns : types.NamespacedName)
    (waitFunc : option wait.ConditionFunc) : Prog (option error) :=
  let waitFunc :=
    match waitFunc with
    | None => isOperatorReady ns
    | Some f => f
    end in
  (* poll until waitFunc returns true, error or the timeout is reached *)
  wait.PollImmediate (1 * time.Second)%Z (1 * time.Minute)%Z waitFunc.

Definition createResourceIfAbsent (d : Dependency) (k : Kind)
    (obj : ObjectOf k) (ns : types.NamespacedName) : Prog (option error) :=
  let* (obj, err) := Get k ns obj in
  match err with
  | Some e =>
      if errors.IsNotFound e then
        let* err := Create k obj in
        match err with
        | Some _ => Ret err
        | None => Ret None
        end
      else if errors.IsAlreadyExists e then Ret None
      else Ret err
  | None => Ret None
  end.

(** The body of the loop of Install, for one operator: [Some e] is the
    early return of [e] from Install. *)
Definition Install_body (d : Dependency) (operator : operatorResource)
  : Prog (option error) :=
  let ns := GetNamespace operator in
  let* err := createResourceIfAbsent d KNamespace (GetNamespace operator)
                {| types.Namespace := "";
                   types.Name := metav1.Name (corev1.ObjectMeta ns) |} in
  match err with
  | Some _ => Ret err
  | None =>
  let operatorGroup := GetOperatorGroup operator in
  let* err := createResourceIfAbsent d KOperatorGroup (GetOperatorGroup operator)
                {| types.Namespace := metav1.Namespace (v1.ObjectMeta operatorGroup);
                   types.Name := metav1.Name (v1.ObjectMeta operatorGroup) |} in
  match err with
  | Some _ => Ret err
  | None =>
  let subscription := GetSubscription operator in
  let* err := createResourceIfAbsent d KSubscription (GetSubscription operator)
                {| types.Namespace := metav1.Namespace (v1alpha1.sub_ObjectMeta subscription);
                   types.Name := metav1.Name (v1alpha1.sub_ObjectMeta subscription) |} in
  match err with
  | Some _ => Ret err
  | None =>
  waitForOperator {| types.Namespace := namespace operator;
                     types.Name := csv operator |} (isReady d)
  end end end.

(** for _, operator := range operators *)
Fixpoint Install_range (d : Dependency) (operators : list operatorResource)
  : Prog (option error) :=
  match operators with
  | [] => Ret None
  | operator :: rest =>
      let* err := Install_body d operator in
      match err with
      | Some _ => Ret err
      | None => Install_range d rest
      end
  end.

Definition Install (d : Dependency) : Prog (option error) :=
  let operators :=
    [newSealedSecretsOperator (prefix d); newArgoCDOperator (prefix d)] in
  Install_range d operators.
End dependency.

(** ** controller-runtime types the reconciler is written against *)

Module controllerutil.
(** runtime.Scheme and controllerutil.SetControllerReference belong to
    libraries outside the repository.  The scheme is kept abstract, and
    SetControllerReference is a function of the owner, the controlled object
    and the scheme, of which the reconciler uses only the returned error. *)
Class Interface := {
  Scheme : Type;
  SetControllerReference :
    argoprojv1alpha1.ArgoCD -> routev1.Route -> Scheme -> option error
}.
End controllerutil.

Module statik.
(** The embedded icon file is not part of the sources: [encodedImage] stands
    for base64.StdEncoding.EncodeToString(readStatikImage()). *)
Class Data := { encodedImage : string }.
End statik.

Module reconcile.
Record Request := { NamespacedName : types.NamespacedName }.
Record Result := { Requeue : bool; RequeueAfter : time.Duration }.
(** reconcile.Result{} *)
Definition zeroResult : Result := {| Requeue := false; RequeueAfter := 0%Z |}.
End reconcile.

Module event.
(** The events carry the metadata of the objects they are about. *)
Record UpdateEvent := { MetaOld : metav1.ObjectMeta; MetaNew : metav1.ObjectMeta }.
Record CreateEvent := { create_Meta : metav1.ObjectMeta }.
Record DeleteEvent := { delete_Meta : metav1.ObjectMeta }.
End event.

Module predicate.
Record Funcs := {
  CreateFunc : event.CreateEvent -> bool;
  DeleteFunc : event.DeleteEvent -> bool;
  UpdateFunc : event.UpdateEvent -> bool
}.
End predicate.

(** ** pkg/controller/argocd *)

Module argocd.
Import client.

Definition argocdNS := "argocd".
Definition consoleLinkName := "argocd".
Definition argocdInstanceName := "argocd".
Definition argocdRouteName := "argocd-server".
Definition argocdKind := "ArgoCD".
Definition argocdGroup := "argoproj.io".
Definition iconFilePath := "/argo.png".

Definition filterPredicate (assert : string -> string -> bool) : predicate.Funcs :=
  {| predicate.UpdateFunc := fun e =>
       assert (metav1.Namespace (event.MetaNew e)) (metav1.Name (event.MetaNew e))
       && negb (String.eqb (metav1.ResourceVersion (event.MetaNew e))
                           (metav1.ResourceVersion (event.MetaOld e)));
     predicate.CreateFunc := fun e =>
       assert (metav1.Namespace (event.create_Meta e)) (metav1.Name (event.create_Meta e));
     predicate.DeleteFunc := fun e =>
       assert (metav1.Namespace (event.delete_Meta e)) (metav1.Name (event.delete_Meta e)) |}.

Definition assertArgoCD (namespace name : string) : bool :=
  String.eqb namespace argocdNS && String.eqb argocdInstanceName name.

Definition assertArgoCDRoute (namespace name : string) : bool :=
  String.eqb namespace argocdNS && String.eqb argocdRouteName name.

Definition imageDataURL (data : string) : string :=
  fmt.Sprintf "data:image/png;base64," data.

Definition newArgoCDRoute : routev1.Route :=
  {| routev1.ObjectMeta := metav1.namespaced argocdNS argocdRouteName;
     routev1.Spec := {| routev1.Host := "" |} |}.

Section Reconciler.
Context `{CU : controllerutil.Interface} `{SD : statik.Data}.

(** Set in init() *)
Definition image : string := imageDataURL statik.encodedImage.

(** ReconcileArgoCD: the client is the ambient effect of [Prog]. *)
Record ReconcileArgoCD := { scheme : controllerutil.Scheme }.

Definition newConsoleLink (href text : string) : console.ConsoleLink :=
  {| console.ObjectMeta := metav1.named consoleLinkName;
     console.Spec :=
       {| console.spec_Link := {| console.Text := text; console.Href := href |};
          console.Location := console.ApplicationMenu;
          console.spec_ApplicationMenu := Some
            {| console.MenuSection := "Application Stages";
               console.ImageURL := image |} |} |}.

Definition deleteConsoleLinkIfPresent : Prog (option error) :=
  let* (_, err) := Get KConsoleLink
                     {| types.Namespace := ""; types.Name := consoleLinkName |}
                     console.zeroConsoleLink in
  match err with
  | Some e => if errors.IsNotFound e then Ret None else Ret err
  | None =>
      Delete KConsoleLink
        {| console.ObjectMeta := metav1.named consoleLinkName;
           console.Spec := console.Spec console.zeroConsoleLink |}
  end.

Definition Reconcile (r : ReconcileArgoCD) (request : reconcile.Request)
  : Prog (reconcile.Result * option error) :=
  (* Fetch the ArgoCD instance *)
  let* (argocdInstance, err) :=
    Get KArgoCD (reconcile.NamespacedName request) argoprojv1alpha1.zeroArgoCD in
  match err with
  | Some e =>
      if errors.IsNotFound e then
        (* if argocd instance is deleted, remove the ConsoleLink if present *)
        let* err := deleteConsoleLinkIfPresent in
        Ret (reconcile.zeroResult, err)
      else
        (* Error reading the object - requeue the request. *)
        Ret (reconcile.zeroResult, err)
  | None =>
  (* Set ArgoCD instance as the owner *)
  match controllerutil.SetControllerReference argocdInstance newArgoCDRoute (scheme r) with
  | Some e => Ret (reconcile.zeroResult, Some e)
  | None =>
  let* (argoCDRoute, err) :=
    Get KRoute {| types.Namespace := argocdNS; types.Name := argocdRouteName |}
        routev1.zeroRoute in
  match err with
  | Some e =>
      if errors.IsNotFound e then
        (* if argocd-server route is deleted, remove the ConsoleLink if present *)
        let* err := deleteConsoleLinkIfPresent in
        Ret (reconcile.zeroResult, err)
      else Ret (reconcile.zeroResult, err)
  | None =>
  let consoleLink :=
    newConsoleLink ("https://" +:+ routev1.Host (routev1.Spec argoCDRoute)) "ArgoCD" in
  let* (found, err) :=
    Get KConsoleLink
        {| types.Namespace := "";
           types.Name := metav1.Name (console.ObjectMeta consoleLink) |}
        console.zeroConsoleLink in
  match err with
  | Some e =>
      if errors.IsNotFound e then
        let* err := Create KConsoleLink consoleLink in
        match err with
        | Some _ => Ret (reconcile.zeroResult, err)
        | None =>
            (* ConsoleLink created successfully - don't requeue *)
            Ret (reconcile.zeroResult, None)
        end
      else Ret (reconcile.zeroResult, err)
  | None => Ret (reconcile.zeroResult, None)
  end end end end.
End Reconciler.
End argocd.

(** ** A cluster without faults

    The objects of a cluster, by kind and key, and the answers an API server
    gives over them when nothing else goes wrong: a read finds the object or
    is NotFound, a create stores the object under its own key or is
    AlreadyExists, a delete removes it or is NotFound.  Objects are stored as
    they are passed. *)

Module apiserver.
Import client.

Record Cluster := {
  Namespaces : gmap types.NamespacedName corev1.Namespace;
  OperatorGroups : gmap types.NamespacedName v1.OperatorGroup;
  Subscriptions : gmap types.NamespacedName v1alpha1.Subscription;
  ClusterServiceVersions : gmap types.NamespacedName v1alpha1.ClusterServiceVersion;
  ArgoCDs : gmap types.NamespacedName argoprojv1alpha1.ArgoCD;
  Routes : gmap types.NamespacedName routev1.Route;
  ConsoleLinks : gmap types.NamespacedName console.ConsoleLink
}.

Definition objects (k : Kind) (c : Cluster)
  : gmap types.NamespacedName (ObjectOf k) :=
  match k with
  | KNamespace => Namespaces c
  | KOperatorGroup => OperatorGroups c
  | KSubscription => Subscriptions c
  | KClusterServiceVersion => ClusterServiceVersions c
  | KArgoCD => ArgoCDs c
  | KRoute => Routes c
  | KConsoleLink => ConsoleLinks c
  end.

Definition set_objects (k : Kind)
  : gmap types.NamespacedName (ObjectOf k) -> Cluster -> Cluster :=
  match k with
  | KNamespace => fun m c =>
      {| Namespaces := m;
         OperatorGroups := OperatorGroups c;
         Subscriptions := Subscriptions c;
         ClusterServiceVersions := ClusterServiceVersions c;
         ArgoCDs := ArgoCDs c;
         Routes := Routes c;
         ConsoleLinks := ConsoleLinks c |}
  | KOperatorGroup => fun m c =>
      {| Namespaces := Namespaces c;
         OperatorGroups := m;
         Subscriptions := Subscriptions c;
         ClusterServiceVersions := ClusterServiceVersions c;
         ArgoCDs := ArgoCDs c;
         Routes := Routes c;
         ConsoleLinks := ConsoleLinks c |}
  | KSubscription => fun m c =>
      {| Namespaces := Namespaces c;
         OperatorGroups := OperatorGroups c;
         Subscriptions := m;
         ClusterServiceVersions := ClusterServiceVersions c;
         ArgoCDs := ArgoCDs c;
         Routes := Routes c;
         ConsoleLinks := ConsoleLinks c |}
  | KClusterServiceVersion => fun m c =>
      {| Namespaces := Namespaces c;
         OperatorGroups := OperatorGroups c;
         Subscriptions := Subscriptions c;
         ClusterServiceVersions := m;
         ArgoCDs := ArgoCDs c;
         Routes := Routes c;
         ConsoleLinks := ConsoleLinks c |}
  | KArgoCD => fun m c =>
      {| Namespaces := Namespaces c;
         OperatorGroups := OperatorGroups c;
         Subscriptions := Subscriptions c;
         ClusterServiceVersions := ClusterServiceVersions c;
         ArgoCDs := m;
         Routes := Routes c;
         ConsoleLinks := ConsoleLinks c |}
  | KRoute => fun m c =>
      {| Namespaces := Namespaces c;
         OperatorGroups := OperatorGroups c;
         Subscriptions := Subscriptions c;
         ClusterServiceVersions := ClusterServiceVersions c;
         ArgoCDs := ArgoCDs c;
         Routes := m;
         ConsoleLinks := ConsoleLinks c |}
  | KConsoleLink => fun m c =>
      {| Namespaces := Namespaces c;
         OperatorGroups := OperatorGroups c;
         Subscriptions := Subscriptions c;
         ClusterServiceVersions := ClusterServiceVersions c;
         ArgoCDs := ArgoCDs c;
         Routes := Routes c;
         ConsoleLinks := m |}
  end.

Definition empty : Cluster :=
  {| Namespaces := ∅; OperatorGroups := ∅; Subscriptions := ∅;
     ClusterServiceVersions := ∅; ArgoCDs := ∅; Routes := ∅;
     ConsoleLinks := ∅ |}.

Definition lookup (k : Kind) (key : types.NamespacedName) (c : Cluster)
  : option (ObjectOf k) :=
  objects k c !! key.

Definition store (k : Kind) (obj : ObjectOf k) (c : Cluster) : Cluster :=
  set_objects k (<[ObjectKey obj := obj]> (objects k c)) c.

Definition remove (k : Kind) (key : types.NamespacedName) (c : Cluster)
  : Cluster :=
  set_objects k (delete key (objects k c)) c.

Definition answerGet (k : Kind) (key : types.NamespacedName) (c : Cluster)
  : ObjectOf k + error :=
  match lookup k key c with
  | Some obj => inl obj
  | None => inr (errors.NewNotFound (types.Name key))
  end.

Definition answerCreate (k : Kind) (obj : ObjectOf k) (c : Cluster)
  : option error * Cluster :=
  match lookup k (ObjectKey obj) c with
  | Some _ => (Some (errors.NewAlreadyExists (types.Name (ObjectKey obj))), c)
  | None => (None, store k obj c)
  end.

Definition answerDelete (k : Kind) (obj : ObjectOf k) (c : Cluster)
  : option error * Cluster :=
  match lookup k (ObjectKey obj) c with
  | Some _ => (None, remove k (ObjectKey obj) c)
  | None => (Some (errors.NewNotFound (types.Name (ObjectKey obj))), c)
  end.

(** [exec p c]: the value [p] returns on cluster [c], the cluster it leaves,
    and the requests it made with their answers. *)
Fixpoint exec {A : Type} (p : Prog A) (c : Cluster)
  : A * Cluster * list Event :=
  match p with
  | Ret a => (a, c, [])
  | CallGet k key cont =>
      let r := answerGet k key c in
      let '(a, c', t) := exec (cont r) c in
      (a, c', EvGet k key r :: t)
  | CallCreate k obj cont =>
      let '(r, c1) := answerCreate k obj c in
      let '(a, c', t) := exec (cont r) c1 in
      (a, c', EvCreate k obj r :: t)
  | CallDelete k obj cont =>
      let '(r, c1) := answerDelete k obj c in
      let '(a, c', t) := exec (cont r) c1 in
      (a, c', EvDelete k obj r :: t)
  | CallSleep d cont =>
      let '(a, c', t) := exec (cont tt) c in
      (a, c', EvSleep d :: t)
  end.
End apiserver.

(** * Vocabulary of the properties *)

Import client.
Local Open Scope list_scope.

(** A read of the ClusterServiceVersion after which the poll goes on: the
    object is not found, or it is found in a phase that is neither Succeeded
    nor Failed. *)
Definition pending (r : v1alpha1.ClusterServiceVersion + error) : Prop :=
  match r with
  | inr e => errors.IsNotFound e = true
  | inl csv =>
      v1alpha1.Phase (v1alpha1.Status csv) <> v1alpha1.CSVPhaseSucceeded /\
      v1alpha1.Phase (v1alpha1.Status csv) <> v1alpha1.CSVPhaseFailed
  end.

(** A read that ends the poll, with the error the poll then returns. *)
Definition stops (r : v1alpha1.ClusterServiceVersion + error)
    (res : option error) : Prop :=
  (exists csv, r = inl csv /\
     v1alpha1.Phase (v1alpha1.Status csv) = v1alpha1.CSVPhaseSucceeded /\
     res = None) \/
  (exists csv, r = inl csv /\
     v1alpha1.Phase (v1alpha1.Status csv) = v1alpha1.CSVPhaseFailed /\
     res = Some (errorString ("Operator installation failed: "
                                +:+ v1alpha1.Reason (v1alpha1.Status csv)))) \/
  (exists e, r = inr e /\ errors.IsNotFound e = false /\ res = Some e).

(** The trace of a poll that made the reads [reads], one interval apart. *)
Definition poll_trace (ns : types.NamespacedName) (interval : time.Duration)
    (reads : list (v1alpha1.ClusterServiceVersion + error)) : list Event :=
  match reads with
  | [] => []
  | r :: rest =>
      EvGet KClusterServiceVersion ns r
        :: flat_map (fun r' => [EvSleep interval; EvGet KClusterServiceVersion ns r'])
                    rest
  end.

(** Time spent waiting in a trace. *)
Fixpoint elapsed (t : list Event) : Z :=
  match t with
  | [] => 0
  | EvSleep d :: t' => d + elapsed t'
  | _ :: t' => elapsed t'
  end.

(** The reads a poll with [n] calls of the condition left can make, and the
    error it returns: it stops at the first read that is not pending, and
    times out when all [n] reads were pending. *)
Fixpoint poll_reads (n : nat)
    (reads : list (v1alpha1.ClusterServiceVersion + error))
    (res : option error) : Prop :=
  match n with
  | O => reads = [] /\ res = Some wait.ErrWaitTimeout
  | S n' =>
      exists r rest, reads = r :: rest /\
        ((pending r /\ poll_reads n' rest res) \/ (stops r res /\ rest = []))
  end.

(** The four steps of Install for one operator, in the order of the source. *)
Definition steps (d : dependency.Dependency) (o : dependency.operatorResource)
  : list (Prog (option error)) :=
  [ dependency.createResourceIfAbsent d KNamespace (dependency.GetNamespace o)
      {| types.Namespace := ""; types.Name := dependency.namespace o |};
    dependency.createResourceIfAbsent d KOperatorGroup (dependency.GetOperatorGroup o)
      {| types.Namespace := dependency.namespace o;
         types.Name := dependency.operatorGroup o |};
    dependency.createResourceIfAbsent d KSubscription (dependency.GetSubscription o)
      {| types.Namespace := dependency.namespace o;
         types.Name := dependency.subscription o |};
    dependency.waitForOperator
      {| types.Namespace := dependency.namespace o;
         types.Name := dependency.csv o |} (dependency.isReady d) ].

(** Steps run strictly in list order, stopping at the first that fails:
    [t] is made of the traces of the steps that succeeded, one after the
    other, followed, if [res] is an error, by the trace of the step that
    returned it; no later step runs. *)
Fixpoint runs_in_order (ss : list (Prog (option error))) (t : list Event)
    (res : option error) : Prop :=
  match ss with
  | [] => t = [] /\ res = None
  | s :: rest =>
      (exists e, runs s t (Some e) /\ res = Some e) \/
      (exists t1 t2, t = t1 ++ t2 /\ runs s t1 None /\ runs_in_order rest t2 res)
  end.

(** The resource a request is about. *)
Definition target (ev : Event) : option (Kind * types.NamespacedName) :=
  match ev with
  | EvGet k key _ => Some (k, key)
  | EvCreate k obj _ | EvDelete k obj _ => Some (k, ObjectKey obj)
  | EvSleep _ => None
  end.

(** The resources that belong to an operator: its namespace, operator group,
    subscription and ClusterServiceVersion. *)
Definition resources (o : dependency.operatorResource)
  : list (Kind * types.NamespacedName) :=
  [ (KNamespace, {| types.Namespace := ""; types.Name := dependency.namespace o |});
    (KOperatorGroup, {| types.Namespace := dependency.namespace o;
                        types.Name := dependency.operatorGroup o |});
    (KSubscription, {| types.Namespace := dependency.namespace o;
                       types.Name := dependency.subscription o |});
    (KClusterServiceVersion, {| types.Namespace := dependency.namespace o;
                                types.Name := dependency.csv o |}) ].

(** Every request of [t] is about a resource of one of the operators [os]. *)
Definition touches_only (os : list dependency.operatorResource)
    (t : list Event) : Prop :=
  Forall (fun ev => forall x, target ev = Some x ->
            exists o, In o os /\ In x (resources o)) t.

(** The key of the Route and of the ConsoleLink the reconciler reads. *)
Definition routeKey : types.NamespacedName :=
  {| types.Namespace := "argocd"; types.Name := "argocd-server" |}.
Definition linkKey : types.NamespacedName :=
  {| types.Namespace := ""; types.Name := "argocd" |}.

(** The object deleteConsoleLinkIfPresent passes to Delete. *)
Definition linkToDelete : console.ConsoleLink :=
  {| console.ObjectMeta := metav1.named "argocd";
     console.Spec := console.Spec console.zeroConsoleLink |}.

(** Library instances and objects the examples run on: a scheme that
    accepts every owner reference, an icon, and a cluster with the ArgoCD
    instance and its Route. *)
Definition acceptingUtil : controllerutil.Interface :=
  {| controllerutil.Scheme := unit;
     controllerutil.SetControllerReference := fun _ _ _ => None |}.
Definition sampleIcon : statik.Data := {| statik.encodedImage := "iVBORw0KGgo=" |}.
Definition sampleRequest : reconcile.Request :=
  {| reconcile.NamespacedName :=
       {| types.Namespace := "argocd"; types.Name := "argocd" |} |}.
Definition sampleArgoCD : argoprojv1alpha1.ArgoCD :=
  {| argoprojv1alpha1.ObjectMeta := metav1.namespaced "argocd" "argocd" |}.
Definition sampleRoute : routev1.Route :=
  {| routev1.ObjectMeta := metav1.namespaced "argocd" "argocd-server";
     routev1.Spec := {| routev1.Host := "foo.example.com" |} |}.
Definition staleLink : console.ConsoleLink :=
  {| console.ObjectMeta := metav1.named "argocd";
     console.Spec :=
       {| console.spec_Link :=
            {| console.Text := "ArgoCD";
               console.Href := "https://old.example.com" |};
          console.Location := console.ApplicationMenu;
          console.spec_ApplicationMenu := None |} |}.
Definition csvKey : types.NamespacedName :=
  {| types.Namespace := "argocd"; types.Name := "argocd-operator.v0.0.14" |}.
Definition csvInPhase (phase reason : string) : v1alpha1.ClusterServiceVersion :=
  {| v1alpha1.csv_ObjectMeta :=
       metav1.namespaced "argocd" "argocd-operator.v0.0.14";
     v1alpha1.Status := {| v1alpha1.Phase := phase; v1alpha1.Reason := reason |} |}.
Definition sampleReconciler : @argocd.ReconcileArgoCD acceptingUtil :=
  @argocd.Build_ReconcileArgoCD acceptingUtil tt.
Definition sampleCluster : apiserver.Cluster :=
  apiserver.store KRoute sampleRoute
    (apiserver.store KArgoCD sampleArgoCD apiserver.empty).

(** ** Vocabulary of the further properties *)

(** Every object of [c] is still in [c'], unchanged. *)
Definition preserved (c c' : apiserver.Cluster) : Prop :=
  forall k key (o : ObjectOf k),
    apiserver.lookup k key c = Some o -> apiserver.lookup k key c' = Some o.

(** The cluster with [obj] stored under its key unless that key is taken. *)
Definition ensure (k : Kind) (obj : ObjectOf k) (c : apiserver.Cluster)
  : apiserver.Cluster :=
  match apiserver.lookup k (ObjectKey obj) c with
  | Some _ => c
  | None => apiserver.store k obj c
  end.

Definition is_delete (ev : Event) : bool :=
  match ev with
  | EvDelete _ _ _ => true
  | _ => false
  end.

(** The error a request was answered with, if any. *)
Definition failure_of (ev : Event) : option error :=
  match ev with
  | EvGet _ _ (inr e) => Some e
  | EvGet _ _ (inl _) => None
  | EvCreate _ _ r | EvDelete _ _ r => r
  | EvSleep _ => None
  end.

(** A trace that waits at most [w], writes at most [n] times, makes at most
    [m] requests and waits, and deletes nothing. *)
Definition within (w : Z) (n m : nat) (t : list Event) : Prop :=
  (0 <= elapsed t <= w)%Z /\ (length (writes t) <= n)%nat /\
  (length t <= m)%nat /\ Forall (fun ev => is_delete ev = false) t.

(** The runs of deleteConsoleLinkIfPresent: the read is not-found and nothing
    is deleted; the read fails otherwise; or the read finds a link and a
    ConsoleLink that carries only the name is deleted, and the answer of the
    delete is the result. *)
Definition delete_run (t : list Event) (err : option error) : Prop :=
  (exists e, errors.IsNotFound e = true /\
     t = [EvGet KConsoleLink linkKey (inr e)] /\ err = None) \/
  (exists e, errors.IsNotFound e = false /\
     t = [EvGet KConsoleLink linkKey (inr e)] /\ err = Some e) \/
  (exists found r,
     t = [EvGet KConsoleLink linkKey (inl found);
          EvDelete KConsoleLink linkToDelete r] /\ err = r).

Section ReconcilerVocabulary.
Context `{CU : controllerutil.Interface} `{SD : statik.Data}.

(** The runs of Reconcile, path by path. *)
Definition reconcile_run (r : argocd.ReconcileArgoCD)
    (request : reconcile.Request) (t : list Event) (err : option error) : Prop :=
  let key := reconcile.NamespacedName request in
  (exists e t', errors.IsNotFound e = true /\
     t = EvGet KArgoCD key (inr e) :: t' /\ delete_run t' err) \/
  (exists e, errors.IsNotFound e = false /\
     t = [EvGet KArgoCD key (inr e)] /\ err = Some e) \/
  (exists primary e,
     controllerutil.SetControllerReference primary argocd.newArgoCDRoute
       (argocd.scheme r) = Some e /\
     t = [EvGet KArgoCD key (inl primary)] /\ err = Some e) \/
  (exists primary,
     controllerutil.SetControllerReference primary argocd.newArgoCDRoute
       (argocd.scheme r) = None /\
     ((exists e t', errors.IsNotFound e = true /\
         t = EvGet KArgoCD key (inl primary) :: EvGet KRoute routeKey (inr e) :: t' /\
         delete_run t' err) \/
      (exists e, errors.IsNotFound e = false /\
         t = [EvGet KArgoCD key (inl primary); EvGet KRoute routeKey (inr e)] /\
         err = Some e) \/
      (exists route found,
         t = [EvGet KArgoCD key (inl primary); EvGet KRoute routeKey (inl route);
              EvGet KConsoleLink linkKey (inl found)] /\ err = None) \/
      (exists route e, errors.IsNotFound e = false /\
         t = [EvGet KArgoCD key (inl primary); EvGet KRoute routeKey (inl route);
              EvGet KConsoleLink linkKey (inr e)] /\ err = Some e) \/
      (exists route e w, errors.IsNotFound e = true /\
         t = [EvGet KArgoCD key (inl primary); EvGet KRoute routeKey (inl route);
              EvGet KConsoleLink linkKey (inr e);
              EvCreate KConsoleLink
                (argocd.newConsoleLink
                   ("https://" +:+ routev1.Host (routev1.Spec route)) "ArgoCD") w] /\
         err = w))).
End ReconcilerVocabulary.

(** A resource is stored in a cluster. *)
Definition present (c : apiserver.Cluster) (x : Kind * types.NamespacedName)
  : Prop :=
  is_Some (apiserver.lookup (fst x) (snd x) c).

(** Clusters that hold the ClusterServiceVersion of the sealed-secrets
    operator in a given phase, and that of the ArgoCD operator as Succeeded. *)
Definition sealedSecretsCSV (phase reason : string) : v1alpha1.ClusterServiceVersion :=
  {| v1alpha1.csv_ObjectMeta :=
       metav1.namespaced "cicd" "sealed-secrets-operator-helm.v0.0.2";
     v1alpha1.Status := {| v1alpha1.Phase := phase; v1alpha1.Reason := reason |} |}.
Definition clusterWithOperators (phase reason : string) : apiserver.Cluster :=
  apiserver.store KClusterServiceVersion (sealedSecretsCSV phase reason)
    (apiserver.store KClusterServiceVersion (csvInPhase "Succeeded" "")
       apiserver.empty).

(** A run of the four steps of the sealed-secrets operator in which every
    resource is found and the operator has been installed, and a run of the
    steps of the ArgoCD operator that fails at the read of its namespace. *)
Definition sealedSecretsInstalled : list Event :=
  [EvGet KNamespace {| types.Namespace := ""; types.Name := "cicd" |}
         (inl (dependency.newNamespace "cicd"));
   EvGet KOperatorGroup
         {| types.Namespace := "cicd"; types.Name := "sealed-secrets-operator-group" |}
         (inl (dependency.newOperatorGroup "cicd" "sealed-secrets-operator-group"));
   EvGet KSubscription
         {| types.Namespace := "cicd"; types.Name := "sealed-secrets-operator-helm" |}
         (inl (dependency.newSubscription "cicd" "sealed-secrets-operator-helm"));
   EvGet KClusterServiceVersion
         {| types.Namespace := "cicd";
            types.Name := "sealed-secrets-operator-helm.v0.0.2" |}
         (inl (sealedSecretsCSV "Succeeded" ""))].
Definition argocdNamespaceRefused : list Event :=
  [EvGet KNamespace {| types.Namespace := ""; types.Name := "argocd" |}
         (inr (errorString "connection refused"))].

(** A run of Reconcile in which the create of the ConsoleLink is refused. *)
Definition refusedCreate : Event :=
  EvCreate KConsoleLink
    (@argocd.newConsoleLink sampleIcon "https://foo.example.com" "ArgoCD")
    (Some (errorString "forbidden")).
Definition refusedCreateTrace : list Event :=
  [EvGet KArgoCD (reconcile.NamespacedName sampleRequest) (inl sampleArgoCD);
   EvGet KRoute routeKey (inl sampleRoute);
   EvGet KConsoleLink linkKey (inr (errors.NewNotFound "argocd"));
   refusedCreate].

(** A scheme whose owner references are always refused. *)
Definition rejectingUtil : controllerutil.Interface :=
  {| controllerutil.Scheme := unit;
     controllerutil.SetControllerReference :=
       fun _ _ _ => Some (errorString "no kind is registered for the type") |}.
Definition rejectingReconciler : @argocd.ReconcileArgoCD rejectingUtil :=
  @argocd.Build_ReconcileArgoCD rejectingUtil tt.

(** * Properties *)

Arguments errors.IsNotFound : simpl never.
Arguments errors.IsAlreadyExists : simpl never.

(** ** Running programs *)

Lemma runs_ret {A : Type} (a b : A) (t : list Event) :
  runs (Ret a) t b <-> t = [] /\ b = a.
Proof. reflexivity. Qed.

Lemma runs_bind {A B : Type} (p : Prog A) (f : A -> Prog B) t b :
  runs (bind p f) t b <->
  exists t1 t2 a, t = t1 ++ t2 /\ runs p t1 a /\ runs (f a) t2 b.
Proof.
  revert t. induction p as [a|k key cont IH|k obj cont IH|k obj cont IH|d cont IH];
    intros t; simpl.
  - split.
    + intros Hf. exists [], t, a. auto.
    + intros (t1 & t2 & a' & -> & [-> ->] & Hf). exact Hf.
  - split.
    + intros (r & t' & -> & Hr). apply IH in Hr as (t1 & t2 & a & -> & H1 & H2).
      exists (EvGet k key r :: t1), t2, a. split; [reflexivity|].
      split; [exists r, t1; auto | exact H2].
    + intros (t1 & t2 & a & -> & (r & t' & -> & H1) & H2).
      exists r, (t' ++ t2). split; [reflexivity|]. apply IH. eauto 6.
  - split.
    + intros (r & t' & -> & Hr). apply IH in Hr as (t1 & t2 & a & -> & H1 & H2).
      exists (EvCreate k obj r :: t1), t2, a. split; [reflexivity|].
      split; [exists r, t1; auto | exact H2].
    + intros (t1 & t2 & a & -> & (r & t' & -> & H1) & H2).
      exists r, (t' ++ t2). split; [reflexivity|]. apply IH. eauto 6.
  - split.
    + intros (r & t' & -> & Hr). apply IH in Hr as (t1 & t2 & a & -> & H1 & H2).
      exists (EvDelete k obj r :: t1), t2, a. split; [reflexivity|].
      split; [exists r, t1; auto | exact H2].
    + intros (t1 & t2 & a & -> & (r & t' & -> & H1) & H2).
      exists r, (t' ++ t2). split; [reflexivity|]. apply IH. eauto 6.
  - split.
    + intros (t' & -> & Hr). apply IH in Hr as (t1 & t2 & a & -> & H1 & H2).
      exists (EvSleep d :: t1), t2, a. split; [reflexivity|].
      split; [exists t1; auto | exact H2].
    + intros (t1 & t2 & a & -> & (t' & -> & H1) & H2).
      exists (t' ++ t2). split; [reflexivity|]. apply IH. eauto 6.
Qed.

(** A program returns one value per trace. *)
Lemma runs_functional {A : Type} (p : Prog A) t a b :
  runs p t a -> runs p t b -> a = b.
Proof.
  revert t. induction p as [x|k key cont IH|k obj cont IH|k obj cont IH|d cont IH];
    intros t; simpl.
  - intros [_ ->] [_ ->]. reflexivity.
  - intros (r & t' & -> & H1) (r' & t'' & Heq & H2).
    inversion Heq as [[Hr Ht]]. subst t''.
    apply (Eqdep_dec.inj_pair2_eq_dec _ Kind_eq_dec) in Hr. subst r'. eauto.
  - intros (r & t' & -> & H1) (r' & t'' & Heq & H2).
    inversion Heq. subst. eauto.
  - intros (r & t' & -> & H1) (r' & t'' & Heq & H2).
    inversion Heq. subst. eauto.
  - intros (t' & -> & H1) (t'' & Heq & H2). inversion Heq. subst. eauto.
Qed.

(** What a program does on a cluster without faults is one of its runs. *)
Lemma exec_runs {A : Type} (p : Prog A) (c : apiserver.Cluster) :
  runs p (snd (apiserver.exec p c)) (fst (fst (apiserver.exec p c))).
Proof.
  revert c. induction p as [x|k key cont IH|k obj cont IH|k obj cont IH|d cont IH];
    intros c; simpl.
  - auto.
  - specialize (IH (apiserver.answerGet k key c) c).
    destruct (apiserver.exec (cont (apiserver.answerGet k key c)) c) as [[a c'] t].
    simpl in *. eauto.
  - destruct (apiserver.answerCreate k obj c) as [r c1]. specialize (IH r c1).
    destruct (apiserver.exec (cont r) c1) as [[a c'] t]. simpl in *. eauto.
  - destruct (apiserver.answerDelete k obj c) as [r c1]. specialize (IH r c1).
    destruct (apiserver.exec (cont r) c1) as [[a c'] t]. simpl in *. eauto.
  - specialize (IH tt c).
    destruct (apiserver.exec (cont tt) c) as [[a c'] t]. simpl in *. eauto.
Qed.

(** ** The installer: create-if-absent *)

(** C1, which the code does not meet.  When the read reports not-found and
    the create that follows is answered AlreadyExists, createResourceIfAbsent
    returns that AlreadyExists error; it does not return nil.  The test for
    AlreadyExists in the source is applied to the error of the read, not to
    the error of the create. *)
Theorem createResourceIfAbsent_create_race
    (d : dependency.Dependency) (k : Kind) (obj : ObjectOf k)
    (key : types.NamespacedName) (e1 e2 : error) (r : option error) :
  errors.IsNotFound e1 = true ->
  errors.IsAlreadyExists e2 = true ->
  runs (dependency.createResourceIfAbsent d k obj key)
       [EvGet k key (inr e1); EvCreate k obj (Some e2)] r
  <-> r = Some e2.
Proof.
  intros He1 He2.
  assert (Hrun : runs (dependency.createResourceIfAbsent d k obj key)
                   [EvGet k key (inr e1); EvCreate k obj (Some e2)] (Some e2)).
  { unfold dependency.createResourceIfAbsent. simpl.
    exists (inr e1), [EvCreate k obj (Some e2)]. split; [reflexivity|].
    simpl. rewrite He1. simpl.
    exists (Some e2), []. split; [reflexivity|]. simpl. auto. }
  split.
  - intros H. exact (runs_functional _ _ _ _ H Hrun).
  - intros ->. exact Hrun.
Qed.

Lemma createResourceIfAbsent_create_race_cicd :
  errors.IsNotFound (errors.NewNotFound "cicd") = true /\
  errors.IsAlreadyExists (errors.NewAlreadyExists "cicd") = true /\
  runs (dependency.createResourceIfAbsent (dependency.NewClient "")
          KNamespace (dependency.newNamespace "cicd")
          {| types.Namespace := ""; types.Name := "cicd" |})
       [EvGet KNamespace {| types.Namespace := ""; types.Name := "cicd" |}
              (inr (errors.NewNotFound "cicd"));
        EvCreate KNamespace (dependency.newNamespace "cicd")
                 (Some (errors.NewAlreadyExists "cicd"))]
       (Some (errors.NewAlreadyExists "cicd")) /\
  ~ runs (dependency.createResourceIfAbsent (dependency.NewClient "")
            KNamespace (dependency.newNamespace "cicd")
            {| types.Namespace := ""; types.Name := "cicd" |})
         [EvGet KNamespace {| types.Namespace := ""; types.Name := "cicd" |}
                (inr (errors.NewNotFound "cicd"));
          EvCreate KNamespace (dependency.newNamespace "cicd")
                   (Some (errors.NewAlreadyExists "cicd"))]
         None.
Proof.
  assert (H1 : errors.IsNotFound (errors.NewNotFound "cicd") = true)
    by reflexivity.
  assert (H2 : errors.IsAlreadyExists (errors.NewAlreadyExists "cicd") = true)
    by reflexivity.
  split; [exact H1|]. split; [exact H2|]. split.
  - exact (proj2 (createResourceIfAbsent_create_race (dependency.NewClient "")
             KNamespace (dependency.newNamespace "cicd")
             {| types.Namespace := ""; types.Name := "cicd" |}
             _ _ _ H1 H2) eq_refl).
  - intros Hnil.
    apply (createResourceIfAbsent_create_race (dependency.NewClient "")
             KNamespace (dependency.newNamespace "cicd")
             {| types.Namespace := ""; types.Name := "cicd" |}
             _ _ _ H1 H2) in Hnil.
    discriminate Hnil.
Defined.

(** C8.  On a cluster where the resource is already stored under the key,
    createResourceIfAbsent only reads: it returns nil and leaves the cluster
    as it was; so does a second call, whose trace has no write, and the
    stored resource is the one that was there before. *)
Theorem createResourceIfAbsent_idempotent
    (d : dependency.Dependency) (k : Kind) (obj stored : ObjectOf k)
    (ns : types.NamespacedName) (c : apiserver.Cluster) :
  apiserver.lookup k ns c = Some stored ->
  let '(err1, c1, t1) :=
    apiserver.exec (dependency.createResourceIfAbsent d k obj ns) c in
  let '(err2, c2, t2) :=
    apiserver.exec (dependency.createResourceIfAbsent d k obj ns) c1 in
  err1 = None /\ c1 = c /\ writes t1 = [] /\
  err2 = None /\ c2 = c1 /\ writes t2 = [] /\
  t2 = [EvGet k ns (inl stored)] /\
  apiserver.lookup k ns c2 = Some stored.
Proof.
  intros Hpresent.
  unfold dependency.createResourceIfAbsent. simpl.
  unfold apiserver.answerGet. rewrite Hpresent. simpl.
  unfold apiserver.answerGet. rewrite Hpresent. simpl.
  repeat split; auto.
Qed.

Lemma createResourceIfAbsent_idempotent_cicd :
  let ns := {| types.Namespace := ""; types.Name := "cicd" |} in
  let c := apiserver.store KNamespace (dependency.newNamespace "cicd")
             apiserver.empty in
  apiserver.lookup KNamespace ns c = Some (dependency.newNamespace "cicd") /\
  let '(err1, c1, t1) :=
    apiserver.exec (dependency.createResourceIfAbsent (dependency.NewClient "")
                      KNamespace (dependency.newNamespace "cicd") ns) c in
  let '(err2, c2, t2) :=
    apiserver.exec (dependency.createResourceIfAbsent (dependency.NewClient "")
                      KNamespace (dependency.newNamespace "cicd") ns) c1 in
  err1 = None /\ c1 = c /\ writes t1 = [] /\
  err2 = None /\ c2 = c1 /\ writes t2 = [] /\
  t2 = [EvGet KNamespace ns (inl (dependency.newNamespace "cicd"))] /\
  apiserver.lookup KNamespace ns c2 = Some (dependency.newNamespace "cicd").
Proof.
  split; [vm_compute; reflexivity|].
  apply (createResourceIfAbsent_idempotent (dependency.NewClient "") KNamespace
           (dependency.newNamespace "cicd") (dependency.newNamespace "cicd")).
  vm_compute; reflexivity.
Defined.

(** ** The reconciler: the event filter *)

Lemma assertArgoCD_spec (namespace name : string) :
  argocd.assertArgoCD namespace name = true <->
  namespace = "argocd" /\ name = "argocd".
Proof.
  unfold argocd.assertArgoCD, argocd.argocdNS, argocd.argocdInstanceName.
  rewrite andb_true_iff, !String.eqb_eq. intuition congruence.
Qed.

Lemma assertArgoCDRoute_spec (namespace name : string) :
  argocd.assertArgoCDRoute namespace name = true <->
  namespace = "argocd" /\ name = "argocd-server".
Proof.
  unfold argocd.assertArgoCDRoute, argocd.argocdNS, argocd.argocdRouteName.
  rewrite andb_true_iff, !String.eqb_eq. intuition congruence.
Qed.

(** C9.  The update predicate built by filterPredicate is false for every
    update event whose new resource version equals the old one, whatever the
    identity; it is true exactly when the identity test accepts the new
    object and the version changed.  The identity test of the ArgoCD watch
    accepts argocd/argocd, that of the Route watch argocd/argocd-server. *)
Theorem filterPredicate_update_version
    (assert : string -> string -> bool) (e : event.UpdateEvent) :
  (metav1.ResourceVersion (event.MetaNew e)
     = metav1.ResourceVersion (event.MetaOld e) ->
   predicate.UpdateFunc (argocd.filterPredicate assert) e = false) /\
  (predicate.UpdateFunc (argocd.filterPredicate assert) e = true <->
   assert (metav1.Namespace (event.MetaNew e)) (metav1.Name (event.MetaNew e)) = true /\
   metav1.ResourceVersion (event.MetaNew e)
     <> metav1.ResourceVersion (event.MetaOld e)) /\
  (predicate.UpdateFunc (argocd.filterPredicate argocd.assertArgoCD) e = true <->
   metav1.Namespace (event.MetaNew e) = "argocd" /\
   metav1.Name (event.MetaNew e) = "argocd" /\
   metav1.ResourceVersion (event.MetaNew e)
     <> metav1.ResourceVersion (event.MetaOld e)) /\
  (predicate.UpdateFunc (argocd.filterPredicate argocd.assertArgoCDRoute) e = true <->
   metav1.Namespace (event.MetaNew e) = "argocd" /\
   metav1.Name (event.MetaNew e) = "argocd-server" /\
   metav1.ResourceVersion (event.MetaNew e)
     <> metav1.ResourceVersion (event.MetaOld e)).
Proof.
  assert (Hgen : forall a : string -> string -> bool,
    predicate.UpdateFunc (argocd.filterPredicate a) e = true <->
    a (metav1.Namespace (event.MetaNew e)) (metav1.Name (event.MetaNew e)) = true /\
    metav1.ResourceVersion (event.MetaNew e)
      <> metav1.ResourceVersion (event.MetaOld e)).
  { intros a. simpl. rewrite andb_true_iff, negb_true_iff, String.eqb_neq.
    reflexivity. }
  split; [|split; [|split]].
  - intros Hsame. simpl. apply andb_false_iff. right.
    apply negb_false_iff, String.eqb_eq, Hsame.
  - apply Hgen.
  - rewrite Hgen, assertArgoCD_spec. tauto.
  - rewrite Hgen, assertArgoCDRoute_spec. tauto.
Qed.

(** ** The installer: waiting for the operator *)

Lemma pending_not_stops r res : pending r -> stops r res -> False.
Proof.
  intros Hp [(csv & -> & Hs & _)|[(csv & -> & Hf & _)|(e & -> & Hn & _)]];
    simpl in Hp.
  - destruct Hp; congruence.
  - destruct Hp; congruence.
  - congruence.
Qed.

Lemma isOperatorReady_runs ns t x :
  runs (dependency.isOperatorReady ns) t x <->
  exists r, t = [EvGet KClusterServiceVersion ns r] /\
    ((pending r /\ x = (false, None)) \/
     (exists res, stops r res /\
        x = (match res with None => true | Some _ => false end, res))).
Proof.
  unfold dependency.isOperatorReady, Get. simpl. split.
  - intros (r & t' & -> & Hr). exists r.
    destruct r as [csv|e]; simpl in Hr.
    + destruct (String.eqb_spec (v1alpha1.Phase (v1alpha1.Status csv))
                  v1alpha1.CSVPhaseFailed) as [Hf|Hf].
      * destruct Hr as [-> ->]. split; [reflexivity|]. right.
        eexists. split; [right; left; exists csv; eauto|reflexivity].
      * destruct (String.eqb_spec (v1alpha1.Phase (v1alpha1.Status csv))
                    v1alpha1.CSVPhaseSucceeded) as [Hs|Hs];
          destruct Hr as [-> ->]; (split; [reflexivity|]).
        -- right. exists None. split; [left; exists csv; eauto|reflexivity].
        -- left. split; [split; assumption|reflexivity].
    + destruct (errors.IsNotFound e) eqn:Hn; simpl in Hr;
        destruct Hr as [-> ->]; (split; [reflexivity|]).
      * left. split; [exact Hn|reflexivity].
      * right. exists (Some e). split; [right; right; exists e; eauto|reflexivity].
  - intros (r & -> & Hcase). exists r, []. split; [reflexivity|].
    destruct Hcase as [[Hp ->]|(res & Hs & ->)].
    + destruct r as [csv|e]; simpl in *.
      * destruct Hp as [Hs Hf].
        apply String.eqb_neq in Hs, Hf. rewrite Hf, Hs. simpl. auto.
      * rewrite Hp. simpl. auto.
    + destruct Hs as [(csv & -> & Hs & ->)|[(csv & -> & Hf & ->)|(e & -> & Hn & ->)]];
        simpl.
      * rewrite Hs. simpl. auto.
      * rewrite Hf. simpl. auto.
      * rewrite Hn. simpl. auto.
Qed.

Lemma condition_step ns (k : bool * option error -> Prog (option error)) t res :
  runs (client.bind (dependency.isOperatorReady ns) k) t res <->
  exists r t', t = EvGet KClusterServiceVersion ns r :: t' /\
    ((pending r /\ runs (k (false, None)) t' res) \/
     (exists res0, stops r res0 /\
        runs (k (match res0 with None => true | Some _ => false end, res0)) t' res)).
Proof.
  rewrite runs_bind. split.
  - intros (t1 & t2 & x & -> & Hc & Hk).
    apply isOperatorReady_runs in Hc as (r & -> & Hcase).
    exists r, t2. split; [reflexivity|].
    destruct Hcase as [[Hp ->]|(res0 & Hs & ->)]; eauto.
  - intros (r & t' & -> & Hcase).
    destruct Hcase as [[Hp Hk]|(res0 & Hs & Hk)].
    + exists [EvGet KClusterServiceVersion ns r], t', (false, None).
      split; [reflexivity|]. split; [|exact Hk].
      apply isOperatorReady_runs. exists r. split; [reflexivity|]. left. auto.
    + exists [EvGet KClusterServiceVersion ns r], t',
        (match res0 with None => true | Some _ => false end, res0).
      split; [reflexivity|]. split; [|exact Hk].
      apply isOperatorReady_runs. exists r. split; [reflexivity|]. right. eauto.
Qed.

Arguments wait.poll : simpl never.
Arguments dependency.isOperatorReady : simpl never.

Lemma poll_runs ns interval n t res :
  runs (wait.poll n interval (dependency.isOperatorReady ns)) t res <->
  exists reads,
    t = flat_map (fun r => [EvSleep interval; EvGet KClusterServiceVersion ns r]) reads /\
    poll_reads n reads res.
Proof.
  revert t. induction n as [|n IH]; intros t;
    unfold wait.poll; fold wait.poll; simpl.
  - split.
    + intros [-> ->]. exists []. auto.
    + intros (reads & -> & -> & ->). auto.
  - split.
    + intros (t' & -> & Hb). apply condition_step in Hb as (r & t2 & -> & Hcase).
      destruct Hcase as [[Hp Hk]|(res0 & Hs & Hk)].
      * cbv beta iota in Hk. apply IH in Hk as (rest & -> & Hrest).
        exists (r :: rest). split; [reflexivity|]. exists r, rest. eauto.
      * exists [r]. destruct res0 as [e|]; cbv beta iota in Hk; destruct Hk as [-> ->];
          (split; [reflexivity|]); exists r, []; eauto.
    + intros (reads & -> & r & rest & -> & Hcase). simpl.
      eexists. split; [reflexivity|]. apply condition_step.
      eexists r, _. split; [reflexivity|].
      destruct Hcase as [[Hp Hrest]|[Hs ->]].
      * left. split; [exact Hp|]. cbv beta iota. apply IH. eauto.
      * right. exists res. split; [exact Hs|].
        destruct res; cbv beta iota; simpl; auto.
Qed.

Lemma waitForOperator_runs ns t res :
  runs (dependency.waitForOperator ns None) t res <->
  exists reads,
    t = poll_trace ns (1 * time.Second)%Z reads /\ poll_reads 61 reads res.
Proof.
  unfold dependency.waitForOperator, wait.PollImmediate.
  change (Z.to_nat (1 * time.Minute / (1 * time.Second))%Z) with 60%nat.
  rewrite condition_step. split.
  - intros (r & t' & -> & Hcase).
    destruct Hcase as [[Hp Hk]|(res0 & Hs & Hk)].
    + cbv beta iota in Hk. apply poll_runs in Hk as (rest & -> & Hrest).
      exists (r :: rest). split; [reflexivity|]. exists r, rest. eauto.
    + exists [r]. destruct res0 as [e|]; cbv beta iota in Hk; destruct Hk as [-> ->];
        (split; [reflexivity|]); exists r, []; eauto.
  - intros (reads & -> & r & rest & -> & Hcase).
    eexists r, _. split; [reflexivity|].
    destruct Hcase as [[Hp Hrest]|[Hs ->]].
    + left. split; [exact Hp|]. cbv beta iota. apply poll_runs. eauto.
    + right. exists res. split; [exact Hs|]. destruct res; cbv beta iota; simpl; auto.
Qed.

(** [poll_reads] in closed form. *)
Lemma poll_reads_closed n reads res :
  poll_reads n reads res <->
  (Forall pending reads /\ length reads = n /\ res = Some wait.ErrWaitTimeout) \/
  (exists rs r, reads = rs ++ [r] /\ Forall pending rs /\ (length rs < n)%nat /\
     stops r res).
Proof.
  revert reads. induction n as [|n IH]; intros reads; simpl.
  - split.
    + intros [-> ->]. left. auto.
    + intros [(_ & Hlen & ->)|(rs & r & _ & _ & Hlt & _)]; [|lia].
      destruct reads; [auto|discriminate].
  - split.
    + intros (r & rest & -> & [[Hp Hrest]|[Hs ->]]).
      * apply IH in Hrest as [(Hall & Hlen & ->)|(rs & r' & -> & Hall & Hlt & Hs)].
        -- left. simpl. auto.
        -- right. exists (r :: rs), r'. simpl. repeat split; auto; lia.
      * right. exists [], r. simpl. repeat split; auto; lia.
    + intros [(Hall & Hlen & ->)|(rs & r & -> & Hall & Hlt & Hs)].
      * destruct reads as [|r rest]; [discriminate|].
        inversion Hall; subst. exists r, rest. split; [reflexivity|].
        left. split; [assumption|]. apply IH. left. simpl in Hlen. auto.
      * destruct rs as [|r0 rs]; simpl.
        -- exists r, []. auto.
        -- inversion Hall; subst. exists r0, (rs ++ [r]). split; [reflexivity|].
           left. split; [assumption|]. apply IH. right.
           exists rs, r. simpl in Hlt. repeat split; auto; lia.
Qed.

Lemma elapsed_poll_trace ns interval r rest :
  elapsed (poll_trace ns interval (r :: rest))
  = (Z.of_nat (length rest) * interval)%Z.
Proof.
  unfold poll_trace. cbn [elapsed].
  induction rest as [|r' rest IH]; [reflexivity|].
  cbn [flat_map app elapsed length]. rewrite IH. lia.
Qed.

(** C2.  The runs of the readiness wait are exactly the sequences of reads
    of the ClusterServiceVersion in which every read before the last is
    pending (not found, or found in a phase other than Succeeded and Failed:
    polling went on), and the last read either has phase Succeeded, and the
    wait returns nil; or has phase Failed, and the wait returns an error
    whose message ends in the reported reason; or failed with an error other
    than not-found, and the wait returns that error; or is the pending read
    at the deadline, and the wait times out. *)
Theorem waitForOperator_read_outcomes
    (ns : types.NamespacedName) (t : list Event) (res : option error) :
  runs (dependency.waitForOperator ns None) t res <->
  exists rs r,
    t = poll_trace ns (1 * time.Second)%Z (rs ++ [r]) /\
    Forall pending rs /\ (length rs <= 60)%nat /\
    ((exists csv, r = inl csv /\
        v1alpha1.Phase (v1alpha1.Status csv) = v1alpha1.CSVPhaseSucceeded /\
        res = None) \/
     (exists csv, r = inl csv /\
        v1alpha1.Phase (v1alpha1.Status csv) = v1alpha1.CSVPhaseFailed /\
        res = Some (errorString ("Operator installation failed: "
                                   +:+ v1alpha1.Reason (v1alpha1.Status csv)))) \/
     (exists e, r = inr e /\ errors.IsNotFound e = false /\ res = Some e) \/
     (pending r /\ length rs = 60%nat /\ res = Some wait.ErrWaitTimeout)).
Proof.
  rewrite waitForOperator_runs. split.
  - intros (reads & -> & Hreads).
    apply poll_reads_closed in Hreads
      as [(Hall & Hlen & ->)|(rs & r & -> & Hall & Hlt & Hs)].
    + destruct (exists_last (l := reads)) as (rs & r & ->).
      { intros ->. discriminate. }
      rewrite length_app in Hlen. simpl in Hlen.
      apply Forall_app in Hall as [Hrs Hr]. inversion Hr; subst.
      exists rs, r. repeat split; auto; try lia.
      right. right. right. repeat split; auto; lia.
    + exists rs, r. repeat split; auto; try lia.
      destruct Hs as [H|[H|H]]; auto.
  - intros (rs & r & -> & Hall & Hle & Hcase).
    exists (rs ++ [r]). split; [reflexivity|]. apply poll_reads_closed.
    destruct Hcase as [H|[H|[H|(Hp & Hlen & ->)]]].
    + right. exists rs, r. repeat split; auto; try lia. left. exact H.
    + right. exists rs, r. repeat split; auto; try lia. right. left. exact H.
    + right. exists rs, r. repeat split; auto; try lia. right. right. exact H.
    + left. split; [apply Forall_app; auto|].
      rewrite length_app. simpl. split; [lia|reflexivity].
Qed.

(** C7.  One minute is sixty intervals of one second.  Every run of the
    readiness wait reads at once and then once per second: its waits add up
    to one second per read after the first and to at most one minute.  When
    no read of a run is terminal the run has waited the whole minute and
    returns the timeout error; and every sequence of 61 pending reads is
    such a run. *)
Theorem waitForOperator_deadline (ns : types.NamespacedName) :
  (1 * time.Minute = 60 * (1 * time.Second))%Z /\
  (forall t res,
     runs (dependency.waitForOperator ns None) t res ->
     exists reads,
       t = poll_trace ns (1 * time.Second)%Z reads /\
       (1 <= length reads <= 61)%nat /\
       elapsed t = ((Z.of_nat (length reads) - 1) * (1 * time.Second))%Z /\
       (elapsed t <= 1 * time.Minute)%Z /\
       (Forall pending reads ->
        elapsed t = (1 * time.Minute)%Z /\ res = Some wait.ErrWaitTimeout)) /\
  (forall reads,
     length reads = 61%nat -> Forall pending reads ->
     runs (dependency.waitForOperator ns None)
          (poll_trace ns (1 * time.Second)%Z reads) (Some wait.ErrWaitTimeout)).
Proof.
  split; [reflexivity|]. split.
  - intros t res Hrun. apply waitForOperator_runs in Hrun as (reads & -> & Hreads).
    exists reads. split; [reflexivity|].
    assert (Hlen : (1 <= length reads <= 61)%nat /\
                   (Forall pending reads ->
                    length reads = 61%nat /\ res = Some wait.ErrWaitTimeout)).
    { apply poll_reads_closed in Hreads
        as [(Hall & Hlen & ->)|(rs & r & -> & Hall & Hlt & Hs)].
      - split; [lia|auto].
      - rewrite length_app. simpl. split; [lia|].
        intros Hp. apply Forall_app in Hp as [_ Hr]. inversion Hr; subst.
        exfalso. eapply pending_not_stops; eauto. }
    destruct Hlen as [Hlen Htimeout].
    destruct reads as [|r rest]; [simpl in Hlen; lia|].
    rewrite elapsed_poll_trace. simpl length in *.
    assert (Hsec : (1 * time.Second = 1000000000)%Z) by reflexivity.
    assert (Hmin : (1 * time.Minute = 60000000000)%Z) by reflexivity.
    rewrite Hsec, Hmin.
    split; [exact Hlen|]. split; [lia|]. split; [lia|].
    intros Hp. destruct (Htimeout Hp) as [H61 ->]. split; [lia|reflexivity].
  - intros reads Hlen Hall. apply waitForOperator_runs.
    exists reads. split; [reflexivity|]. apply poll_reads_closed. left. auto.
Qed.

(** ** The installer: order of the steps *)

Lemma runs_in_order_app ss1 ss2 t res :
  runs_in_order (ss1 ++ ss2) t res <->
  (exists e, runs_in_order ss1 t (Some e) /\ res = Some e) \/
  (exists t1 t2, t = t1 ++ t2 /\ runs_in_order ss1 t1 None /\
     runs_in_order ss2 t2 res).
Proof.
  revert t. induction ss1 as [|s ss1 IH]; intros t; simpl.
  - split.
    + intros H. right. exists [], t. auto.
    + intros [(e & [_ H] & _)|(t1 & t2 & -> & [-> _] & H)]; [discriminate|exact H].
  - split.
    + intros [(e & Hs & ->)|(t1 & t2 & -> & Hs & Hrest)].
      * left. exists e. split; [left; eauto|reflexivity].
      * apply IH in Hrest as [(e & Hr & ->)|(t3 & t4 & -> & Hr & H2)].
        -- left. exists e. split; [right; eauto 6|reflexivity].
        -- right. exists (t1 ++ t3), t4. rewrite app_assoc.
           split; [reflexivity|]. split; [right; eauto 6|exact H2].
    + intros [(e & [(e' & Hs & He)|(t1 & t2 & -> & Hs & Hr)] & ->)
             |(t1 & t2 & -> & [(e & _ & He)|(t3 & t4 & -> & Hs & Hr)] & H2)].
      * left. exists e'. split; [exact Hs|exact He].
      * right. exists t1, t2. split; [reflexivity|]. split; [exact Hs|].
        apply IH. left. eauto.
      * discriminate.
      * right. exists t3, (t4 ++ t2). rewrite app_assoc.
        split; [reflexivity|]. split; [exact Hs|]. apply IH. right. eauto 6.
Qed.

Lemma runs_check (p k : Prog (option error)) t res :
  runs (client.bind p (fun err => match err with Some _ => Ret err | None => k end))
       t res <->
  (exists e, runs p t (Some e) /\ res = Some e) \/
  (exists t1 t2, t = t1 ++ t2 /\ runs p t1 None /\ runs k t2 res).
Proof.
  rewrite runs_bind. split.
  - intros (t1 & t2 & [e|] & -> & Hp & Hk).
    + destruct Hk as [-> ->]. left. exists e. rewrite app_nil_r. auto.
    + right. eauto.
  - intros [(e & Hp & ->)|(t1 & t2 & -> & Hp & Hk)].
    + exists t, [], (Some e). rewrite app_nil_r. simpl. auto.
    + exists t1, t2, None. auto.
Qed.

Lemma Install_body_runs d o t res :
  runs (dependency.Install_body d o) t res <-> runs_in_order (steps d o) t res.
Proof.
  unfold dependency.Install_body, steps. cbv zeta.
  cbn [runs_in_order dependency.GetNamespace dependency.newNamespace
       corev1.ObjectMeta metav1.named metav1.Name dependency.GetOperatorGroup
       dependency.newOperatorGroup v1.ObjectMeta metav1.namespaced
       metav1.Namespace dependency.GetSubscription dependency.newSubscription
       v1alpha1.sub_ObjectMeta].
  split.
  - intros H.
    apply runs_check in H as [H|(t1 & t2 & -> & H1 & H)]; [left; exact H|].
    right. exists t1, t2. split; [reflexivity|]. split; [exact H1|].
    apply runs_check in H as [H|(t3 & t4 & -> & H2 & H)]; [left; exact H|].
    right. exists t3, t4. split; [reflexivity|]. split; [exact H2|].
    apply runs_check in H as [H|(t5 & t6 & -> & H3 & H)]; [left; exact H|].
    right. exists t5, t6. split; [reflexivity|]. split; [exact H3|].
    destruct res as [e|].
    + left. eauto.
    + right. exists t6, []. rewrite app_nil_r. auto.
  - intros H.
    apply runs_check. destruct H as [H|(t1 & t2 & -> & H1 & H)]; [left; exact H|].
    right. exists t1, t2. split; [reflexivity|]. split; [exact H1|].
    apply runs_check. destruct H as [H|(t3 & t4 & -> & H2 & H)]; [left; exact H|].
    right. exists t3, t4. split; [reflexivity|]. split; [exact H2|].
    apply runs_check. destruct H as [H|(t5 & t6 & -> & H3 & H)]; [left; exact H|].
    right. exists t5, t6. split; [reflexivity|]. split; [exact H3|].
    destruct H as [(e & Hw & ->)|(t7 & t8 & -> & Hw & [-> ->])].
    + exact Hw.
    + rewrite app_nil_r. exact Hw.
Qed.

Lemma Install_range_runs d ops t res :
  runs (dependency.Install_range d ops) t res <->
  runs_in_order (flat_map (steps d) ops) t res.
Proof.
  revert t. induction ops as [|o rest IH]; intros t.
  - reflexivity.
  - cbn [dependency.Install_range flat_map].
    rewrite runs_check, runs_in_order_app. split.
    + intros [(e & Hb & ->)|(t1 & t2 & -> & Hb & Hr)].
      * left. exists e. split; [apply Install_body_runs, Hb|reflexivity].
      * right. exists t1, t2. split; [reflexivity|].
        split; [apply Install_body_runs, Hb|apply IH, Hr].
    + intros [(e & Hb & ->)|(t1 & t2 & -> & Hb & Hr)].
      * left. exists e. split; [apply Install_body_runs, Hb|reflexivity].
      * right. exists t1, t2. split; [reflexivity|].
        split; [apply Install_body_runs, Hb|apply IH, Hr].
Qed.

Lemma createResourceIfAbsent_targets d k obj t res :
  runs (dependency.createResourceIfAbsent d k obj (ObjectKey obj)) t res ->
  Forall (fun ev => target ev = Some (k, ObjectKey obj)) t.
Proof.
  unfold dependency.createResourceIfAbsent, Get, Create. simpl.
  intros (r & t' & -> & Hr). constructor; [reflexivity|].
  destruct r as [found|e]; simpl in Hr.
  - destruct Hr as [-> _]. constructor.
  - destruct (errors.IsNotFound e).
    + simpl in Hr. destruct Hr as (r & t2 & -> & Hr).
      constructor; [reflexivity|].
      destruct r; simpl in Hr; destruct Hr as [-> _]; constructor.
    + destruct (errors.IsAlreadyExists e); simpl in Hr;
        destruct Hr as [-> _]; constructor.
Qed.

Lemma waitForOperator_targets ns t res :
  runs (dependency.waitForOperator ns None) t res ->
  Forall (fun ev => forall x, target ev = Some x ->
            x = (KClusterServiceVersion, ns)) t.
Proof.
  intros H. apply waitForOperator_runs in H as (reads & -> & _).
  destruct reads as [|r rest]; simpl; constructor.
  - simpl. congruence.
  - induction rest as [|r' rest IH]; simpl; constructor.
    + simpl. congruence.
    + constructor; [simpl; congruence|exact IH].
Qed.

Lemma touches_only_app os t1 t2 :
  touches_only os t1 -> touches_only os t2 -> touches_only os (t1 ++ t2).
Proof. unfold touches_only. intros H1 H2. apply Forall_app. auto. Qed.

Lemma touches_only_mono os os' t :
  (forall o, In o os -> In o os') -> touches_only os t -> touches_only os' t.
Proof.
  unfold touches_only. intros Hsub.
  apply List.Forall_impl. intros ev H x Hx. destruct (H x Hx) as (o & Ho & Hin).
  exists o. auto.
Qed.

Lemma touches_one o (x : Kind * types.NamespacedName) t :
  In x (resources o) ->
  Forall (fun ev => forall y, target ev = Some y -> y = x) t ->
  touches_only [o] t.
Proof.
  intros Hin. unfold touches_only. apply List.Forall_impl.
  intros ev H y Hy. exists o. rewrite (H y Hy). simpl. auto.
Qed.

Lemma steps_touch prefix o t res :
  runs_in_order (steps (dependency.NewClient prefix) o) t res ->
  touches_only [o] t.
Proof.
  unfold steps. cbn [runs_in_order dependency.isReady dependency.NewClient].
  assert (Hcreate : forall k (obj : ObjectOf k) t' r,
            In (k, ObjectKey obj) (resources o) ->
            runs (dependency.createResourceIfAbsent (dependency.NewClient prefix)
                    k obj (ObjectKey obj)) t' r ->
            touches_only [o] t').
  { intros k obj t' r Hin Hr. apply (touches_one o (k, ObjectKey obj)); [exact Hin|].
    apply createResourceIfAbsent_targets in Hr.
    revert Hr. apply List.Forall_impl. intros ev H y Hy. congruence. }
  assert (Hwait : forall t' r,
            runs (dependency.waitForOperator
                    {| types.Namespace := dependency.namespace o;
                       types.Name := dependency.csv o |} None) t' r ->
            touches_only [o] t').
  { intros t' r Hr. eapply touches_one; [|apply waitForOperator_targets in Hr; exact Hr].
    simpl. auto. }
  intros [(e & H1 & _)|(t1 & t2 & -> & H1 & H)].
  { apply (Hcreate KNamespace (dependency.GetNamespace o)) in H1; [exact H1|].
    simpl. auto. }
  apply touches_only_app.
  { apply (Hcreate KNamespace (dependency.GetNamespace o)) in H1; [exact H1|].
    simpl. auto. }
  destruct H as [(e & H2 & _)|(t3 & t4 & -> & H2 & H)].
  { apply (Hcreate KOperatorGroup (dependency.GetOperatorGroup o)) in H2; [exact H2|].
    simpl. auto. }
  apply touches_only_app.
  { apply (Hcreate KOperatorGroup (dependency.GetOperatorGroup o)) in H2; [exact H2|].
    simpl. auto. }
  destruct H as [(e & H3 & _)|(t5 & t6 & -> & H3 & H)].
  { apply (Hcreate KSubscription (dependency.GetSubscription o)) in H3; [exact H3|].
    simpl. auto. }
  apply touches_only_app.
  { apply (Hcreate KSubscription (dependency.GetSubscription o)) in H3; [exact H3|].
    simpl. auto. }
  destruct H as [(e & H4 & _)|(t7 & t8 & -> & H4 & [-> _])].
  { apply Hwait in H4. exact H4. }
  rewrite app_nil_r. apply Hwait in H4. exact H4.
Qed.

Lemma steps_all_touch prefix os t res :
  runs_in_order (flat_map (steps (dependency.NewClient prefix)) os) t res ->
  touches_only os t.
Proof.
  revert t. induction os as [|o os IH]; intros t.
  - simpl. intros [-> _]. constructor.
  - cbn [flat_map]. rewrite runs_in_order_app.
    intros [(e & H & _)|(t1 & t2 & -> & H1 & H2)].
    + apply steps_touch in H. revert H. apply touches_only_mono.
      simpl. tauto.
    + apply touches_only_app.
      * apply steps_touch in H1. revert H1. apply touches_only_mono. simpl. tauto.
      * apply IH in H2. revert H2. apply touches_only_mono. simpl. tauto.
Qed.

Lemma append_inv_l (p a b : string) : p +:+ a = p +:+ b -> a = b.
Proof.
  induction p as [|c p IH]; simpl; intros H; [exact H|].
  injection H. exact IH.
Qed.

Lemma operator_namespaces_differ prefix :
  dependency.namespace (dependency.newSealedSecretsOperator prefix)
  <> dependency.namespace (dependency.newArgoCDOperator prefix).
Proof.
  simpl. unfold dependency.addPrefixIfNecessary.
  destruct (negb (prefix =? "")%string).
  - intros H. apply append_inv_l in H. discriminate.
  - discriminate.
Qed.

Lemma operator_resources_disjoint prefix x :
  In x (resources (dependency.newSealedSecretsOperator prefix)) ->
  In x (resources (dependency.newArgoCDOperator prefix)) -> False.
Proof.
  pose proof (operator_namespaces_differ prefix) as Hns.
  unfold resources.
  intros [<-|[<-|[<-|[<-|[]]]]] [H|[H|[H|[H|[]]]]];
    try discriminate H; injection H; intros; congruence.
Qed.

(** C6.  Install runs the steps of its operators strictly in list order, and
    within one operator in the order namespace, operator group, subscription,
    readiness wait; it returns the error of the first step that fails and
    runs nothing after it.  However the list is split around an operator,
    either the run failed at or before that operator, and then every request
    made is about a resource of an operator up to that one; or all steps up
    to it succeeded and the rest of the run is the installation of the
    operators after it.  For the two operators Install is called with: when
    a step of the sealed-secrets operator fails, Install returns that error
    and no request is about a resource of the ArgoCD operator.  The runs of
    Install are exactly the runs, in this order and stopping at the first
    failure, of the four steps of the sealed-secrets operator followed by the
    four steps of the ArgoCD operator: a run of Install either fails in a
    step of the sealed-secrets operator, or consists of a successful run of
    its four steps, about its resources only, followed by a run of the four
    steps of the ArgoCD operator, about its resources only, whose outcome,
    the error of the step that failed or nil, is what Install returns. *)
Theorem Install_strict_order (prefix : string) :
  (forall ops t res,
     runs (dependency.Install_range (dependency.NewClient prefix) ops) t res <->
     runs_in_order (flat_map (steps (dependency.NewClient prefix)) ops) t res) /\
  (forall pre o post t res,
     runs (dependency.Install_range (dependency.NewClient prefix)
             (pre ++ o :: post)) t res ->
     (exists e, res = Some e /\
        runs_in_order (flat_map (steps (dependency.NewClient prefix)) (pre ++ [o]))
                      t (Some e) /\
        touches_only (pre ++ [o]) t) \/
     (exists t1 t2, t = t1 ++ t2 /\
        runs_in_order (flat_map (steps (dependency.NewClient prefix)) (pre ++ [o]))
                      t1 None /\
        runs (dependency.Install_range (dependency.NewClient prefix) post) t2 res)) /\
  (forall t e,
     runs_in_order (steps (dependency.NewClient prefix)
                      (dependency.newSealedSecretsOperator prefix)) t (Some e) ->
     runs (dependency.Install (dependency.NewClient prefix)) t (Some e) /\
     (forall res, runs (dependency.Install (dependency.NewClient prefix)) t res ->
                  res = Some e) /\
     Forall (fun ev => forall x, target ev = Some x ->
               ~ In x (resources (dependency.newArgoCDOperator prefix))) t) /\
  (forall t res,
     runs (dependency.Install (dependency.NewClient prefix)) t res <->
     runs_in_order
       (steps (dependency.NewClient prefix)
              (dependency.newSealedSecretsOperator prefix)
        ++ steps (dependency.NewClient prefix)
                 (dependency.newArgoCDOperator prefix)) t res) /\
  (forall t res,
     runs (dependency.Install (dependency.NewClient prefix)) t res ->
     (exists e, res = Some e /\
        runs_in_order (steps (dependency.NewClient prefix)
                         (dependency.newSealedSecretsOperator prefix)) t (Some e)) \/
     (exists t1 t2, t = t1 ++ t2 /\
        runs_in_order (steps (dependency.NewClient prefix)
                         (dependency.newSealedSecretsOperator prefix)) t1 None /\
        runs_in_order (steps (dependency.NewClient prefix)
                         (dependency.newArgoCDOperator prefix)) t2 res /\
        touches_only [dependency.newSealedSecretsOperator prefix] t1 /\
        touches_only [dependency.newArgoCDOperator prefix] t2 /\
        t2 <> [])) /\
  (forall t1 t2 res,
     runs_in_order (steps (dependency.NewClient prefix)
                      (dependency.newSealedSecretsOperator prefix)) t1 None ->
     runs_in_order (steps (dependency.NewClient prefix)
                      (dependency.newArgoCDOperator prefix)) t2 res ->
     runs (dependency.Install (dependency.NewClient prefix)) (t1 ++ t2) res /\
     (forall res', runs (dependency.Install (dependency.NewClient prefix))
                     (t1 ++ t2) res' -> res' = res)).
Proof.
  assert (Hinstall : forall t res,
            runs (dependency.Install (dependency.NewClient prefix)) t res <->
            runs_in_order
              (steps (dependency.NewClient prefix)
                     (dependency.newSealedSecretsOperator prefix)
               ++ steps (dependency.NewClient prefix)
                        (dependency.newArgoCDOperator prefix)) t res).
  { intros t res. unfold dependency.Install. rewrite Install_range_runs.
    cbn [flat_map dependency.prefix dependency.NewClient].
    rewrite app_nil_r. reflexivity. }
  split; [|split; [|split; [|split; [|split]]]].
  - intros ops t res. apply Install_range_runs.
  - intros pre o post t res Hrun.
    apply Install_range_runs in Hrun.
    replace (pre ++ o :: post) with ((pre ++ [o]) ++ post) in Hrun
      by (rewrite <- app_assoc; reflexivity).
    rewrite flat_map_app in Hrun.
    apply runs_in_order_app in Hrun as [(e & H & ->)|(t1 & t2 & -> & H1 & H2)].
    + left. exists e. split; [reflexivity|]. split; [exact H|].
      eapply steps_all_touch. exact H.
    + right. exists t1, t2. split; [reflexivity|]. split; [exact H1|].
      apply Install_range_runs. exact H2.
  - intros t e Hfail.
    assert (Hrun : runs (dependency.Install (dependency.NewClient prefix)) t (Some e)).
    { apply Hinstall. apply runs_in_order_app. left. eauto. }
    split; [exact Hrun|]. split.
    + intros res H. exact (runs_functional _ _ _ _ H Hrun).
    + apply steps_touch in Hfail. revert Hfail. apply List.Forall_impl.
      intros ev H x Hx Hin. destruct (H x Hx) as (o & [<-|[]] & Ho).
      eapply operator_resources_disjoint; eauto.
  - exact Hinstall.
  - intros t res Hrun. apply Hinstall in Hrun.
    apply runs_in_order_app in Hrun as [(e & H & ->)|(t1 & t2 & -> & H1 & H2)].
    + left. exists e. split; [reflexivity|exact H].
    + right. exists t1, t2. split; [reflexivity|]. split; [exact H1|].
      split; [exact H2|]. split; [eapply steps_touch; exact H1|].
      split; [eapply steps_touch; exact H2|].
      intros ->. unfold steps in H2. cbn [runs_in_order] in H2.
      destruct H2 as [(e & H & _)|(t3 & t4 & Heq & H & _)].
      * destruct H as (r & t' & Hnil & _). discriminate Hnil.
      * destruct H as (r & t' & -> & _). discriminate Heq.
  - intros t1 t2 res H1 H2.
    assert (Hrun : runs (dependency.Install (dependency.NewClient prefix))
                     (t1 ++ t2) res).
    { apply Hinstall. apply runs_in_order_app. right. eauto. }
    split; [exact Hrun|].
    intros res' H. exact (runs_functional _ _ _ _ H Hrun).
Qed.

Lemma Install_strict_order_namespace_read_fails :
  (runs_in_order (steps (dependency.NewClient "")
                    (dependency.newSealedSecretsOperator ""))
     sealedSecretsInstalled None /\
   runs_in_order (steps (dependency.NewClient "")
                    (dependency.newArgoCDOperator ""))
     argocdNamespaceRefused (Some (errorString "connection refused")) /\
   runs (dependency.Install (dependency.NewClient ""))
     (sealedSecretsInstalled ++ argocdNamespaceRefused)
     (Some (errorString "connection refused")) /\
   (forall res',
      runs (dependency.Install (dependency.NewClient ""))
        (sealedSecretsInstalled ++ argocdNamespaceRefused) res' ->
      res' = Some (errorString "connection refused"))) /\
  runs_in_order (steps (dependency.NewClient "")
                   (dependency.newSealedSecretsOperator ""))
    [EvGet KNamespace {| types.Namespace := ""; types.Name := "cicd" |}
           (inr (errorString "connection refused"))]
    (Some (errorString "connection refused")) /\
  runs (dependency.Install (dependency.NewClient ""))
    [EvGet KNamespace {| types.Namespace := ""; types.Name := "cicd" |}
           (inr (errorString "connection refused"))]
    (Some (errorString "connection refused")) /\
  (forall res,
     runs (dependency.Install (dependency.NewClient ""))
       [EvGet KNamespace {| types.Namespace := ""; types.Name := "cicd" |}
              (inr (errorString "connection refused"))] res ->
     res = Some (errorString "connection refused")) /\
  Forall (fun ev => forall x, target ev = Some x ->
            ~ In x (resources (dependency.newArgoCDOperator "")))
    [EvGet KNamespace {| types.Namespace := ""; types.Name := "cicd" |}
           (inr (errorString "connection refused"))].
Proof.
  assert (H1 : runs_in_order (steps (dependency.NewClient "")
                    (dependency.newSealedSecretsOperator ""))
                 sealedSecretsInstalled None).
  { unfold sealedSecretsInstalled, steps. cbn [runs_in_order].
    right. eexists [_], _. split; [reflexivity|]. split.
    { eexists (inl _), []. split; [reflexivity|]. split; reflexivity. }
    right. eexists [_], _. split; [reflexivity|]. split.
    { eexists (inl _), []. split; [reflexivity|]. split; reflexivity. }
    right. eexists [_], _. split; [reflexivity|]. split.
    { eexists (inl _), []. split; [reflexivity|]. split; reflexivity. }
    right. eexists [_], []. split; [reflexivity|]. split; [|split; reflexivity].
    apply waitForOperator_runs.
    exists [inl (sealedSecretsCSV "Succeeded" "")]. split; [reflexivity|].
    exists (inl (sealedSecretsCSV "Succeeded" "")), []. split; [reflexivity|].
    right. split; [|reflexivity]. left. eexists. repeat split. }
  assert (H2 : runs_in_order (steps (dependency.NewClient "")
                    (dependency.newArgoCDOperator ""))
                 argocdNamespaceRefused (Some (errorString "connection refused"))).
  { left. exists (errorString "connection refused"). split; [|reflexivity].
    exists (inr (errorString "connection refused")), [].
    split; [reflexivity|]. split; reflexivity. }
  assert (H : runs_in_order (steps (dependency.NewClient "")
                   (dependency.newSealedSecretsOperator ""))
    [EvGet KNamespace {| types.Namespace := ""; types.Name := "cicd" |}
           (inr (errorString "connection refused"))]
    (Some (errorString "connection refused"))).
  { left. exists (errorString "connection refused"). split; [|reflexivity].
    exists (inr (errorString "connection refused")), [].
    split; [reflexivity|]. split; reflexivity. }
  split.
  { split; [exact H1|]. split; [exact H2|].
    exact (proj2 (proj2 (proj2 (proj2 (proj2 (Install_strict_order "")))))
             _ _ _ H1 H2). }
  split; [exact H|].
  exact (proj1 (proj2 (proj2 (Install_strict_order ""))) _ _ H).
Defined.

(** ** The reconciler *)

Lemma lookup_remove k key c : apiserver.lookup k key (apiserver.remove k key c) = None.
Proof.
  unfold apiserver.lookup, apiserver.remove.
  destruct k; simpl; apply lookup_delete_eq.
Qed.

Lemma lookup_store k (obj : ObjectOf k) c :
  apiserver.lookup k (ObjectKey obj) (apiserver.store k obj c) = Some obj.
Proof.
  unfold apiserver.lookup, apiserver.store.
  destruct k; simpl; apply lookup_insert_eq.
Qed.

Lemma exec_CallGet_found {A : Type} k key (cont : ObjectOf k + error -> Prog A)
    c found :
  apiserver.lookup k key c = Some found ->
  apiserver.exec (CallGet k key cont) c
  = let '(a, c', t) := apiserver.exec (cont (inl found)) c in
    (a, c', EvGet k key (inl found) :: t).
Proof.
  intros H. cbn [apiserver.exec]. unfold apiserver.answerGet. rewrite H.
  reflexivity.
Qed.

Lemma exec_CallGet_absent {A : Type} k key (cont : ObjectOf k + error -> Prog A) c :
  apiserver.lookup k key c = None ->
  apiserver.exec (CallGet k key cont) c
  = let '(a, c', t) :=
      apiserver.exec (cont (inr (errors.NewNotFound (types.Name key)))) c in
    (a, c', EvGet k key (inr (errors.NewNotFound (types.Name key))) :: t).
Proof.
  intros H. cbn [apiserver.exec]. unfold apiserver.answerGet. rewrite H.
  reflexivity.
Qed.

Lemma exec_CallCreate_absent {A : Type} k obj (cont : option error -> Prog A) c :
  apiserver.lookup k (ObjectKey obj) c = None ->
  apiserver.exec (CallCreate k obj cont) c
  = let '(a, c', t) := apiserver.exec (cont None) (apiserver.store k obj c) in
    (a, c', EvCreate k obj None :: t).
Proof.
  intros H. cbn [apiserver.exec]. unfold apiserver.answerCreate. rewrite H.
  reflexivity.
Qed.

Lemma exec_CallDelete_present {A : Type} k obj (cont : option error -> Prog A)
    c found :
  apiserver.lookup k (ObjectKey obj) c = Some found ->
  apiserver.exec (CallDelete k obj cont) c
  = let '(a, c', t) :=
      apiserver.exec (cont None) (apiserver.remove k (ObjectKey obj) c) in
    (a, c', EvDelete k obj None :: t).
Proof.
  intros H. cbn [apiserver.exec]. unfold apiserver.answerDelete. rewrite H.
  reflexivity.
Qed.

Lemma IsNotFound_NewNotFound name : errors.IsNotFound (errors.NewNotFound name) = true.
Proof. reflexivity. Qed.

Lemma failed_read_cons e ev t :
  Exists (read_failed e) (ev :: t) <-> read_failed e ev \/ Exists (read_failed e) t.
Proof. apply Exists_cons. Qed.

Section ReconcilerProperties.
Context `{CU : controllerutil.Interface} `{SD : statik.Data}.

(** C3.  On a cluster that holds the ArgoCD instance of the request and the
    argocd-server Route and no ConsoleLink named argocd, and when the owner
    reference is accepted, Reconcile returns success having made three reads
    and one write: the creation of the ConsoleLink named argocd with text
    ArgoCD, href https:// followed by the host of the Route, location
    ApplicationMenu, section Application Stages and the embedded icon.  The
    cluster it leaves is the one it found plus that ConsoleLink. *)
Theorem Reconcile_creates_link
    (r : argocd.ReconcileArgoCD) (request : reconcile.Request)
    (c : apiserver.Cluster) (primary : argoprojv1alpha1.ArgoCD)
    (route : routev1.Route) :
  apiserver.lookup KArgoCD (reconcile.NamespacedName request) c = Some primary ->
  controllerutil.SetControllerReference primary argocd.newArgoCDRoute
    (argocd.scheme r) = None ->
  apiserver.lookup KRoute routeKey c = Some route ->
  apiserver.lookup KConsoleLink linkKey c = None ->
  let link : console.ConsoleLink :=
    {| console.ObjectMeta :=
         {| metav1.Name := "argocd"; metav1.Namespace := "";
            metav1.ResourceVersion := "" |};
       console.Spec :=
         {| console.spec_Link :=
              {| console.Text := "ArgoCD";
                 console.Href := "https://" +:+ routev1.Host (routev1.Spec route) |};
            console.Location := "ApplicationMenu";
            console.spec_ApplicationMenu := Some
              {| console.MenuSection := "Application Stages";
                 console.ImageURL :=
                   "data:image/png;base64," +:+ statik.encodedImage |} |} |} in
  apiserver.exec (argocd.Reconcile r request) c
  = ((reconcile.zeroResult, None),
     apiserver.store KConsoleLink link c,
     [EvGet KArgoCD (reconcile.NamespacedName request) (inl primary);
      EvGet KRoute routeKey (inl route);
      EvGet KConsoleLink linkKey (inr (errors.NewNotFound "argocd"));
      EvCreate KConsoleLink link None]) /\
  apiserver.lookup KConsoleLink linkKey (apiserver.store KConsoleLink link c)
  = Some link.
Proof.
  intros Hprimary Howner Hroute Hlink link. split.
  - unfold argocd.Reconcile. cbn [client.bind Get].
    rewrite (exec_CallGet_found _ _ _ _ _ Hprimary).
    cbn [client.bind]. rewrite Howner. cbn [client.bind Get].
    rewrite (exec_CallGet_found KRoute routeKey _ _ _ Hroute).
    cbn [client.bind Get].
    rewrite (exec_CallGet_absent KConsoleLink linkKey _ _ Hlink).
    cbn [client.bind]. rewrite IsNotFound_NewNotFound. cbn [client.bind Create].
    rewrite (exec_CallCreate_absent KConsoleLink link _ _ Hlink).
    reflexivity.
  - apply (lookup_store KConsoleLink link c).
Qed.
Lemma exec_deleteConsoleLinkIfPresent {A : Type}
    (f : option error -> Prog A) (c : apiserver.Cluster) :
  apiserver.exec (client.bind argocd.deleteConsoleLinkIfPresent f) c
  = match apiserver.lookup KConsoleLink linkKey c with
    | Some found =>
        let '(a, c', t) :=
          apiserver.exec (f None) (apiserver.remove KConsoleLink linkKey c) in
        (a, c', EvGet KConsoleLink linkKey (inl found)
                  :: EvDelete KConsoleLink linkToDelete None :: t)
    | None =>
        let '(a, c', t) := apiserver.exec (f None) c in
        (a, c', EvGet KConsoleLink linkKey (inr (errors.NewNotFound "argocd")) :: t)
    end.
Proof.
  unfold argocd.deleteConsoleLinkIfPresent. cbn [client.bind Get].
  destruct (apiserver.lookup KConsoleLink linkKey c) as [found|] eqn:Hlink.
  - rewrite (exec_CallGet_found KConsoleLink linkKey _ _ _ Hlink).
    cbn [client.bind Delete].
    rewrite (exec_CallDelete_present KConsoleLink linkToDelete _ _ _ Hlink).
    change (@ObjectKey KConsoleLink linkToDelete) with linkKey.
    destruct (apiserver.exec (f None) (apiserver.remove KConsoleLink linkKey c))
      as [[a c'] t].
    reflexivity.
  - rewrite (exec_CallGet_absent KConsoleLink linkKey _ _ Hlink).
    cbn [client.bind]. rewrite IsNotFound_NewNotFound. reflexivity.
Qed.

(** C4.  On a cluster that does not hold the ArgoCD instance of the request,
    or that holds it (the owner reference being accepted) but not the
    argocd-server Route, Reconcile returns success and leaves a cluster with
    no ConsoleLink named argocd: when there was one, the cluster left is the
    one found without it and the only write is its deletion; when there was
    none, the cluster is left as found and nothing is written. *)
Theorem Reconcile_deletes_link
    (r : argocd.ReconcileArgoCD) (request : reconcile.Request)
    (c : apiserver.Cluster) :
  apiserver.lookup KArgoCD (reconcile.NamespacedName request) c = None \/
  (exists primary,
     apiserver.lookup KArgoCD (reconcile.NamespacedName request) c = Some primary /\
     controllerutil.SetControllerReference primary argocd.newArgoCDRoute
       (argocd.scheme r) = None /\
     apiserver.lookup KRoute routeKey c = None) ->
  exists c' t,
    apiserver.exec (argocd.Reconcile r request) c
    = ((reconcile.zeroResult, None), c', t) /\
    apiserver.lookup KConsoleLink linkKey c' = None /\
    match apiserver.lookup KConsoleLink linkKey c with
    | Some _ =>
        c' = apiserver.remove KConsoleLink linkKey c /\
        writes t = [EvDelete KConsoleLink linkToDelete None]
    | None => c' = c /\ writes t = []
    end.
Proof.
  intros [Habsent|(primary & Hprimary & Howner & Hroute)];
    unfold argocd.Reconcile; cbn [client.bind Get].
  - rewrite (exec_CallGet_absent _ _ _ _ Habsent).
    cbn [client.bind]. rewrite IsNotFound_NewNotFound.
    rewrite exec_deleteConsoleLinkIfPresent.
    destruct (apiserver.lookup KConsoleLink linkKey c) as [found|] eqn:Hlink;
      cbn [apiserver.exec]; eexists _, _; (split; [reflexivity|]).
    + split; [apply lookup_remove|]. split; reflexivity.
    + split; [exact Hlink|]. split; reflexivity.
  - rewrite (exec_CallGet_found _ _ _ _ _ Hprimary).
    cbn [client.bind]. rewrite Howner. cbn [client.bind Get].
    rewrite (exec_CallGet_absent KRoute routeKey _ _ Hroute).
    cbn [client.bind]. rewrite IsNotFound_NewNotFound.
    rewrite exec_deleteConsoleLinkIfPresent.
    destruct (apiserver.lookup KConsoleLink linkKey c) as [found|] eqn:Hlink;
      cbn [apiserver.exec]; eexists _, _; (split; [reflexivity|]).
    + split; [apply lookup_remove|]. split; reflexivity.
    + split; [exact Hlink|]. split; reflexivity.
Qed.

(** C5.  On a cluster that holds the ArgoCD instance of the request, the
    argocd-server Route and a ConsoleLink named argocd, and when the owner
    reference is accepted, Reconcile makes three reads and no write, returns
    success and leaves the cluster as it found it, whatever the host of the
    Route and whatever the content of the ConsoleLink. *)
Theorem Reconcile_keeps_link
    (r : argocd.ReconcileArgoCD) (request : reconcile.Request)
    (c : apiserver.Cluster) (primary : argoprojv1alpha1.ArgoCD)
    (route : routev1.Route) (link : console.ConsoleLink) :
  apiserver.lookup KArgoCD (reconcile.NamespacedName request) c = Some primary ->
  controllerutil.SetControllerReference primary argocd.newArgoCDRoute
    (argocd.scheme r) = None ->
  apiserver.lookup KRoute routeKey c = Some route ->
  apiserver.lookup KConsoleLink linkKey c = Some link ->
  apiserver.exec (argocd.Reconcile r request) c
  = ((reconcile.zeroResult, None), c,
     [EvGet KArgoCD (reconcile.NamespacedName request) (inl primary);
      EvGet KRoute routeKey (inl route);
      EvGet KConsoleLink linkKey (inl link)]) /\
  writes (snd (apiserver.exec (argocd.Reconcile r request) c)) = [] /\
  apiserver.lookup KConsoleLink linkKey
    (snd (fst (apiserver.exec (argocd.Reconcile r request) c))) = Some link.
Proof.
  intros Hprimary Howner Hroute Hlink.
  assert (Hexec : apiserver.exec (argocd.Reconcile r request) c
    = ((reconcile.zeroResult, None), c,
       [EvGet KArgoCD (reconcile.NamespacedName request) (inl primary);
        EvGet KRoute routeKey (inl route);
        EvGet KConsoleLink linkKey (inl link)])).
  { unfold argocd.Reconcile. cbn [client.bind Get].
    rewrite (exec_CallGet_found _ _ _ _ _ Hprimary).
    cbn [client.bind]. rewrite Howner. cbn [client.bind Get].
    rewrite (exec_CallGet_found KRoute routeKey _ _ _ Hroute).
    cbn [client.bind Get].
    rewrite (exec_CallGet_found KConsoleLink linkKey _ _ _ Hlink).
    reflexivity. }
  rewrite Hexec. split; [reflexivity|]. split; [reflexivity|exact Hlink].
Qed.

(** C10.  In every run of Reconcile, whatever the client answers: if some
    read failed with an error that is not a not-found error, Reconcile
    returns that error and the run contains no create and no delete. *)
Theorem Reconcile_read_error_no_write
    (r : argocd.ReconcileArgoCD) (request : reconcile.Request)
    (t : list Event) (res : reconcile.Result * option error) (e : error) :
  runs (argocd.Reconcile r request) t res ->
  Exists (read_failed e) t ->
  errors.IsNotFound e = false ->
  res = (reconcile.zeroResult, Some e) /\ writes t = [].
Proof.
  intros Hrun Hex Hnf.
  assert (Hdel : forall t' res',
    runs (client.bind argocd.deleteConsoleLinkIfPresent
            (fun err => Ret (reconcile.zeroResult, err))) t' res' ->
    Exists (read_failed e) t' ->
    res' = (reconcile.zeroResult, Some e) /\ writes t' = []).
  { intros t' res'. unfold argocd.deleteConsoleLinkIfPresent.
    cbn [client.bind Get runs].
    intros (r1 & t1 & -> & H1) Hex1.
    apply failed_read_cons in Hex1.
    destruct r1 as [found|e1]; cbn [client.bind Delete runs] in H1.
    - destruct H1 as (r2 & t2 & -> & -> & ->).
      destruct Hex1 as [[]|Hex1]. apply failed_read_cons in Hex1 as [[]|Hex1].
      inversion Hex1.
    - destruct Hex1 as [Heq|Hex1]; [simpl in Heq|].
      + subst e1. rewrite Hnf in H1. cbn [client.bind runs] in H1.
        destruct H1 as [-> ->]. auto.
      + destruct (errors.IsNotFound e1); cbn [client.bind runs] in H1;
          destruct H1 as [-> ->]; inversion Hex1. }
  revert Hrun Hex. unfold argocd.Reconcile. cbn [client.bind Get runs].
  intros (r1 & t1 & -> & H1) Hex. apply failed_read_cons in Hex.
  destruct r1 as [primary|e1]; cbn [client.bind] in H1.
  2:{ destruct Hex as [Heq|Hex]; [simpl in Heq|].
      - subst e1. rewrite Hnf in H1. cbn [runs] in H1.
        destruct H1 as [-> ->]. auto.
      - destruct (errors.IsNotFound e1).
        + destruct (Hdel _ _ H1 Hex) as [-> Hw]. auto.
        + cbn [runs] in H1. destruct H1 as [-> ->]. inversion Hex. }
  destruct Hex as [[]|Hex].
  destruct (controllerutil.SetControllerReference primary argocd.newArgoCDRoute
              (argocd.scheme r)) as [eo|].
  { cbn [runs] in H1. destruct H1 as [-> _]. inversion Hex. }
  cbn [client.bind Get runs] in H1. destruct H1 as (r2 & t2 & -> & H2).
  apply failed_read_cons in Hex.
  destruct r2 as [route|e2]; cbn [client.bind] in H2.
  2:{ destruct Hex as [Heq|Hex]; [simpl in Heq|].
      - subst e2. rewrite Hnf in H2. cbn [runs] in H2.
        destruct H2 as [-> ->]. auto.
      - destruct (errors.IsNotFound e2).
        + destruct (Hdel _ _ H2 Hex) as [-> Hw]. auto.
        + cbn [runs] in H2. destruct H2 as [-> ->]. inversion Hex. }
  destruct Hex as [[]|Hex].
  cbn [client.bind Get runs] in H2. destruct H2 as (r3 & t3 & -> & H3).
  apply failed_read_cons in Hex.
  destruct r3 as [found|e3]; cbn [client.bind] in H3.
  { destruct Hex as [[]|Hex]. cbn [runs] in H3. destruct H3 as [-> _].
    inversion Hex. }
  destruct Hex as [Heq|Hex]; [simpl in Heq|].
  - subst e3. rewrite Hnf in H3. cbn [runs] in H3. destruct H3 as [-> ->]. auto.
  - destruct (errors.IsNotFound e3).
    + cbn [client.bind Create runs] in H3. destruct H3 as (r4 & t4 & -> & H4).
      apply failed_read_cons in Hex as [[]|Hex].
      destruct r4; cbn [runs] in H4; destruct H4 as [-> _]; inversion Hex.
    + cbn [runs] in H3. destruct H3 as [-> ->]. inversion Hex.
Qed.
End ReconcilerProperties.

(** *** The reconciler on sample clusters *)

Lemma Reconcile_creates_link_foo :
  apiserver.lookup KArgoCD (reconcile.NamespacedName sampleRequest) sampleCluster
    = Some sampleArgoCD /\
  @controllerutil.SetControllerReference acceptingUtil sampleArgoCD
    argocd.newArgoCDRoute (argocd.scheme sampleReconciler) = None /\
  apiserver.lookup KRoute routeKey sampleCluster = Some sampleRoute /\
  apiserver.lookup KConsoleLink linkKey sampleCluster = None /\
  let link : console.ConsoleLink :=
    {| console.ObjectMeta :=
         {| metav1.Name := "argocd"; metav1.Namespace := "";
            metav1.ResourceVersion := "" |};
       console.Spec :=
         {| console.spec_Link :=
              {| console.Text := "ArgoCD";
                 console.Href := "https://foo.example.com" |};
            console.Location := "ApplicationMenu";
            console.spec_ApplicationMenu := Some
              {| console.MenuSection := "Application Stages";
                 console.ImageURL := "data:image/png;base64,iVBORw0KGgo=" |} |} |} in
  apiserver.exec
    (@argocd.Reconcile acceptingUtil sampleIcon sampleReconciler sampleRequest)
    sampleCluster
  = ((reconcile.zeroResult, None),
     apiserver.store KConsoleLink link sampleCluster,
     [EvGet KArgoCD (reconcile.NamespacedName sampleRequest) (inl sampleArgoCD);
      EvGet KRoute routeKey (inl sampleRoute);
      EvGet KConsoleLink linkKey (inr (errors.NewNotFound "argocd"));
      EvCreate KConsoleLink link None]) /\
  apiserver.lookup KConsoleLink linkKey
    (apiserver.store KConsoleLink link sampleCluster) = Some link.
Proof.
  assert (H1 : apiserver.lookup KArgoCD (reconcile.NamespacedName sampleRequest)
                 sampleCluster = Some sampleArgoCD) by (vm_compute; reflexivity).
  assert (H2 : @controllerutil.SetControllerReference acceptingUtil sampleArgoCD
                 argocd.newArgoCDRoute (argocd.scheme sampleReconciler) = None)
    by reflexivity.
  assert (H3 : apiserver.lookup KRoute routeKey sampleCluster = Some sampleRoute)
    by (vm_compute; reflexivity).
  assert (H4 : apiserver.lookup KConsoleLink linkKey sampleCluster = None)
    by (vm_compute; reflexivity).
  split; [exact H1|]. split; [exact H2|]. split; [exact H3|]. split; [exact H4|].
  exact (@Reconcile_creates_link acceptingUtil sampleIcon sampleReconciler
           sampleRequest sampleCluster sampleArgoCD sampleRoute H1 H2 H3 H4).
Defined.

Lemma Reconcile_deletes_link_primary_gone :
  (apiserver.lookup KArgoCD (reconcile.NamespacedName sampleRequest)
     (apiserver.store KConsoleLink staleLink apiserver.empty) = None \/
   exists primary,
     apiserver.lookup KArgoCD (reconcile.NamespacedName sampleRequest)
       (apiserver.store KConsoleLink staleLink apiserver.empty) = Some primary /\
     @controllerutil.SetControllerReference acceptingUtil primary
       argocd.newArgoCDRoute (argocd.scheme sampleReconciler) = None /\
     apiserver.lookup KRoute routeKey
       (apiserver.store KConsoleLink staleLink apiserver.empty) = None) /\
  exists c' t,
    apiserver.exec
      (@argocd.Reconcile acceptingUtil sampleIcon sampleReconciler sampleRequest)
      (apiserver.store KConsoleLink staleLink apiserver.empty)
    = ((reconcile.zeroResult, None), c', t) /\
    apiserver.lookup KConsoleLink linkKey c' = None /\
    match apiserver.lookup KConsoleLink linkKey
            (apiserver.store KConsoleLink staleLink apiserver.empty) with
    | Some _ =>
        c' = apiserver.remove KConsoleLink linkKey
               (apiserver.store KConsoleLink staleLink apiserver.empty) /\
        writes t = [EvDelete KConsoleLink linkToDelete None]
    | None =>
        c' = apiserver.store KConsoleLink staleLink apiserver.empty /\
        writes t = []
    end.
Proof.
  assert (H : apiserver.lookup KArgoCD (reconcile.NamespacedName sampleRequest)
                (apiserver.store KConsoleLink staleLink apiserver.empty) = None)
    by (vm_compute; reflexivity).
  split; [left; exact H|].
  exact (@Reconcile_deletes_link acceptingUtil sampleIcon sampleReconciler
           sampleRequest (apiserver.store KConsoleLink staleLink apiserver.empty)
           (or_introl H)).
Defined.

Lemma Reconcile_keeps_stale_link :
  apiserver.lookup KArgoCD (reconcile.NamespacedName sampleRequest)
    (apiserver.store KConsoleLink staleLink sampleCluster) = Some sampleArgoCD /\
  @controllerutil.SetControllerReference acceptingUtil sampleArgoCD
    argocd.newArgoCDRoute (argocd.scheme sampleReconciler) = None /\
  apiserver.lookup KRoute routeKey
    (apiserver.store KConsoleLink staleLink sampleCluster) = Some sampleRoute /\
  apiserver.lookup KConsoleLink linkKey
    (apiserver.store KConsoleLink staleLink sampleCluster) = Some staleLink /\
  apiserver.exec
    (@argocd.Reconcile acceptingUtil sampleIcon sampleReconciler sampleRequest)
    (apiserver.store KConsoleLink staleLink sampleCluster)
  = ((reconcile.zeroResult, None),
     apiserver.store KConsoleLink staleLink sampleCluster,
     [EvGet KArgoCD (reconcile.NamespacedName sampleRequest) (inl sampleArgoCD);
      EvGet KRoute routeKey (inl sampleRoute);
      EvGet KConsoleLink linkKey (inl staleLink)]) /\
  writes (snd (apiserver.exec
            (@argocd.Reconcile acceptingUtil sampleIcon sampleReconciler sampleRequest)
            (apiserver.store KConsoleLink staleLink sampleCluster))) = [] /\
  apiserver.lookup KConsoleLink linkKey
    (snd (fst (apiserver.exec
            (@argocd.Reconcile acceptingUtil sampleIcon sampleReconciler sampleRequest)
            (apiserver.store KConsoleLink staleLink sampleCluster)))) = Some staleLink.
Proof.
  assert (H1 : apiserver.lookup KArgoCD (reconcile.NamespacedName sampleRequest)
                 (apiserver.store KConsoleLink staleLink sampleCluster)
               = Some sampleArgoCD) by (vm_compute; reflexivity).
  assert (H2 : @controllerutil.SetControllerReference acceptingUtil sampleArgoCD
                 argocd.newArgoCDRoute (argocd.scheme sampleReconciler) = None)
    by reflexivity.
  assert (H3 : apiserver.lookup KRoute routeKey
                 (apiserver.store KConsoleLink staleLink sampleCluster)
               = Some sampleRoute) by (vm_compute; reflexivity).
  assert (H4 : apiserver.lookup KConsoleLink linkKey
                 (apiserver.store KConsoleLink staleLink sampleCluster)
               = Some staleLink) by (vm_compute; reflexivity).
  split; [exact H1|]. split; [exact H2|]. split; [exact H3|]. split; [exact H4|].
  exact (@Reconcile_keeps_link acceptingUtil sampleIcon sampleReconciler
           sampleRequest (apiserver.store KConsoleLink staleLink sampleCluster)
           sampleArgoCD sampleRoute staleLink H1 H2 H3 H4).
Defined.

Lemma Reconcile_read_error_no_write_route :
  runs (@argocd.Reconcile acceptingUtil sampleIcon sampleReconciler sampleRequest)
    [EvGet KArgoCD (reconcile.NamespacedName sampleRequest) (inl sampleArgoCD);
     EvGet KRoute routeKey (inr (errorString "connection refused"))]
    (reconcile.zeroResult, Some (errorString "connection refused")) /\
  Exists (read_failed (errorString "connection refused"))
    [EvGet KArgoCD (reconcile.NamespacedName sampleRequest) (inl sampleArgoCD);
     EvGet KRoute routeKey (inr (errorString "connection refused"))] /\
  errors.IsNotFound (errorString "connection refused") = false /\
  (reconcile.zeroResult, Some (errorString "connection refused"))
    = (reconcile.zeroResult, Some (errorString "connection refused")) /\
  writes
    [EvGet KArgoCD (reconcile.NamespacedName sampleRequest) (inl sampleArgoCD);
     EvGet KRoute routeKey (inr (errorString "connection refused"))] = [].
Proof.
  assert (H1 : runs
    (@argocd.Reconcile acceptingUtil sampleIcon sampleReconciler sampleRequest)
    [EvGet KArgoCD (reconcile.NamespacedName sampleRequest) (inl sampleArgoCD);
     EvGet KRoute routeKey (inr (errorString "connection refused"))]
    (reconcile.zeroResult, Some (errorString "connection refused"))).
  { exists (inl sampleArgoCD),
      [EvGet KRoute routeKey (inr (errorString "connection refused"))].
    split; [reflexivity|].
    exists (inr (errorString "connection refused")), [].
    split; [reflexivity|]. split; reflexivity. }
  assert (H2 : Exists (read_failed (errorString "connection refused"))
    [EvGet KArgoCD (reconcile.NamespacedName sampleRequest) (inl sampleArgoCD);
     EvGet KRoute routeKey (inr (errorString "connection refused"))]).
  { apply Exists_cons_tl, Exists_cons_hd. reflexivity. }
  assert (H3 : errors.IsNotFound (errorString "connection refused") = false)
    by reflexivity.
  split; [exact H1|]. split; [exact H2|]. split; [exact H3|].
  exact (@Reconcile_read_error_no_write acceptingUtil sampleIcon sampleReconciler
           sampleRequest _ _ _ H1 H2 H3).
Defined.

(** *** The event filter and the readiness wait on sample inputs *)

Lemma filterPredicate_update_version_samples :
  predicate.UpdateFunc (argocd.filterPredicate argocd.assertArgoCD)
    {| event.MetaOld := {| metav1.Name := "argocd"; metav1.Namespace := "argocd";
                           metav1.ResourceVersion := "41" |};
       event.MetaNew := {| metav1.Name := "argocd"; metav1.Namespace := "argocd";
                           metav1.ResourceVersion := "41" |} |} = false /\
  predicate.UpdateFunc (argocd.filterPredicate argocd.assertArgoCDRoute)
    {| event.MetaOld := {| metav1.Name := "argocd-server";
                           metav1.Namespace := "argocd";
                           metav1.ResourceVersion := "41" |};
       event.MetaNew := {| metav1.Name := "argocd-server";
                           metav1.Namespace := "argocd";
                           metav1.ResourceVersion := "42" |} |} = true.
Proof.
  split.
  - apply (proj1 (filterPredicate_update_version argocd.assertArgoCD _)).
    reflexivity.
  - apply (proj2 (proj2 (proj2 (filterPredicate_update_version
                                  argocd.assertArgoCD _)))).
    repeat split; discriminate.
Defined.

Lemma waitForOperator_not_found_pending_succeeded :
  runs (dependency.waitForOperator csvKey None)
    [EvGet KClusterServiceVersion csvKey (inr (errors.NewNotFound "argocd-operator.v0.0.14"));
     EvSleep (1 * time.Second)%Z;
     EvGet KClusterServiceVersion csvKey (inl (csvInPhase "Pending" ""));
     EvSleep (1 * time.Second)%Z;
     EvGet KClusterServiceVersion csvKey (inl (csvInPhase "Succeeded" ""))]
    None /\
  runs (dependency.waitForOperator csvKey None)
    [EvGet KClusterServiceVersion csvKey (inl (csvInPhase "Installing" ""));
     EvSleep (1 * time.Second)%Z;
     EvGet KClusterServiceVersion csvKey
       (inl (csvInPhase "Failed" "ComponentFailed"))]
    (Some (errorString "Operator installation failed: ComponentFailed")).
Proof.
  split.
  - apply (proj2 (waitForOperator_read_outcomes csvKey _ None)).
    exists [inr (errors.NewNotFound "argocd-operator.v0.0.14");
            inl (csvInPhase "Pending" "")],
           (inl (csvInPhase "Succeeded" "")).
    split; [reflexivity|]. split.
    + repeat constructor; discriminate.
    + split; [simpl; lia|]. left. eexists. repeat split.
  - apply (proj2 (waitForOperator_read_outcomes csvKey _ _)).
    exists [inl (csvInPhase "Installing" "")],
           (inl (csvInPhase "Failed" "ComponentFailed")).
    split; [reflexivity|]. split.
    + repeat constructor; discriminate.
    + split; [simpl; lia|]. right. left. eexists. repeat split.
Defined.

Lemma waitForOperator_deadline_never_found :
  length (repeat (@inr v1alpha1.ClusterServiceVersion error
                    (errors.NewNotFound "argocd-operator.v0.0.14")) 61) = 61%nat /\
  Forall pending (repeat (inr (errors.NewNotFound "argocd-operator.v0.0.14")) 61) /\
  runs (dependency.waitForOperator csvKey None)
    (poll_trace csvKey (1 * time.Second)%Z
       (repeat (inr (errors.NewNotFound "argocd-operator.v0.0.14")) 61))
    (Some wait.ErrWaitTimeout).
Proof.
  assert (H1 : length (repeat (@inr v1alpha1.ClusterServiceVersion error
                    (errors.NewNotFound "argocd-operator.v0.0.14")) 61) = 61%nat)
    by reflexivity.
  assert (H2 : Forall pending
                 (repeat (inr (errors.NewNotFound "argocd-operator.v0.0.14")) 61)).
  { apply List.Forall_forall. intros x Hx. apply repeat_spec in Hx. subst x.
    reflexivity. }
  split; [exact H1|]. split; [exact H2|].
  exact (proj2 (proj2 (waitForOperator_deadline csvKey)) _ H1 H2).
Defined.

(** *** Install on an empty cluster

    Nothing ever creates the ClusterServiceVersion of the sealed-secrets
    operator on a cluster without an operator lifecycle manager: Install
    creates the three resources of that operator, polls 61 times, times out,
    and has not touched the namespace of the ArgoCD operator. *)
Example Install_on_empty_cluster :
  let '(res, c, t) :=
    apiserver.exec (dependency.Install (dependency.NewClient "")) apiserver.empty in
  res = Some wait.ErrWaitTimeout /\
  writes t =
    [EvCreate KNamespace (dependency.newNamespace "cicd") None;
     EvCreate KOperatorGroup
       (dependency.newOperatorGroup "cicd" "sealed-secrets-operator-group") None;
     EvCreate KSubscription
       (dependency.newSubscription "cicd" "sealed-secrets-operator-helm") None] /\
  elapsed t = (1 * time.Minute)%Z /\
  apiserver.lookup KNamespace {| types.Namespace := ""; types.Name := "cicd" |} c
    = Some (dependency.newNamespace "cicd") /\
  apiserver.lookup KNamespace {| types.Namespace := ""; types.Name := "argocd" |} c
    = None.
Proof. vm_compute. repeat split. Qed.

(** * Further properties *)

(** ** Clusters and programs *)

Lemma lookup_store_frame k (obj : ObjectOf k) c k' key :
  (k', key) <> (k, ObjectKey obj) ->
  apiserver.lookup k' key (apiserver.store k obj c) = apiserver.lookup k' key c.
Proof.
  intros Hne. destruct (decide (k' = k)) as [->|Hk].
  - assert (Hkey : ObjectKey obj <> key) by congruence.
    unfold apiserver.lookup, apiserver.store.
    destruct k; simpl; apply lookup_insert_ne; exact Hkey.
  - unfold apiserver.lookup, apiserver.store.
    destruct k, k'; try congruence; reflexivity.
Qed.

Lemma lookup_remove_frame k key0 c k' key :
  (k', key) <> (k, key0) ->
  apiserver.lookup k' key (apiserver.remove k key0 c) = apiserver.lookup k' key c.
Proof.
  intros Hne. destruct (decide (k' = k)) as [->|Hk].
  - assert (Hkey : key0 <> key) by congruence.
    unfold apiserver.lookup, apiserver.remove.
    destruct k; simpl; apply lookup_delete_ne; exact Hkey.
  - unfold apiserver.lookup, apiserver.remove.
    destruct k, k'; try congruence; reflexivity.
Qed.

Lemma exec_bind {A B : Type} (p : Prog A) (f : A -> Prog B) c :
  apiserver.exec (client.bind p f) c
  = let '(a, c1, t1) := apiserver.exec p c in
    let '(b, c2, t2) := apiserver.exec (f a) c1 in
    (b, c2, t1 ++ t2).
Proof.
  revert c. induction p as [a|k key cont IH|k obj cont IH|k obj cont IH|d cont IH];
    intros c; cbn [client.bind apiserver.exec].
  - destruct (apiserver.exec (f a) c) as [[b c2] t2]. reflexivity.
  - rewrite IH.
    destruct (apiserver.exec (cont (apiserver.answerGet k key c)) c) as [[a c1] t1].
    destruct (apiserver.exec (f a) c1) as [[b c2] t2]. reflexivity.
  - destruct (apiserver.answerCreate k obj c) as [r c0]. rewrite IH.
    destruct (apiserver.exec (cont r) c0) as [[a c1] t1].
    destruct (apiserver.exec (f a) c1) as [[b c2] t2]. reflexivity.
  - destruct (apiserver.answerDelete k obj c) as [r c0]. rewrite IH.
    destruct (apiserver.exec (cont r) c0) as [[a c1] t1].
    destruct (apiserver.exec (f a) c1) as [[b c2] t2]. reflexivity.
  - rewrite IH.
    destruct (apiserver.exec (cont tt) c) as [[a c1] t1].
    destruct (apiserver.exec (f a) c1) as [[b c2] t2]. reflexivity.
Qed.

Lemma preserved_refl c : preserved c c.
Proof. intros k key o H. exact H. Qed.

Lemma preserved_trans c1 c2 c3 :
  preserved c1 c2 -> preserved c2 c3 -> preserved c1 c3.
Proof. intros H12 H23 k key o H. apply H23, H12, H. Qed.

Lemma preserved_ensure k (obj : ObjectOf k) c : preserved c (ensure k obj c).
Proof.
  unfold ensure.
  destruct (apiserver.lookup k (ObjectKey obj) c) eqn:Hl; [apply preserved_refl|].
  intros k' key o H. rewrite lookup_store_frame; [exact H|].
  intros Heq. injection Heq as -> ->. congruence.
Qed.

(** ** The installer: create-if-absent, whatever the client answers *)

Lemma createResourceIfAbsent_inv d k (obj : ObjectOf k) ns t res :
  runs (dependency.createResourceIfAbsent d k obj ns) t res ->
  (exists found, t = [EvGet k ns (inl found)] /\ res = None) \/
  (exists e r, errors.IsNotFound e = true /\
     t = [EvGet k ns (inr e); EvCreate k obj r] /\ res = r) \/
  (exists e, errors.IsNotFound e = false /\ errors.IsAlreadyExists e = true /\
     t = [EvGet k ns (inr e)] /\ res = None) \/
  (exists e, errors.IsNotFound e = false /\ errors.IsAlreadyExists e = false /\
     t = [EvGet k ns (inr e)] /\ res = Some e).
Proof.
  unfold dependency.createResourceIfAbsent, Get, Create.
  cbn [client.bind runs].
  intros (r & t' & -> & Hr). destruct r as [found|e]; cbn [client.bind runs] in Hr.
  - destruct Hr as [-> ->]. left. eauto.
  - destruct (errors.IsNotFound e) eqn:Hnf.
    + cbn [client.bind runs] in Hr. destruct Hr as (r & t2 & -> & Hr).
      right. left. exists e, r. split; [exact Hnf|].
      destruct r; cbn [runs] in Hr; destruct Hr as [-> ->]; auto.
    + destruct (errors.IsAlreadyExists e) eqn:Hae; cbn [runs] in Hr;
        destruct Hr as [-> ->].
      * right. right. left. eauto.
      * right. right. right. eauto.
Qed.

(** X1.  Whatever the client answers, createResourceIfAbsent does one of four
    things: the read finds the object, and it returns nil; the read is
    not-found, it creates the object it was passed and returns the answer of
    the create, nil or error, unchanged; the read fails with an AlreadyExists
    error, and it returns nil without having seen or created the object; the
    read fails with any other error, and it returns that error.  So it never
    creates unless the read was not-found, and it never deletes. *)
Theorem createResourceIfAbsent_outcomes
    (d : dependency.Dependency) (k : Kind) (obj : ObjectOf k)
    (ns : types.NamespacedName) (t : list Event) (res : option error) :
  runs (dependency.createResourceIfAbsent d k obj ns) t res <->
  (exists found, t = [EvGet k ns (inl found)] /\ res = None) \/
  (exists e r, errors.IsNotFound e = true /\
     t = [EvGet k ns (inr e); EvCreate k obj r] /\ res = r) \/
  (exists e, errors.IsNotFound e = false /\ errors.IsAlreadyExists e = true /\
     t = [EvGet k ns (inr e)] /\ res = None) \/
  (exists e, errors.IsNotFound e = false /\ errors.IsAlreadyExists e = false /\
     t = [EvGet k ns (inr e)] /\ res = Some e).
Proof.
  split; [apply createResourceIfAbsent_inv|].
  unfold dependency.createResourceIfAbsent, Get, Create.
  cbn [client.bind runs].
  intros [(found & -> & ->)|[(e & r & Hnf & -> & ->)|[(e & Hnf & Hae & -> & ->)
         |(e & Hnf & Hae & -> & ->)]]].
  - exists (inl found), []. cbn [client.bind runs]. auto.
  - exists (inr e), [EvCreate k obj r]. split; [reflexivity|].
    cbn [client.bind]. rewrite Hnf. cbn [client.bind runs].
    exists r, []. split; [reflexivity|]. destruct r; cbn [runs]; auto.
  - exists (inr e), []. split; [reflexivity|].
    cbn [client.bind]. rewrite Hnf, Hae. cbn [runs]. auto.
  - exists (inr e), []. split; [reflexivity|].
    cbn [client.bind]. rewrite Hnf, Hae. cbn [runs]. auto.
Qed.

(** ** The installer on a cluster without faults *)

Lemma exec_createResourceIfAbsent d k (obj : ObjectOf k) c :
  apiserver.exec (dependency.createResourceIfAbsent d k obj (ObjectKey obj)) c
  = (None, ensure k obj c,
     match apiserver.lookup k (ObjectKey obj) c with
     | Some o => [EvGet k (ObjectKey obj) (inl o)]
     | None =>
         [EvGet k (ObjectKey obj)
            (inr (errors.NewNotFound (types.Name (ObjectKey obj))));
          EvCreate k obj None]
     end).
Proof.
  unfold dependency.createResourceIfAbsent, ensure. cbn [client.bind Get].
  destruct (apiserver.lookup k (ObjectKey obj) c) as [o|] eqn:Hl.
  - rewrite (exec_CallGet_found _ _ _ _ _ Hl). reflexivity.
  - rewrite (exec_CallGet_absent _ _ _ _ Hl). cbn [client.bind].
    rewrite IsNotFound_NewNotFound. cbn [client.bind Create].
    rewrite (exec_CallCreate_absent _ _ _ _ Hl). reflexivity.
Qed.

Lemma lookup_ensure_frame k (obj : ObjectOf k) c k' key :
  (k', key) <> (k, ObjectKey obj) ->
  apiserver.lookup k' key (ensure k obj c) = apiserver.lookup k' key c.
Proof.
  intros Hne. unfold ensure.
  destruct (apiserver.lookup k (ObjectKey obj) c); [reflexivity|].
  apply lookup_store_frame, Hne.
Qed.

Lemma lookup_ensure k (obj : ObjectOf k) c :
  apiserver.lookup k (ObjectKey obj) (ensure k obj c)
  = Some (match apiserver.lookup k (ObjectKey obj) c with
          | Some o => o
          | None => obj
          end).
Proof.
  unfold ensure.
  destruct (apiserver.lookup k (ObjectKey obj) c) as [o|] eqn:Hl;
    [exact Hl|apply lookup_store].
Qed.

Lemma ensure_idem k (obj : ObjectOf k) c :
  ensure k obj (ensure k obj c) = ensure k obj c.
Proof. unfold ensure at 1. rewrite lookup_ensure. reflexivity. Qed.

(** X2.  On a cluster without faults, createResourceIfAbsent called with the
    key of the object always returns nil.  Afterwards the key holds the
    object that was there before, or the object passed when there was none;
    it never overwrites.  No other key and no other kind changes, and a
    second call only reads and changes nothing. *)
Theorem createResourceIfAbsent_ensures
    (d : dependency.Dependency) (k : Kind) (obj : ObjectOf k)
    (c : apiserver.Cluster) :
  let '(err, c', t) :=
    apiserver.exec (dependency.createResourceIfAbsent d k obj (ObjectKey obj)) c in
  err = None /\
  apiserver.lookup k (ObjectKey obj) c'
    = Some (match apiserver.lookup k (ObjectKey obj) c with
            | Some o => o
            | None => obj
            end) /\
  (forall k' key, (k', key) <> (k, ObjectKey obj) ->
     apiserver.lookup k' key c' = apiserver.lookup k' key c) /\
  (forall o, apiserver.lookup k (ObjectKey obj) c = Some o -> writes t = []) /\
  exists o,
    apiserver.exec (dependency.createResourceIfAbsent d k obj (ObjectKey obj)) c'
    = (None, c', [EvGet k (ObjectKey obj) (inl o)]).
Proof.
  rewrite exec_createResourceIfAbsent.
  split; [reflexivity|]. split; [apply lookup_ensure|].
  split; [intros k' key Hne; apply lookup_ensure_frame, Hne|].
  split.
  - intros o Ho. rewrite Ho. reflexivity.
  - eexists. rewrite exec_createResourceIfAbsent.
    rewrite ensure_idem, lookup_ensure. reflexivity.
Qed.

(** ** The installer: what a run costs *)

Lemma elapsed_app t1 t2 : elapsed (t1 ++ t2) = (elapsed t1 + elapsed t2)%Z.
Proof.
  induction t1 as [|ev t1 IH]; [reflexivity|].
  destruct ev; cbn [app elapsed]; rewrite IH; lia.
Qed.

Lemma writes_app t1 t2 : writes (t1 ++ t2) = writes t1 ++ writes t2.
Proof. apply List.filter_app. Qed.

Lemma within_nil : within 0 0 0 [].
Proof. repeat split; simpl; try lia. constructor. Qed.

Lemma within_app w1 n1 m1 w2 n2 m2 t1 t2 :
  within w1 n1 m1 t1 -> within w2 n2 m2 t2 ->
  within (w1 + w2) (n1 + n2) (m1 + m2) (t1 ++ t2).
Proof.
  intros (He1 & Hw1 & Hl1 & Hd1) (He2 & Hw2 & Hl2 & Hd2).
  unfold within. rewrite elapsed_app, writes_app, !length_app.
  repeat split; try lia. apply Forall_app. auto.
Qed.

Lemma within_mono w n m w' n' m' t :
  (w <= w')%Z -> (n <= n')%nat -> (m <= m')%nat ->
  within w n m t -> within w' n' m' t.
Proof.
  intros Hw Hn Hm (He & Hwr & Hl & Hd). unfold within. repeat split; auto; lia.
Qed.

Lemma createResourceIfAbsent_within d k (obj : ObjectOf k) ns t res :
  runs (dependency.createResourceIfAbsent d k obj ns) t res -> within 0 1 2 t.
Proof.
  intros H. apply createResourceIfAbsent_inv in H
    as [(found & -> & _)|[(e & r & _ & -> & _)|[(e & _ & _ & -> & _)
       |(e & _ & _ & -> & _)]]];
    unfold within; simpl; repeat split; try lia; repeat constructor.
Qed.

Lemma poll_trace_within ns r rest :
  within (Z.of_nat (length rest) * (1 * time.Second)) 0 (1 + 2 * length rest)
    (poll_trace ns (1 * time.Second)%Z (r :: rest)).
Proof.
  unfold within. rewrite elapsed_poll_trace.
  assert (Hsec : (1 * time.Second = 1000000000)%Z) by reflexivity.
  rewrite Hsec. unfold poll_trace.
  split; [lia|].
  induction rest as [|r' rest IH]; cbn [flat_map app length writes List.filter is_write].
  - split; [simpl; lia|]. split; [simpl; lia|]. repeat constructor.
  - destruct IH as (Hw & Hl & Hd). cbn [writes List.filter is_write] in Hw.
    cbn [length] in Hl. inversion Hd as [|? ? Hd1 Hd2]; subst.
    split; [exact Hw|]. split; [lia|]. repeat constructor. exact Hd2.
Qed.

Lemma waitForOperator_within ns t res :
  runs (dependency.waitForOperator ns None) t res ->
  within (1 * time.Minute) 0 121 t.
Proof.
  intros H. apply waitForOperator_runs in H as (reads & -> & Hreads).
  assert (Hlen : (1 <= length reads <= 61)%nat).
  { apply poll_reads_closed in Hreads
      as [(_ & Hlen & _)|(rs & r & -> & _ & Hlt & _)].
    - lia.
    - rewrite length_app. simpl. lia. }
  destruct reads as [|r rest]; [simpl in Hlen; lia|]. simpl in Hlen.
  eapply within_mono; [| | |apply poll_trace_within].
  - assert (Hsec : (1 * time.Second = 1000000000)%Z) by reflexivity.
    assert (Hmin : (1 * time.Minute = 60000000000)%Z) by reflexivity.
    rewrite Hsec, Hmin. lia.
  - lia.
  - lia.
Qed.

Lemma steps_within prefix o t res :
  runs_in_order (steps (dependency.NewClient prefix) o) t res ->
  within (1 * time.Minute) 3 127 t.
Proof.
  unfold steps. cbn [runs_in_order dependency.isReady dependency.NewClient].
  assert (Hmin : (0 <= 1 * time.Minute)%Z) by (vm_compute; discriminate).
  intros [(e & H1 & _)|(t1 & t2 & -> & H1 & H)];
    apply createResourceIfAbsent_within in H1.
  { eapply within_mono; [| | |exact H1]; lia. }
  destruct H as [(e & H2 & _)|(t3 & t4 & -> & H2 & H)];
    apply createResourceIfAbsent_within in H2.
  { eapply within_mono; [| | |exact (within_app _ _ _ _ _ _ _ _ H1 H2)]; lia. }
  destruct H as [(e & H3 & _)|(t5 & t6 & -> & H3 & H)];
    apply createResourceIfAbsent_within in H3.
  { eapply within_mono;
      [| | |exact (within_app _ _ _ _ _ _ _ _ H1
                     (within_app _ _ _ _ _ _ _ _ H2 H3))]; lia. }
  assert (H4 : within (1 * time.Minute) 0 121 t6).
  { destruct H as [(e & H4 & _)|(t7 & t8 & -> & H4 & [-> _])];
      apply waitForOperator_within in H4; [exact H4|].
    rewrite app_nil_r. exact H4. }
  eapply within_mono;
    [| | |exact (within_app _ _ _ _ _ _ _ _ H1
                   (within_app _ _ _ _ _ _ _ _ H2
                      (within_app _ _ _ _ _ _ _ _ H3 H4)))]; lia.
Qed.

Lemma Install_within prefix t res :
  runs (dependency.Install (dependency.NewClient prefix)) t res ->
  within (2 * time.Minute) 6 254 t.
Proof.
  unfold dependency.Install. intros H. apply Install_range_runs in H.
  cbn [flat_map dependency.prefix dependency.NewClient] in H.
  assert (Hmin : (0 <= 1 * time.Minute)%Z) by (vm_compute; discriminate).
  assert (H2m : (2 * time.Minute = 1 * time.Minute + 1 * time.Minute)%Z)
    by reflexivity.
  apply runs_in_order_app in H as [(e & H1 & _)|(t1 & t2 & -> & H1 & H2)];
    apply steps_within in H1.
  { eapply within_mono; [| | |exact H1]; lia. }
  rewrite app_nil_r in H2. apply steps_within in H2.
  eapply within_mono; [| | |exact (within_app _ _ _ _ _ _ _ _ H1 H2)]; lia.
Qed.

(** X4.  Whatever the client answers, a run of Install as NewClient sets it
    up waits at most two minutes in all, creates at most six objects, makes
    at most 254 requests and waits, and never deletes. *)
Theorem Install_bounded
    (prefix : string) (t : list Event) (res : option error) :
  runs (dependency.Install (dependency.NewClient prefix)) t res ->
  (0 <= elapsed t <= 2 * time.Minute)%Z /\
  (length (writes t) <= 6)%nat /\
  (length t <= 254)%nat /\
  Forall (fun ev => is_delete ev = false) t.
Proof.
  intros H. destruct (Install_within prefix t res H) as (Ht & Hw & Hl & Hd).
  split; [exact Ht|]. split; [exact Hw|]. split; [exact Hl|exact Hd].
Qed.

(** ** The installer: what it leaves in the cluster *)

Lemma exec_preserved {A : Type} (p : Prog A) c :
  Forall (fun ev => is_delete ev = false) (snd (apiserver.exec p c)) ->
  preserved c (snd (fst (apiserver.exec p c))).
Proof.
  revert c. induction p as [a|k key cont IH|k obj cont IH|k obj cont IH|d cont IH];
    intros c; cbn [apiserver.exec].
  - intros _. apply preserved_refl.
  - specialize (IH (apiserver.answerGet k key c) c).
    destruct (apiserver.exec (cont (apiserver.answerGet k key c)) c) as [[a c'] t].
    cbn [fst snd] in *. intros H. inversion H; subst. auto.
  - unfold apiserver.answerCreate.
    destruct (apiserver.lookup k (ObjectKey obj) c) as [o|] eqn:Hl.
    + specialize (IH (Some (errors.NewAlreadyExists (types.Name (ObjectKey obj)))) c).
      destruct (apiserver.exec
                  (cont (Some (errors.NewAlreadyExists (types.Name (ObjectKey obj))))) c)
        as [[a c'] t].
      cbn [fst snd] in *. intros H. inversion H; subst. auto.
    + specialize (IH None (apiserver.store k obj c)).
      destruct (apiserver.exec (cont None) (apiserver.store k obj c)) as [[a c'] t].
      cbn [fst snd] in *. intros H. inversion H; subst.
      eapply preserved_trans; [|apply IH; assumption].
      pose proof (preserved_ensure k obj c) as Hp. unfold ensure in Hp.
      rewrite Hl in Hp. exact Hp.
  - destruct (apiserver.answerDelete k obj c) as [r c1].
    destruct (apiserver.exec (cont r) c1) as [[a c'] t].
    cbn [fst snd]. intros H. inversion H; subst. discriminate.
  - specialize (IH tt c).
    destruct (apiserver.exec (cont tt) c) as [[a c'] t].
    cbn [fst snd] in *. intros H. inversion H; subst. auto.
Qed.

(** X3.  On a cluster without faults, Install as NewClient sets it up only
    ever adds: whatever it returns, every object that was in the cluster
    before is there afterwards, unchanged, and its trace has no delete. *)
Theorem Install_append_only (prefix : string) (c : apiserver.Cluster) :
  let '(res, c', t) :=
    apiserver.exec (dependency.Install (dependency.NewClient prefix)) c in
  preserved c c' /\ Forall (fun ev => is_delete ev = false) t.
Proof.
  pose proof (exec_runs (dependency.Install (dependency.NewClient prefix)) c) as Hrun.
  pose proof (exec_preserved (dependency.Install (dependency.NewClient prefix)) c)
    as Hpres.
  destruct (apiserver.exec (dependency.Install (dependency.NewClient prefix)) c)
    as [[res c'] t].
  cbn [fst snd] in *.
  apply Install_within in Hrun. destruct Hrun as (_ & _ & _ & Hnodel).
  split; [apply Hpres, Hnodel|exact Hnodel].
Qed.

Lemma writes_nil_unchanged {A : Type} (p : Prog A) c :
  writes (snd (apiserver.exec p c)) = [] -> snd (fst (apiserver.exec p c)) = c.
Proof.
  revert c. induction p as [a|k key cont IH|k obj cont IH|k obj cont IH|d cont IH];
    intros c; cbn [apiserver.exec].
  - reflexivity.
  - specialize (IH (apiserver.answerGet k key c) c).
    destruct (apiserver.exec (cont (apiserver.answerGet k key c)) c) as [[a c'] t].
    cbn [fst snd] in *. exact IH.
  - destruct (apiserver.answerCreate k obj c) as [r c1].
    destruct (apiserver.exec (cont r) c1) as [[a c'] t].
    cbn [fst snd]. discriminate.
  - destruct (apiserver.answerDelete k obj c) as [r c1].
    destruct (apiserver.exec (cont r) c1) as [[a c'] t].
    cbn [fst snd]. discriminate.
  - specialize (IH tt c).
    destruct (apiserver.exec (cont tt) c) as [[a c'] t].
    cbn [fst snd] in *. exact IH.
Qed.

Lemma exec_waitForOperator_unchanged ns c :
  snd (fst (apiserver.exec (dependency.waitForOperator ns None) c)) = c.
Proof.
  apply writes_nil_unchanged.
  pose proof (exec_runs (dependency.waitForOperator ns None) c) as Hrun.
  apply waitForOperator_within in Hrun. destruct Hrun as (_ & Hw & _).
  destruct (writes (snd (apiserver.exec (dependency.waitForOperator ns None) c)));
    [reflexivity|simpl in Hw; lia].
Qed.

(** The cluster after the three create-if-absent steps of an operator. *)
Lemma exec_Install_body prefix o c :
  exists t0,
    within 0 3 6 t0 /\
    apiserver.exec (dependency.Install_body (dependency.NewClient prefix) o) c
    = let c3 := ensure KSubscription (dependency.GetSubscription o)
                  (ensure KOperatorGroup (dependency.GetOperatorGroup o)
                     (ensure KNamespace (dependency.GetNamespace o) c)) in
      let '(res, _, tw) :=
        apiserver.exec
          (dependency.waitForOperator
             {| types.Namespace := dependency.namespace o;
                types.Name := dependency.csv o |} None) c3 in
      (res, c3, t0 ++ tw).
Proof.
  unfold dependency.Install_body. cbv zeta.
  cbn [dependency.isReady dependency.NewClient].
  set (d := dependency.NewClient prefix).
  pose proof (exec_createResourceIfAbsent d KNamespace (dependency.GetNamespace o) c)
    as E1.
  pose proof (exec_runs (dependency.createResourceIfAbsent d KNamespace
                (dependency.GetNamespace o) (@ObjectKey KNamespace (dependency.GetNamespace o))) c)
    as R1.
  rewrite E1 in R1. cbn [fst snd] in R1. apply createResourceIfAbsent_within in R1.
  set (c1 := ensure KNamespace (dependency.GetNamespace o) c) in *.
  pose proof (exec_createResourceIfAbsent d KOperatorGroup
                (dependency.GetOperatorGroup o) c1) as E2.
  pose proof (exec_runs (dependency.createResourceIfAbsent d KOperatorGroup
                (dependency.GetOperatorGroup o)
                (@ObjectKey KOperatorGroup (dependency.GetOperatorGroup o))) c1) as R2.
  rewrite E2 in R2. cbn [fst snd] in R2. apply createResourceIfAbsent_within in R2.
  set (c2 := ensure KOperatorGroup (dependency.GetOperatorGroup o) c1) in *.
  pose proof (exec_createResourceIfAbsent d KSubscription
                (dependency.GetSubscription o) c2) as E3.
  pose proof (exec_runs (dependency.createResourceIfAbsent d KSubscription
                (dependency.GetSubscription o)
                (@ObjectKey KSubscription (dependency.GetSubscription o))) c2) as R3.
  rewrite E3 in R3. cbn [fst snd] in R3. apply createResourceIfAbsent_within in R3.
  set (c3 := ensure KSubscription (dependency.GetSubscription o) c2) in *.
  eexists. split.
  - exact (within_app _ _ _ _ _ _ _ _ R1 (within_app _ _ _ _ _ _ _ _ R2 R3)).
  - rewrite exec_bind.
    change {| types.Namespace := "";
              types.Name := metav1.Name (corev1.ObjectMeta (dependency.GetNamespace o)) |}
      with (@ObjectKey KNamespace (dependency.GetNamespace o)).
    rewrite E1. rewrite exec_bind.
    change {| types.Namespace :=
                metav1.Namespace (v1.ObjectMeta (dependency.GetOperatorGroup o));
              types.Name :=
                metav1.Name (v1.ObjectMeta (dependency.GetOperatorGroup o)) |}
      with (@ObjectKey KOperatorGroup (dependency.GetOperatorGroup o)).
    fold c1. rewrite E2. rewrite exec_bind.
    change {| types.Namespace :=
                metav1.Namespace (v1alpha1.sub_ObjectMeta (dependency.GetSubscription o));
              types.Name :=
                metav1.Name (v1alpha1.sub_ObjectMeta (dependency.GetSubscription o)) |}
      with (@ObjectKey KSubscription (dependency.GetSubscription o)).
    fold c2. rewrite E3. fold c3.
    pose proof (exec_waitForOperator_unchanged
                  {| types.Namespace := dependency.namespace o;
                     types.Name := dependency.csv o |} c3) as Hw.
    destruct (apiserver.exec
                (dependency.waitForOperator
                   {| types.Namespace := dependency.namespace o;
                      types.Name := dependency.csv o |} None) c3) as [[res cw] tw].
    cbn [fst snd] in Hw. subst cw. rewrite <- !app_assoc. reflexivity.
Qed.

Lemma exec_waitForOperator_succeeded ns c csv :
  apiserver.lookup KClusterServiceVersion ns c = Some csv ->
  v1alpha1.Phase (v1alpha1.Status csv) = v1alpha1.CSVPhaseSucceeded ->
  apiserver.exec (dependency.waitForOperator ns None) c
  = (None, c, [EvGet KClusterServiceVersion ns (inl csv)]).
Proof.
  intros Hl Hphase.
  unfold dependency.waitForOperator, wait.PollImmediate, dependency.isOperatorReady.
  cbn [client.bind Get]. rewrite (exec_CallGet_found _ _ _ _ _ Hl).
  cbn [client.bind]. rewrite Hphase. reflexivity.
Qed.

Lemma exec_waitForOperator_failed ns c csv :
  apiserver.lookup KClusterServiceVersion ns c = Some csv ->
  v1alpha1.Phase (v1alpha1.Status csv) = v1alpha1.CSVPhaseFailed ->
  apiserver.exec (dependency.waitForOperator ns None) c
  = (Some (errorString ("Operator installation failed: "
                          +:+ v1alpha1.Reason (v1alpha1.Status csv))),
     c, [EvGet KClusterServiceVersion ns (inl csv)]).
Proof.
  intros Hl Hphase.
  unfold dependency.waitForOperator, wait.PollImmediate, dependency.isOperatorReady.
  cbn [client.bind Get]. rewrite (exec_CallGet_found _ _ _ _ _ Hl).
  cbn [client.bind]. rewrite Hphase. reflexivity.
Qed.

Lemma preserved_ensure3 o c :
  preserved c
    (ensure KSubscription (dependency.GetSubscription o)
       (ensure KOperatorGroup (dependency.GetOperatorGroup o)
          (ensure KNamespace (dependency.GetNamespace o) c))).
Proof.
  eapply preserved_trans; [apply (preserved_ensure KNamespace)|].
  eapply preserved_trans; [apply (preserved_ensure KOperatorGroup)|].
  apply (preserved_ensure KSubscription).
Qed.

Lemma present_preserved c c' x : preserved c c' -> present c x -> present c' x.
Proof. intros Hp [o Ho]. exists o. apply Hp, Ho. Qed.

Lemma present_ensure3 o c x :
  In x (resources o) -> present c x \/ fst x <> KClusterServiceVersion ->
  present
    (ensure KSubscription (dependency.GetSubscription o)
       (ensure KOperatorGroup (dependency.GetOperatorGroup o)
          (ensure KNamespace (dependency.GetNamespace o) c))) x.
Proof.
  intros Hin Hc.
  destruct Hc as [Hc|Hc]; [exact (present_preserved _ _ _ (preserved_ensure3 o c) Hc)|].
  destruct Hin as [<-|[<-|[<-|[<-|[]]]]].
  - eapply present_preserved.
    + eapply preserved_trans; [apply (preserved_ensure KOperatorGroup)|].
      apply (preserved_ensure KSubscription).
    + eexists. apply (lookup_ensure KNamespace (dependency.GetNamespace o)).
  - eapply present_preserved; [apply (preserved_ensure KSubscription)|].
    eexists. apply (lookup_ensure KOperatorGroup (dependency.GetOperatorGroup o)).
  - eexists. apply (lookup_ensure KSubscription (dependency.GetSubscription o)).
  - exfalso. apply Hc. reflexivity.
Qed.

Lemma lookup_ensure3_frame o c k key :
  ~ In (k, key) (resources o) ->
  apiserver.lookup k key
    (ensure KSubscription (dependency.GetSubscription o)
       (ensure KOperatorGroup (dependency.GetOperatorGroup o)
          (ensure KNamespace (dependency.GetNamespace o) c)))
  = apiserver.lookup k key c.
Proof.
  intros Hnot.
  rewrite !lookup_ensure_frame; [reflexivity| | |];
    intros Heq; apply Hnot; rewrite Heq; simpl; auto.
Qed.

Lemma csv_not_ensured o c key :
  apiserver.lookup KClusterServiceVersion key
    (ensure KSubscription (dependency.GetSubscription o)
       (ensure KOperatorGroup (dependency.GetOperatorGroup o)
          (ensure KNamespace (dependency.GetNamespace o) c)))
  = apiserver.lookup KClusterServiceVersion key c.
Proof. rewrite !lookup_ensure_frame; [reflexivity| | |]; discriminate. Qed.

(** X5.  On a cluster without faults that already holds the
    ClusterServiceVersion of both operators in phase Succeeded, Install as
    NewClient sets it up returns nil without waiting, having created at most
    six objects.  Afterwards the namespace, operator group and subscription
    of both operators are in the cluster, and every object that was there
    before is unchanged. *)
Theorem Install_succeeds_when_operators_ready
    (prefix : string) (c : apiserver.Cluster)
    (csv1 csv2 : v1alpha1.ClusterServiceVersion) :
  apiserver.lookup KClusterServiceVersion
    {| types.Namespace := dependency.addPrefixIfNecessary prefix "cicd";
       types.Name := "sealed-secrets-operator-helm.v0.0.2" |} c = Some csv1 ->
  v1alpha1.Phase (v1alpha1.Status csv1) = "Succeeded" ->
  apiserver.lookup KClusterServiceVersion
    {| types.Namespace := dependency.addPrefixIfNecessary prefix "argocd";
       types.Name := "argocd-operator.v0.0.14" |} c = Some csv2 ->
  v1alpha1.Phase (v1alpha1.Status csv2) = "Succeeded" ->
  let '(res, c', t) :=
    apiserver.exec (dependency.Install (dependency.NewClient prefix)) c in
  res = None /\
  elapsed t = 0%Z /\
  (length (writes t) <= 6)%nat /\
  (forall x,
     In x (resources (dependency.newSealedSecretsOperator prefix)
           ++ resources (dependency.newArgoCDOperator prefix)) ->
     present c' x) /\
  preserved c c'.
Proof.
  intros Hl1 Hp1 Hl2 Hp2.
  unfold dependency.Install.
  cbn [dependency.Install_range dependency.prefix dependency.NewClient].
  set (o1 := dependency.newSealedSecretsOperator prefix).
  set (o2 := dependency.newArgoCDOperator prefix).
  rewrite exec_bind.
  destruct (exec_Install_body prefix o1 c) as (t1 & Hw1 & E1). rewrite E1.
  cbv zeta.
  set (c3 := ensure KSubscription (dependency.GetSubscription o1)
               (ensure KOperatorGroup (dependency.GetOperatorGroup o1)
                  (ensure KNamespace (dependency.GetNamespace o1) c))).
  assert (Hl1' : apiserver.lookup KClusterServiceVersion
                   {| types.Namespace := dependency.namespace o1;
                      types.Name := dependency.csv o1 |} c3 = Some csv1).
  { unfold c3. rewrite csv_not_ensured. exact Hl1. }
  rewrite (exec_waitForOperator_succeeded _ _ _ Hl1' Hp1).
  rewrite exec_bind.
  destruct (exec_Install_body prefix o2 c3) as (t2 & Hw2 & E2). rewrite E2.
  cbv zeta.
  set (c6 := ensure KSubscription (dependency.GetSubscription o2)
               (ensure KOperatorGroup (dependency.GetOperatorGroup o2)
                  (ensure KNamespace (dependency.GetNamespace o2) c3))).
  assert (Hl2' : apiserver.lookup KClusterServiceVersion
                   {| types.Namespace := dependency.namespace o2;
                      types.Name := dependency.csv o2 |} c6 = Some csv2).
  { unfold c6, c3. rewrite !csv_not_ensured. exact Hl2. }
  rewrite (exec_waitForOperator_succeeded _ _ _ Hl2' Hp2).
  cbn [apiserver.exec].
  assert (H36 : preserved c3 c6) by apply preserved_ensure3.
  assert (H03 : preserved c c3) by apply preserved_ensure3.
  destruct Hw1 as (He1 & Hn1 & _ & _). destruct Hw2 as (He2 & Hn2 & _ & _).
  split; [reflexivity|]. split.
  { rewrite !elapsed_app. cbn [elapsed]. lia. }
  split.
  { rewrite !writes_app, !length_app. cbn [writes List.filter is_write length]. lia. }
  split.
  - intros x Hin. apply in_app_or in Hin as [Hin|Hin].
    + apply (present_preserved c3 c6 x H36).
      apply present_ensure3; [exact Hin|].
      destruct (decide (fst x = KClusterServiceVersion)) as [Hk|Hk]; [|right; exact Hk].
      left. destruct Hin as [<-|[<-|[<-|[<-|[]]]]]; try discriminate Hk.
      exists csv1. exact Hl1.
    + apply present_ensure3; [exact Hin|].
      destruct (decide (fst x = KClusterServiceVersion)) as [Hk|Hk]; [|right; exact Hk].
      left. destruct Hin as [<-|[<-|[<-|[<-|[]]]]]; try discriminate Hk.
      exists csv2. apply H03. exact Hl2.
  - eapply preserved_trans; [exact H03|exact H36].
Qed.

(** X6.  On a cluster without faults that holds the ClusterServiceVersion of
    the sealed-secrets operator in phase Failed, Install as NewClient sets it
    up returns, without waiting, the error whose message is the fixed text
    followed by the reported reason.  It has ensured the namespace, operator
    group and subscription of the sealed-secrets operator, and no resource
    of the ArgoCD operator has been created or changed. *)
Theorem Install_stops_at_failed_operator
    (prefix : string) (c : apiserver.Cluster)
    (csv1 : v1alpha1.ClusterServiceVersion) :
  apiserver.lookup KClusterServiceVersion
    {| types.Namespace := dependency.addPrefixIfNecessary prefix "cicd";
       types.Name := "sealed-secrets-operator-helm.v0.0.2" |} c = Some csv1 ->
  v1alpha1.Phase (v1alpha1.Status csv1) = "Failed" ->
  let '(res, c', t) :=
    apiserver.exec (dependency.Install (dependency.NewClient prefix)) c in
  res = Some (errorString ("Operator installation failed: "
                             +:+ v1alpha1.Reason (v1alpha1.Status csv1))) /\
  elapsed t = 0%Z /\
  (forall x, In x (resources (dependency.newSealedSecretsOperator prefix)) ->
             present c' x) /\
  (forall x, In x (resources (dependency.newArgoCDOperator prefix)) ->
             apiserver.lookup (fst x) (snd x) c' = apiserver.lookup (fst x) (snd x) c).
Proof.
  intros Hl1 Hp1.
  unfold dependency.Install.
  cbn [dependency.Install_range dependency.prefix dependency.NewClient].
  set (o1 := dependency.newSealedSecretsOperator prefix).
  set (o2 := dependency.newArgoCDOperator prefix).
  rewrite exec_bind.
  destruct (exec_Install_body prefix o1 c) as (t1 & Hw1 & E1). rewrite E1.
  cbv zeta.
  set (c3 := ensure KSubscription (dependency.GetSubscription o1)
               (ensure KOperatorGroup (dependency.GetOperatorGroup o1)
                  (ensure KNamespace (dependency.GetNamespace o1) c))).
  assert (Hl1' : apiserver.lookup KClusterServiceVersion
                   {| types.Namespace := dependency.namespace o1;
                      types.Name := dependency.csv o1 |} c3 = Some csv1).
  { unfold c3. rewrite csv_not_ensured. exact Hl1. }
  rewrite (exec_waitForOperator_failed _ _ _ Hl1' Hp1).
  cbn [apiserver.exec].
  destruct Hw1 as (He1 & _).
  split; [reflexivity|]. split.
  { rewrite !elapsed_app. cbn [elapsed]. lia. }
  split.
  - intros x Hin. apply present_ensure3; [exact Hin|].
    destruct (decide (fst x = KClusterServiceVersion)) as [Hk|Hk]; [|right; exact Hk].
    left. destruct Hin as [<-|[<-|[<-|[<-|[]]]]]; try discriminate Hk.
    exists csv1. exact Hl1.
  - intros [k key] Hin. cbn [fst snd]. unfold c3.
    apply lookup_ensure3_frame. intros Hin1.
    exact (operator_resources_disjoint prefix (k, key) Hin1 Hin).
Qed.

(** *** The installer on sample traces and clusters *)

Lemma Install_bounded_namespace_read_fails :
  runs (dependency.Install (dependency.NewClient ""))
    [EvGet KNamespace {| types.Namespace := ""; types.Name := "cicd" |}
           (inr (errorString "connection refused"))]
    (Some (errorString "connection refused")) /\
  (0 <= elapsed
          [EvGet KNamespace {| types.Namespace := ""; types.Name := "cicd" |}
                 (inr (errorString "connection refused"))]
     <= 2 * time.Minute)%Z /\
  (length (writes
             [EvGet KNamespace {| types.Namespace := ""; types.Name := "cicd" |}
                    (inr (errorString "connection refused"))]) <= 6)%nat /\
  (length [EvGet KNamespace {| types.Namespace := ""; types.Name := "cicd" |}
                 (inr (errorString "connection refused"))] <= 254)%nat /\
  Forall (fun ev => is_delete ev = false)
    [EvGet KNamespace {| types.Namespace := ""; types.Name := "cicd" |}
           (inr (errorString "connection refused"))].
Proof.
  assert (H : runs (dependency.Install (dependency.NewClient ""))
    [EvGet KNamespace {| types.Namespace := ""; types.Name := "cicd" |}
           (inr (errorString "connection refused"))]
    (Some (errorString "connection refused"))).
  { exists (inr (errorString "connection refused")), [].
    split; [reflexivity|]. split; reflexivity. }
  split; [exact H|].
  exact (Install_bounded "" _ _ H).
Defined.

Lemma Install_succeeds_on_ready_cluster :
  apiserver.lookup KClusterServiceVersion
    {| types.Namespace := dependency.addPrefixIfNecessary "" "cicd";
       types.Name := "sealed-secrets-operator-helm.v0.0.2" |}
    (clusterWithOperators "Succeeded" "") = Some (sealedSecretsCSV "Succeeded" "") /\
  v1alpha1.Phase (v1alpha1.Status (sealedSecretsCSV "Succeeded" "")) = "Succeeded" /\
  apiserver.lookup KClusterServiceVersion
    {| types.Namespace := dependency.addPrefixIfNecessary "" "argocd";
       types.Name := "argocd-operator.v0.0.14" |}
    (clusterWithOperators "Succeeded" "") = Some (csvInPhase "Succeeded" "") /\
  v1alpha1.Phase (v1alpha1.Status (csvInPhase "Succeeded" "")) = "Succeeded" /\
  let '(res, c', t) :=
    apiserver.exec (dependency.Install (dependency.NewClient ""))
      (clusterWithOperators "Succeeded" "") in
  res = None /\
  elapsed t = 0%Z /\
  (length (writes t) <= 6)%nat /\
  (forall x,
     In x (resources (dependency.newSealedSecretsOperator "")
           ++ resources (dependency.newArgoCDOperator "")) ->
     present c' x) /\
  preserved (clusterWithOperators "Succeeded" "") c'.
Proof.
  assert (H1 : apiserver.lookup KClusterServiceVersion
    {| types.Namespace := dependency.addPrefixIfNecessary "" "cicd";
       types.Name := "sealed-secrets-operator-helm.v0.0.2" |}
    (clusterWithOperators "Succeeded" "") = Some (sealedSecretsCSV "Succeeded" ""))
    by (vm_compute; reflexivity).
  assert (H2 : v1alpha1.Phase (v1alpha1.Status (sealedSecretsCSV "Succeeded" ""))
               = "Succeeded") by reflexivity.
  assert (H3 : apiserver.lookup KClusterServiceVersion
    {| types.Namespace := dependency.addPrefixIfNecessary "" "argocd";
       types.Name := "argocd-operator.v0.0.14" |}
    (clusterWithOperators "Succeeded" "") = Some (csvInPhase "Succeeded" ""))
    by (vm_compute; reflexivity).
  assert (H4 : v1alpha1.Phase (v1alpha1.Status (csvInPhase "Succeeded" ""))
               = "Succeeded") by reflexivity.
  split; [exact H1|]. split; [exact H2|]. split; [exact H3|]. split; [exact H4|].
  exact (Install_succeeds_when_operators_ready ""
           (clusterWithOperators "Succeeded" "") _ _ H1 H2 H3 H4).
Defined.

Lemma Install_stops_on_failed_sealed_secrets :
  apiserver.lookup KClusterServiceVersion
    {| types.Namespace := dependency.addPrefixIfNecessary "" "cicd";
       types.Name := "sealed-secrets-operator-helm.v0.0.2" |}
    (clusterWithOperators "Failed" "InstallCheckFailed")
    = Some (sealedSecretsCSV "Failed" "InstallCheckFailed") /\
  v1alpha1.Phase (v1alpha1.Status (sealedSecretsCSV "Failed" "InstallCheckFailed"))
    = "Failed" /\
  let '(res, c', t) :=
    apiserver.exec (dependency.Install (dependency.NewClient ""))
      (clusterWithOperators "Failed" "InstallCheckFailed") in
  res = Some (errorString ("Operator installation failed: "
                +:+ v1alpha1.Reason
                      (v1alpha1.Status (sealedSecretsCSV "Failed" "InstallCheckFailed")))) /\
  elapsed t = 0%Z /\
  (forall x, In x (resources (dependency.newSealedSecretsOperator "")) ->
             present c' x) /\
  (forall x, In x (resources (dependency.newArgoCDOperator "")) ->
             apiserver.lookup (fst x) (snd x) c'
             = apiserver.lookup (fst x) (snd x)
                 (clusterWithOperators "Failed" "InstallCheckFailed")).
Proof.
  assert (H1 : apiserver.lookup KClusterServiceVersion
    {| types.Namespace := dependency.addPrefixIfNecessary "" "cicd";
       types.Name := "sealed-secrets-operator-helm.v0.0.2" |}
    (clusterWithOperators "Failed" "InstallCheckFailed")
    = Some (sealedSecretsCSV "Failed" "InstallCheckFailed"))
    by (vm_compute; reflexivity).
  assert (H2 : v1alpha1.Phase
                 (v1alpha1.Status (sealedSecretsCSV "Failed" "InstallCheckFailed"))
               = "Failed") by reflexivity.
  split; [exact H1|]. split; [exact H2|].
  exact (Install_stops_at_failed_operator ""
           (clusterWithOperators "Failed" "InstallCheckFailed") _ H1 H2).
Defined.

(** ** The installer: names *)

Lemma length_append (a b : string) :
  String.length (a +:+ b) = (String.length a + String.length b)%nat.
Proof. induction a as [|ch a IH]; simpl; [reflexivity|rewrite IH; reflexivity]. Qed.

(** X7.  For a fixed prefix addPrefixIfNecessary never maps two names to the
    same result, so distinct dependencies get distinct namespaces under every
    prefix; the empty prefix leaves the name as it is.  Across prefixes
    results can coincide: prefix a with name b-c and prefix a-b with name c
    both give a-b-c. *)
Theorem addPrefixIfNecessary_injective :
  (forall prefix a b,
     dependency.addPrefixIfNecessary prefix a
       = dependency.addPrefixIfNecessary prefix b -> a = b) /\
  (forall name, dependency.addPrefixIfNecessary "" name = name) /\
  (forall prefix name,
     String.length (dependency.addPrefixIfNecessary prefix name)
     = if String.eqb prefix "" then String.length name
       else (String.length prefix + 1 + String.length name)%nat) /\
  dependency.addPrefixIfNecessary "a" "b-c"
    = dependency.addPrefixIfNecessary "a-b" "c".
Proof.
  split; [|split; [|split]].
  - intros prefix a b. unfold dependency.addPrefixIfNecessary.
    destruct (negb (prefix =? "")%string); [|auto].
    intros H. apply append_inv_l in H. injection H. auto.
  - reflexivity.
  - intros prefix name. unfold dependency.addPrefixIfNecessary.
    destruct (prefix =? "")%string; cbn [negb]; [reflexivity|].
    rewrite !length_append. simpl. lia.
  - reflexivity.
Qed.

(** X8.  For every prefix the eight resources of the two operators of
    Install are pairwise distinct: no resource is ensured twice, and the two
    operators share no namespace, group, subscription or
    ClusterServiceVersion. *)
Theorem operator_resources_distinct (prefix : string) :
  NoDup (resources (dependency.newSealedSecretsOperator prefix)
         ++ resources (dependency.newArgoCDOperator prefix)).
Proof.
  apply NoDup_app. split; [|split].
  - unfold resources. repeat constructor; rewrite ?list_elem_of_In; simpl;
      intuition discriminate.
  - intros x H1 H2. apply list_elem_of_In in H1, H2.
    exact (operator_resources_disjoint prefix x H1 H2).
  - unfold resources. repeat constructor; rewrite ?list_elem_of_In; simpl;
      intuition discriminate.
Qed.

(** ** The reconciler, whatever the client answers *)

Section ReconcilerRuns.
Context `{CU : controllerutil.Interface} `{SD : statik.Data}.

Lemma deleteConsoleLinkIfPresent_inv t err :
  runs argocd.deleteConsoleLinkIfPresent t err -> delete_run t err.
Proof.
  unfold argocd.deleteConsoleLinkIfPresent, Get, Delete, delete_run.
  cbn [client.bind runs].
  intros (r1 & t1 & -> & H1). destruct r1 as [found|e]; cbn [client.bind runs] in H1.
  - destruct H1 as (r2 & t2 & -> & -> & ->). right. right. eauto.
  - destruct (errors.IsNotFound e) eqn:Hnf; cbn [runs] in H1;
      destruct H1 as [-> ->]; [left|right; left]; eauto.
Qed.

(** X9.  Whatever the client answers, deleteConsoleLinkIfPresent does one of
    three things: the read of the ConsoleLink argocd is not-found, and it
    returns nil without deleting; the read fails with another error, and it
    returns that error; the read finds a link, and it deletes a ConsoleLink
    that carries only the name argocd and returns the answer of the delete
    unchanged, so that a not-found answer to the delete is an error of the
    reconciliation although a not-found answer to the read is not. *)
Theorem deleteConsoleLinkIfPresent_outcomes
    (t : list Event) (err : option error) :
  runs argocd.deleteConsoleLinkIfPresent t err <->
  (exists e, errors.IsNotFound e = true /\
     t = [EvGet KConsoleLink {| types.Namespace := ""; types.Name := "argocd" |}
                (inr e)] /\
     err = None) \/
  (exists e, errors.IsNotFound e = false /\
     t = [EvGet KConsoleLink {| types.Namespace := ""; types.Name := "argocd" |}
                (inr e)] /\
     err = Some e) \/
  (exists found r,
     t = [EvGet KConsoleLink {| types.Namespace := ""; types.Name := "argocd" |}
                (inl found);
          EvDelete KConsoleLink
            {| console.ObjectMeta :=
                 {| metav1.Name := "argocd"; metav1.Namespace := "";
                    metav1.ResourceVersion := "" |};
               console.Spec := console.Spec console.zeroConsoleLink |} r] /\
     err = r).
Proof.
  split; [apply deleteConsoleLinkIfPresent_inv|].
  unfold argocd.deleteConsoleLinkIfPresent, Get, Delete. cbn [client.bind runs].
  intros [(e & Hnf & -> & ->)|[(e & Hnf & -> & ->)|(found & r & -> & ->)]].
  - exists (inr e), []. split; [reflexivity|]. cbn [client.bind].
    rewrite Hnf. cbn [runs]. auto.
  - exists (inr e), []. split; [reflexivity|]. cbn [client.bind].
    rewrite Hnf. cbn [runs]. auto.
  - exists (inl found), [EvDelete KConsoleLink linkToDelete r].
    split; [reflexivity|]. cbn [client.bind runs].
    exists r, []. auto.
Qed.

Lemma delete_then_return_inv t (res : reconcile.Result * option error) :
  runs (client.bind argocd.deleteConsoleLinkIfPresent
          (fun err => Ret (reconcile.zeroResult, err))) t res ->
  fst res = reconcile.zeroResult /\ delete_run t (snd res).
Proof.
  intros H. apply runs_bind in H as (t1 & t2 & err & -> & Hd & [-> ->]).
  rewrite app_nil_r. split; [reflexivity|].
  apply deleteConsoleLinkIfPresent_inv, Hd.
Qed.

Lemma Reconcile_inv r request t res :
  runs (argocd.Reconcile r request) t res ->
  fst res = reconcile.zeroResult /\ reconcile_run r request t (snd res).
Proof.
  unfold argocd.Reconcile, reconcile_run. cbv zeta. cbn [client.bind Get runs].
  intros (r1 & t1 & -> & H1). destruct r1 as [primary|e1]; cbn [client.bind] in H1.
  2:{ destruct (errors.IsNotFound e1) eqn:Hn1.
      - apply delete_then_return_inv in H1 as [Hres Hd].
        split; [exact Hres|]. left. eauto.
      - cbn [runs] in H1. destruct H1 as [-> ->].
        split; [reflexivity|]. right. left. eauto. }
  destruct (controllerutil.SetControllerReference primary argocd.newArgoCDRoute
              (argocd.scheme r)) as [eo|] eqn:Howner.
  { cbn [runs] in H1. destruct H1 as [-> ->].
    split; [reflexivity|]. right. right. left. eauto. }
  cbn [client.bind Get runs] in H1. destruct H1 as (r2 & t2 & -> & H2).
  destruct r2 as [route|e2]; cbn [client.bind] in H2.
  2:{ destruct (errors.IsNotFound e2) eqn:Hn2.
      - apply delete_then_return_inv in H2 as [Hres Hd].
        split; [exact Hres|]. right. right. right.
        exists primary. split; [exact Howner|]. left. eauto.
      - cbn [runs] in H2. destruct H2 as [-> ->].
        split; [reflexivity|]. right. right. right.
        exists primary. split; [exact Howner|]. right. left. eauto. }
  cbn [client.bind Get runs] in H2. destruct H2 as (r3 & t3 & -> & H3).
  destruct r3 as [found|e3]; cbn [client.bind] in H3.
  { cbn [runs] in H3. destruct H3 as [-> ->].
    split; [reflexivity|]. right. right. right.
    exists primary. split; [exact Howner|]. right. right. left. eauto. }
  destruct (errors.IsNotFound e3) eqn:Hn3.
  - cbn [client.bind Create runs] in H3. destruct H3 as (r4 & t4 & -> & H4).
    assert (Hres : t4 = [] /\ res = (reconcile.zeroResult, r4)).
    { destruct r4; cbn [runs] in H4; destruct H4 as [-> ->]; auto. }
    destruct Hres as [-> ->].
    split; [reflexivity|]. right. right. right.
    exists primary. split; [exact Howner|]. right. right. right. right.
    exists route, e3, r4. auto.
  - cbn [runs] in H3. destruct H3 as [-> ->].
    split; [reflexivity|]. right. right. right.
    exists primary. split; [exact Howner|]. right. right. right. left.
    exists route, e3. auto.
Qed.
End ReconcilerRuns.

Ltac split_delete_run H :=
  destruct H as [(?e & ?Hnf & -> & ?Herr)|[(?e & ?Hnf & -> & ?Herr)
                |(?found & ?w & -> & ?Herr)]].

Ltac split_reconcile_run H :=
  destruct H as
    [(?e & ?t' & ?Hnf & -> & ?Hd)
    |[(?e & ?Hnf & -> & ?Herr)
    |[(?primary & ?e & ?Howner & -> & ?Herr)
    |(?primary & ?Howner &
       [(?e & ?t' & ?Hnf & -> & ?Hd)
       |[(?e & ?Hnf & -> & ?Herr)
       |[(?route & ?found & -> & ?Herr)
       |[(?route & ?e & ?Hnf & -> & ?Herr)
       |(?route & ?e & ?w & ?Hnf & -> & ?Herr)]]]])]]];
  try split_delete_run Hd.

Section ReconcilerFrame.
Context `{CU : controllerutil.Interface} `{SD : statik.Data}.

(** X10.  Whatever the client answers, a run of Reconcile never asks for a
    requeue through its Result, never waits, makes at most four requests and
    at most one write.  Every request is about the ArgoCD instance of the
    request, the Route argocd/argocd-server or the ConsoleLink argocd, and
    every write is about that ConsoleLink: the ArgoCD instance and the Route
    are only read. *)
Theorem Reconcile_frame
    (r : argocd.ReconcileArgoCD) (request : reconcile.Request)
    (t : list Event) (res : reconcile.Result * option error) :
  runs (argocd.Reconcile r request) t res ->
  fst res = {| reconcile.Requeue := false; reconcile.RequeueAfter := 0%Z |} /\
  elapsed t = 0%Z /\
  (length t <= 4)%nat /\
  (length (writes t) <= 1)%nat /\
  Forall (fun ev =>
            target ev = Some (KArgoCD, reconcile.NamespacedName request) \/
            target ev = Some (KRoute, {| types.Namespace := "argocd";
                                         types.Name := "argocd-server" |}) \/
            target ev = Some (KConsoleLink, {| types.Namespace := "";
                                               types.Name := "argocd" |})) t /\
  Forall (fun ev =>
            is_write ev = true ->
            target ev = Some (KConsoleLink, {| types.Namespace := "";
                                               types.Name := "argocd" |})) t.
Proof.
  intros H. apply Reconcile_inv in H as [Hres Hrun].
  split; [exact Hres|]. clear Hres.
  split_reconcile_run Hrun;
    (split; [reflexivity|]); (split; [cbn [length]; lia|]);
    (split; [cbn [length writes List.filter is_write]; lia|]);
    (split;
     [repeat (apply List.Forall_cons;
              [first [left; reflexivity|right; left; reflexivity
                     |right; right; reflexivity]|]);
      apply List.Forall_nil
     |repeat (apply List.Forall_cons;
              [intros Hw; first [discriminate Hw|reflexivity]|]);
      apply List.Forall_nil]).
Qed.

(** X11.  Whatever the client answers, Reconcile swallows no failure but a
    not-found read: when a request of a run was answered with an error, that
    error is what Reconcile returns, unless the request was a read and the
    error a not-found error.  This holds for the create and the delete as
    well as for the reads. *)
Theorem Reconcile_failures_returned
    (r : argocd.ReconcileArgoCD) (request : reconcile.Request)
    (t : list Event) (res : reconcile.Result * option error)
    (ev : Event) (e : error) :
  runs (argocd.Reconcile r request) t res ->
  In ev t ->
  failure_of ev = Some e ->
  snd res = Some e \/ (is_write ev = false /\ errors.IsNotFound e = true).
Proof.
  intros H Hin Hfail. apply Reconcile_inv in H as [_ Hrun].
  split_reconcile_run Hrun; cbn [In] in Hin;
    repeat (destruct Hin as [<-|Hin]; [cbn [failure_of] in Hfail|]);
    try contradiction; try discriminate Hfail;
    try (injection Hfail as <-); subst; cbn [snd is_write]; auto.
Qed.
End ReconcilerFrame.

(** ** The reconciler on a cluster without faults *)

Section ReconcilerOnCluster.
Context `{CU : controllerutil.Interface} `{SD : statik.Data}.

Lemma Reconcile_exec r request c :
  apiserver.exec (argocd.Reconcile r request) c
  = let key := reconcile.NamespacedName request in
    let delete_link (pre : list Event) :=
      match apiserver.lookup KConsoleLink linkKey c with
      | Some found =>
          ((reconcile.zeroResult, None),
           apiserver.remove KConsoleLink linkKey c,
           pre ++ [EvGet KConsoleLink linkKey (inl found);
                   EvDelete KConsoleLink linkToDelete None])
      | None =>
          ((reconcile.zeroResult, None), c,
           pre ++ [EvGet KConsoleLink linkKey (inr (errors.NewNotFound "argocd"))])
      end in
    match apiserver.lookup KArgoCD key c with
    | None => delete_link [EvGet KArgoCD key (inr (errors.NewNotFound (types.Name key)))]
    | Some primary =>
        match controllerutil.SetControllerReference primary argocd.newArgoCDRoute
                (argocd.scheme r) with
        | Some e => ((reconcile.zeroResult, Some e), c, [EvGet KArgoCD key (inl primary)])
        | None =>
            match apiserver.lookup KRoute routeKey c with
            | None =>
                delete_link
                  [EvGet KArgoCD key (inl primary);
                   EvGet KRoute routeKey (inr (errors.NewNotFound "argocd-server"))]
            | Some route =>
                match apiserver.lookup KConsoleLink linkKey c with
                | None =>
                    ((reconcile.zeroResult, None),
                     apiserver.store KConsoleLink
                       (argocd.newConsoleLink
                          ("https://" +:+ routev1.Host (routev1.Spec route)) "ArgoCD") c,
                     [EvGet KArgoCD key (inl primary);
                      EvGet KRoute routeKey (inl route);
                      EvGet KConsoleLink linkKey (inr (errors.NewNotFound "argocd"));
                      EvCreate KConsoleLink
                        (argocd.newConsoleLink
                           ("https://" +:+ routev1.Host (routev1.Spec route)) "ArgoCD")
                        None])
                | Some link =>
                    ((reconcile.zeroResult, None), c,
                     [EvGet KArgoCD key (inl primary);
                      EvGet KRoute routeKey (inl route);
                      EvGet KConsoleLink linkKey (inl link)])
                end
            end
        end
    end.
Proof.
  cbv zeta. unfold argocd.Reconcile. cbn [client.bind Get].
  destruct (apiserver.lookup KArgoCD (reconcile.NamespacedName request) c)
    as [primary|] eqn:Hprimary.
  2:{ rewrite (exec_CallGet_absent _ _ _ _ Hprimary). cbn [client.bind].
      rewrite IsNotFound_NewNotFound. rewrite exec_deleteConsoleLinkIfPresent.
      destruct (apiserver.lookup KConsoleLink linkKey c); reflexivity. }
  rewrite (exec_CallGet_found _ _ _ _ _ Hprimary). cbn [client.bind].
  destruct (controllerutil.SetControllerReference primary argocd.newArgoCDRoute
              (argocd.scheme r)) as [e|]; [reflexivity|].
  cbn [client.bind Get].
  destruct (apiserver.lookup KRoute routeKey c) as [route|] eqn:Hroute.
  2:{ rewrite (exec_CallGet_absent KRoute routeKey _ _ Hroute). cbn [client.bind].
      rewrite IsNotFound_NewNotFound. rewrite exec_deleteConsoleLinkIfPresent.
      destruct (apiserver.lookup KConsoleLink linkKey c); reflexivity. }
  rewrite (exec_CallGet_found KRoute routeKey _ _ _ Hroute). cbn [client.bind Get].
  destruct (apiserver.lookup KConsoleLink linkKey c) as [link|] eqn:Hlink.
  - rewrite (exec_CallGet_found KConsoleLink linkKey _ _ _ Hlink). reflexivity.
  - rewrite (exec_CallGet_absent KConsoleLink linkKey _ _ Hlink). cbn [client.bind].
    rewrite IsNotFound_NewNotFound. cbn [client.bind Create].
    rewrite (exec_CallCreate_absent KConsoleLink
               (argocd.newConsoleLink
                  ("https://" +:+ routev1.Host (routev1.Spec route)) "ArgoCD")
               _ _ Hlink).
    reflexivity.
Qed.

(** X14.  On a cluster that holds the ArgoCD instance of the request, when
    SetControllerReference refuses the owner reference with an error,
    Reconcile returns that error after that single read: it reads neither
    the Route nor the ConsoleLink, writes nothing and leaves the cluster as
    it found it, whether or not a Route or a ConsoleLink exists. *)
Theorem Reconcile_owner_refused
    (r : argocd.ReconcileArgoCD) (request : reconcile.Request)
    (c : apiserver.Cluster) (primary : argoprojv1alpha1.ArgoCD) (e : error) :
  apiserver.lookup KArgoCD (reconcile.NamespacedName request) c = Some primary ->
  controllerutil.SetControllerReference primary argocd.newArgoCDRoute
    (argocd.scheme r) = Some e ->
  apiserver.exec (argocd.Reconcile r request) c
  = ((reconcile.zeroResult, Some e), c,
     [EvGet KArgoCD (reconcile.NamespacedName request) (inl primary)]).
Proof.
  intros Hprimary Howner. rewrite Reconcile_exec. cbv zeta.
  rewrite Hprimary, Howner. reflexivity.
Qed.

(** X13.  On a cluster without faults Reconcile changes nothing but the
    ConsoleLink argocd: every other object, of every kind, is as before.
    When it returns nil, the ConsoleLink argocd is in the cluster afterwards
    exactly when the ArgoCD instance of the request and the Route
    argocd/argocd-server are. *)
Theorem Reconcile_link_follows_inputs
    (r : argocd.ReconcileArgoCD) (request : reconcile.Request)
    (c : apiserver.Cluster) :
  let '(res, c', t) := apiserver.exec (argocd.Reconcile r request) c in
  (forall k key, (k, key) <> (KConsoleLink, linkKey) ->
     apiserver.lookup k key c' = apiserver.lookup k key c) /\
  (snd res = None ->
   (present c' (KConsoleLink, linkKey) <->
    present c (KArgoCD, reconcile.NamespacedName request) /\
    present c (KRoute, routeKey))).
Proof.
  rewrite Reconcile_exec. cbv zeta. unfold present. cbn [fst snd].
  destruct (apiserver.lookup KArgoCD (reconcile.NamespacedName request) c)
    as [primary|] eqn:Hprimary.
  2:{ destruct (apiserver.lookup KConsoleLink linkKey c) as [found|] eqn:Hlink.
      - split; [intros k key Hne; apply lookup_remove_frame, Hne|].
        intros _. rewrite lookup_remove. split.
        + intros [x Hx]. discriminate.
        + intros [[x Hx] _]. discriminate.
      - split; [reflexivity|]. intros _. rewrite Hlink. split.
        + intros [x Hx]. discriminate.
        + intros [[x Hx] _]. discriminate. }
  destruct (controllerutil.SetControllerReference primary argocd.newArgoCDRoute
              (argocd.scheme r)) as [e|].
  { split; [reflexivity|]. cbn [snd]. discriminate. }
  destruct (apiserver.lookup KRoute routeKey c) as [route|] eqn:Hroute.
  2:{ destruct (apiserver.lookup KConsoleLink linkKey c) as [found|] eqn:Hlink.
      - split; [intros k key Hne; apply lookup_remove_frame, Hne|].
        intros _. rewrite lookup_remove. split.
        + intros [x Hx]. discriminate.
        + intros [_ [x Hx]]. discriminate.
      - split; [reflexivity|]. intros _. rewrite Hlink. split.
        + intros [x Hx]. discriminate.
        + intros [_ [x Hx]]. discriminate. }
  destruct (apiserver.lookup KConsoleLink linkKey c) as [link|] eqn:Hlink.
  - split; [reflexivity|]. intros _. rewrite Hlink. split; eauto.
  - split.
    + intros k key Hne. apply lookup_store_frame. exact Hne.
    + intros _. split; [eauto|]. intros _.
      eexists. apply (lookup_store KConsoleLink).
Qed.

(** X12.  On a cluster without faults one Reconcile is enough: run again on
    the cluster the first run left, Reconcile returns the same result, writes
    nothing and leaves the cluster as it is. *)
Theorem Reconcile_converges
    (r : argocd.ReconcileArgoCD) (request : reconcile.Request)
    (c : apiserver.Cluster) :
  let '(res1, c1, t1) := apiserver.exec (argocd.Reconcile r request) c in
  let '(res2, c2, t2) := apiserver.exec (argocd.Reconcile r request) c1 in
  res2 = res1 /\ c2 = c1 /\ writes t2 = [].
Proof.
  rewrite (Reconcile_exec r request c). cbv zeta.
  assert (Hrm : forall k key, k <> KConsoleLink ->
            apiserver.lookup k key (apiserver.remove KConsoleLink linkKey c)
            = apiserver.lookup k key c).
  { intros k key Hk. apply lookup_remove_frame. congruence. }
  assert (Hst : forall k key (l : console.ConsoleLink), k <> KConsoleLink ->
            apiserver.lookup k key (apiserver.store KConsoleLink l c)
            = apiserver.lookup k key c).
  { intros k key l Hk. apply lookup_store_frame. congruence. }
  destruct (apiserver.lookup KArgoCD (reconcile.NamespacedName request) c)
    as [primary|] eqn:Hprimary.
  2:{ destruct (apiserver.lookup KConsoleLink linkKey c) as [found|] eqn:Hlink;
        rewrite Reconcile_exec; cbv zeta.
      - rewrite Hrm by discriminate. rewrite Hprimary, lookup_remove.
        repeat split.
      - rewrite Hprimary, Hlink. repeat split. }
  destruct (controllerutil.SetControllerReference primary argocd.newArgoCDRoute
              (argocd.scheme r)) as [e|] eqn:Howner.
  { rewrite Reconcile_exec. cbv zeta. rewrite Hprimary, Howner. repeat split. }
  destruct (apiserver.lookup KRoute routeKey c) as [route|] eqn:Hroute.
  2:{ destruct (apiserver.lookup KConsoleLink linkKey c) as [found|] eqn:Hlink;
        rewrite Reconcile_exec; cbv zeta.
      - rewrite !Hrm by discriminate.
        rewrite Hprimary, Howner, Hroute, lookup_remove. repeat split.
      - rewrite Hprimary, Howner, Hroute, Hlink. repeat split. }
  destruct (apiserver.lookup KConsoleLink linkKey c) as [link|] eqn:Hlink;
    rewrite Reconcile_exec; cbv zeta.
  - rewrite Hprimary, Howner, Hroute, Hlink. repeat split.
  - rewrite !Hst by discriminate. rewrite Hprimary, Howner, Hroute.
    rewrite (lookup_store KConsoleLink
               (argocd.newConsoleLink
                  ("https://" +:+ routev1.Host (routev1.Spec route)) "ArgoCD") c).
    repeat split.
Qed.
End ReconcilerOnCluster.

(** ** The reconciler: which events reach it, and how it is registered *)

(** X15.  The create and delete predicates built by filterPredicate look at
    the identity alone: for the ArgoCD watch they are true exactly for the
    object argocd in namespace argocd, for the Route watch exactly for
    argocd-server in namespace argocd, whatever the resource version.  No
    object passes the identity test of both watches. *)
Theorem filterPredicate_create_delete
    (c : event.CreateEvent) (d : event.DeleteEvent) :
  (predicate.CreateFunc (argocd.filterPredicate argocd.assertArgoCD) c = true <->
   metav1.Namespace (event.create_Meta c) = "argocd" /\
   metav1.Name (event.create_Meta c) = "argocd") /\
  (predicate.DeleteFunc (argocd.filterPredicate argocd.assertArgoCD) d = true <->
   metav1.Namespace (event.delete_Meta d) = "argocd" /\
   metav1.Name (event.delete_Meta d) = "argocd") /\
  (predicate.CreateFunc (argocd.filterPredicate argocd.assertArgoCDRoute) c = true <->
   metav1.Namespace (event.create_Meta c) = "argocd" /\
   metav1.Name (event.create_Meta c) = "argocd-server") /\
  (predicate.DeleteFunc (argocd.filterPredicate argocd.assertArgoCDRoute) d = true <->
   metav1.Namespace (event.delete_Meta d) = "argocd" /\
   metav1.Name (event.delete_Meta d) = "argocd-server") /\
  (forall namespace name,
     argocd.assertArgoCD namespace name = true ->
     argocd.assertArgoCDRoute namespace name = false).
Proof.
  split; [|split; [|split; [|split]]].
  - apply assertArgoCD_spec.
  - apply assertArgoCD_spec.
  - apply assertArgoCDRoute_spec.
  - apply assertArgoCDRoute_spec.
  - intros namespace name H. apply assertArgoCD_spec in H as [-> ->]. reflexivity.
Qed.

(** *** The reconciler on sample runs and clusters *)

Lemma refusedCreateTrace_runs :
  runs (@argocd.Reconcile acceptingUtil sampleIcon sampleReconciler sampleRequest)
    refusedCreateTrace (reconcile.zeroResult, Some (errorString "forbidden")).
Proof.
  eexists (inl sampleArgoCD), _. split; [reflexivity|].
  eexists (inl sampleRoute), _. split; [reflexivity|].
  eexists (inr (errors.NewNotFound "argocd")), _. split; [reflexivity|].
  eexists (Some (errorString "forbidden")), _. split; [reflexivity|].
  split; reflexivity.
Defined.

Lemma Reconcile_frame_create_refused :
  runs (@argocd.Reconcile acceptingUtil sampleIcon sampleReconciler sampleRequest)
    refusedCreateTrace (reconcile.zeroResult, Some (errorString "forbidden")) /\
  fst (reconcile.zeroResult, Some (errorString "forbidden"))
    = {| reconcile.Requeue := false; reconcile.RequeueAfter := 0%Z |} /\
  elapsed refusedCreateTrace = 0%Z /\
  (length refusedCreateTrace <= 4)%nat /\
  (length (writes refusedCreateTrace) <= 1)%nat /\
  Forall (fun ev =>
            target ev = Some (KArgoCD, reconcile.NamespacedName sampleRequest) \/
            target ev = Some (KRoute, {| types.Namespace := "argocd";
                                         types.Name := "argocd-server" |}) \/
            target ev = Some (KConsoleLink, {| types.Namespace := "";
                                               types.Name := "argocd" |}))
    refusedCreateTrace /\
  Forall (fun ev =>
            is_write ev = true ->
            target ev = Some (KConsoleLink, {| types.Namespace := "";
                                               types.Name := "argocd" |}))
    refusedCreateTrace.
Proof.
  split; [exact refusedCreateTrace_runs|].
  exact (@Reconcile_frame acceptingUtil sampleIcon sampleReconciler sampleRequest
           _ _ refusedCreateTrace_runs).
Defined.

Lemma Reconcile_failures_returned_create_refused :
  runs (@argocd.Reconcile acceptingUtil sampleIcon sampleReconciler sampleRequest)
    refusedCreateTrace (reconcile.zeroResult, Some (errorString "forbidden")) /\
  In refusedCreate refusedCreateTrace /\
  failure_of refusedCreate = Some (errorString "forbidden") /\
  (snd (reconcile.zeroResult, Some (errorString "forbidden"))
     = Some (errorString "forbidden") \/
   (is_write refusedCreate = false /\
    errors.IsNotFound (errorString "forbidden") = true)).
Proof.
  assert (Hin : In refusedCreate refusedCreateTrace).
  { right. right. right. left. reflexivity. }
  assert (Hfail : failure_of refusedCreate = Some (errorString "forbidden"))
    by reflexivity.
  split; [exact refusedCreateTrace_runs|]. split; [exact Hin|].
  split; [exact Hfail|].
  exact (@Reconcile_failures_returned acceptingUtil sampleIcon sampleReconciler
           sampleRequest _ _ _ _ refusedCreateTrace_runs Hin Hfail).
Defined.

Lemma Reconcile_owner_refused_sample :
  apiserver.lookup KArgoCD (reconcile.NamespacedName sampleRequest)
    (apiserver.store KConsoleLink staleLink sampleCluster) = Some sampleArgoCD /\
  @controllerutil.SetControllerReference rejectingUtil sampleArgoCD
    argocd.newArgoCDRoute (argocd.scheme rejectingReconciler)
    = Some (errorString "no kind is registered for the type") /\
  apiserver.exec
    (@argocd.Reconcile rejectingUtil sampleIcon rejectingReconciler sampleRequest)
    (apiserver.store KConsoleLink staleLink sampleCluster)
  = ((reconcile.zeroResult,
      Some (errorString "no kind is registered for the type")),
     apiserver.store KConsoleLink staleLink sampleCluster,
     [EvGet KArgoCD (reconcile.NamespacedName sampleRequest) (inl sampleArgoCD)]).
Proof.
  assert (H1 : apiserver.lookup KArgoCD (reconcile.NamespacedName sampleRequest)
                 (apiserver.store KConsoleLink staleLink sampleCluster)
               = Some sampleArgoCD) by (vm_compute; reflexivity).
  assert (H2 : @controllerutil.SetControllerReference rejectingUtil sampleArgoCD
                 argocd.newArgoCDRoute (argocd.scheme rejectingReconciler)
               = Some (errorString "no kind is registered for the type"))
    by reflexivity.
  split; [exact H1|]. split; [exact H2|].
  exact (@Reconcile_owner_refused rejectingUtil sampleIcon rejectingReconciler
           sampleRequest _ _ _ H1 H2).
Defined.

Lemma Reconcile_link_follows_inputs_sample :
  let '(res, c', t) :=
    apiserver.exec
      (@argocd.Reconcile acceptingUtil sampleIcon sampleReconciler sampleRequest)
      sampleCluster in
  (forall k key, (k, key) <> (KConsoleLink, linkKey) ->
     apiserver.lookup k key c' = apiserver.lookup k key sampleCluster) /\
  (snd res = None ->
   (present c' (KConsoleLink, linkKey) <->
    present sampleCluster (KArgoCD, reconcile.NamespacedName sampleRequest) /\
    present sampleCluster (KRoute, routeKey))).
Proof.
  exact (@Reconcile_link_follows_inputs acceptingUtil sampleIcon sampleReconciler
           sampleRequest sampleCluster).
Defined.

(** ** The installer with a readiness check of the caller *)

Lemma exec_Install_body_any d o c :
  exists t0,
    within 0 3 6 t0 /\
    Forall (fun ev => forall key,
              target ev <> Some (KClusterServiceVersion, key)) t0 /\
    apiserver.exec (dependency.Install_body d o) c
    = let c3 := ensure KSubscription (dependency.GetSubscription o)
                  (ensure KOperatorGroup (dependency.GetOperatorGroup o)
                     (ensure KNamespace (dependency.GetNamespace o) c)) in
      let '(res, cw, tw) :=
        apiserver.exec
          (dependency.waitForOperator
             {| types.Namespace := dependency.namespace o;
                types.Name := dependency.csv o |} (dependency.isReady d)) c3 in
      (res, cw, t0 ++ tw).
Proof.
  unfold dependency.Install_body. cbv zeta.
  assert (Hstep : forall k (obj : ObjectOf k) c0,
            k <> KClusterServiceVersion ->
            exists t,
              within 0 1 2 t /\
              Forall (fun ev => forall key,
                        target ev <> Some (KClusterServiceVersion, key)) t /\
              apiserver.exec
                (dependency.createResourceIfAbsent d k obj (ObjectKey obj)) c0
              = (None, ensure k obj c0, t)).
  { intros k obj c0 Hk.
    pose proof (exec_createResourceIfAbsent d k obj c0) as E.
    pose proof (exec_runs (dependency.createResourceIfAbsent d k obj
                             (ObjectKey obj)) c0) as R.
    rewrite E in R. cbn [fst snd] in R. eexists. split; [|split; [|exact E]].
    - eapply createResourceIfAbsent_within. exact R.
    - apply createResourceIfAbsent_targets in R. revert R.
      apply List.Forall_impl. intros ev Hev key Heq. rewrite Hev in Heq.
      injection Heq as Hk' _. contradiction. }
  destruct (Hstep KNamespace (dependency.GetNamespace o) c ltac:(discriminate))
    as (t1 & W1 & T1 & E1).
  set (c1 := ensure KNamespace (dependency.GetNamespace o) c) in *.
  destruct (Hstep KOperatorGroup (dependency.GetOperatorGroup o) c1
              ltac:(discriminate)) as (t2 & W2 & T2 & E2).
  set (c2 := ensure KOperatorGroup (dependency.GetOperatorGroup o) c1) in *.
  destruct (Hstep KSubscription (dependency.GetSubscription o) c2
              ltac:(discriminate)) as (t3 & W3 & T3 & E3).
  set (c3 := ensure KSubscription (dependency.GetSubscription o) c2) in *.
  exists (t1 ++ t2 ++ t3). split; [|split].
  - exact (within_app _ _ _ _ _ _ _ _ W1 (within_app _ _ _ _ _ _ _ _ W2 W3)).
  - apply Forall_app. split; [exact T1|]. apply Forall_app. split; assumption.
  - rewrite exec_bind.
    change {| types.Namespace := "";
              types.Name := metav1.Name (corev1.ObjectMeta (dependency.GetNamespace o)) |}
      with (@ObjectKey KNamespace (dependency.GetNamespace o)).
    rewrite E1. rewrite exec_bind.
    change {| types.Namespace :=
                metav1.Namespace (v1.ObjectMeta (dependency.GetOperatorGroup o));
              types.Name :=
                metav1.Name (v1.ObjectMeta (dependency.GetOperatorGroup o)) |}
      with (@ObjectKey KOperatorGroup (dependency.GetOperatorGroup o)).
    rewrite E2. rewrite exec_bind.
    change {| types.Namespace :=
                metav1.Namespace (v1alpha1.sub_ObjectMeta (dependency.GetSubscription o));
              types.Name :=
                metav1.Name (v1alpha1.sub_ObjectMeta (dependency.GetSubscription o)) |}
      with (@ObjectKey KSubscription (dependency.GetSubscription o)).
    rewrite E3.
    destruct (apiserver.exec
                (dependency.waitForOperator
                   {| types.Namespace := dependency.namespace o;
                      types.Name := dependency.csv o |} (dependency.isReady d)) c3)
      as [[res cw] tw].
    rewrite <- !app_assoc. reflexivity.
Qed.

(** X16.  When the Dependency carries a readiness check of its own that
    reports done at once, Install never reads a ClusterServiceVersion: on
    any cluster without faults and for every prefix it returns nil without
    waiting, having ensured the namespace, operator group and subscription
    of the sealed-secrets operator and then those of the ArgoCD operator, and
    having kept every object that was there before. *)
Theorem Install_with_own_readiness_check
    (prefix : string) (c : apiserver.Cluster) :
  let '(res, c', t) :=
    apiserver.exec
      (dependency.Install
         {| dependency.prefix := prefix;
            dependency.isReady := Some (Ret (true, None)) |}) c in
  res = None /\
  elapsed t = 0%Z /\
  Forall (fun ev => forall key,
            target ev <> Some (KClusterServiceVersion, key)) t /\
  (forall x,
     In x (resources (dependency.newSealedSecretsOperator prefix)
           ++ resources (dependency.newArgoCDOperator prefix)) ->
     fst x <> KClusterServiceVersion -> present c' x) /\
  preserved c c'.
Proof.
  unfold dependency.Install.
  cbn [dependency.Install_range dependency.prefix].
  set (d := {| dependency.prefix := prefix;
               dependency.isReady := Some (Ret (true, None)) |}).
  set (o1 := dependency.newSealedSecretsOperator prefix).
  set (o2 := dependency.newArgoCDOperator prefix).
  rewrite exec_bind.
  destruct (exec_Install_body_any d o1 c) as (t1 & Hw1 & Ht1 & E1). rewrite E1.
  cbv zeta. cbn [dependency.isReady d].
  set (c3 := ensure KSubscription (dependency.GetSubscription o1)
               (ensure KOperatorGroup (dependency.GetOperatorGroup o1)
                  (ensure KNamespace (dependency.GetNamespace o1) c))).
  unfold dependency.waitForOperator at 1, wait.PollImmediate.
  cbn [client.bind apiserver.exec].
  rewrite exec_bind.
  destruct (exec_Install_body_any d o2 c3) as (t2 & Hw2 & Ht2 & E2). rewrite E2.
  cbv zeta. cbn [dependency.isReady d].
  set (c6 := ensure KSubscription (dependency.GetSubscription o2)
               (ensure KOperatorGroup (dependency.GetOperatorGroup o2)
                  (ensure KNamespace (dependency.GetNamespace o2) c3))).
  unfold dependency.waitForOperator, wait.PollImmediate.
  cbn [client.bind apiserver.exec].
  assert (H36 : preserved c3 c6) by apply preserved_ensure3.
  assert (H03 : preserved c c3) by apply preserved_ensure3.
  destruct Hw1 as (He1 & _). destruct Hw2 as (He2 & _).
  split; [reflexivity|]. split.
  { rewrite !elapsed_app. cbn [elapsed]. lia. }
  split.
  { rewrite !app_nil_r. apply Forall_app. split; assumption. }
  split.
  - intros x Hin Hk. apply in_app_or in Hin as [Hin|Hin].
    + apply (present_preserved c3 c6 x H36).
      apply present_ensure3; [exact Hin|right; exact Hk].
    + apply present_ensure3; [exact Hin|right; exact Hk].
  - eapply preserved_trans; [exact H03|exact H36].
Qed.
